(** * Preacher portal: the dashboard's data-aggregation layer (firebase-data.js)

    A shallow embedding of the cache, the collection fetchers, the four derived
    views and the live-feed listeners of [firebase-data.js], and the properties
    its specification states about them.

    Conventions of the embedding.
    - Documents are taken at the types the data model gives their fields: a
      count is an integer ([Z]; JavaScript's number arithmetic is exact on the
      integers that occur), a name is a string, [contacts] is an array of
      contact objects.  A field that is absent ([undefined]) is [None].
    - Truthiness is written out: [0] and the empty string are falsy, every
      array and every object is truthy.
    - An object used as a map is the list of its own properties in creation
      order ([JsObject]); enumeration follows the language: array-index keys
      first, ascending, then the other keys in creation order.  [JsObject.get]
      finds own properties only; it is the source's [o[k]] wherever it finds
      a property and at every name that is not a member of
      [Object.prototype] ([JsObject.plain]).  A property that reads a map at
      a name taken from the data, and depends on what is found there, has the
      hypothesis that the name is plain.
    - [Math.floor(n * 1.5)] on an array length [n] is [3 * n / 2] on [Z]
      (the product is exact in binary floating point, [Z.div] rounds down). *)

From Stdlib Require Import ZArith NArith List String Ascii Bool Lia.
From Stdlib Require Import Permutation Sorted.
Import ListNotations.

Local Open Scope string_scope.
Local Open Scope list_scope.
Local Open Scope Z_scope.

(* ================================================================== *)
(** * Part I. Definitions *)
(* ================================================================== *)

(** ** Truthiness and the [||] idiom *)

Module Js.

(** A loosely typed field of a contact record. *)
Inductive value : Type :=
| JUndefined
| JNull
| JBool (b : bool)
| JNumber (n : Z)
| JString (s : string).

Definition truthy (v : value) : bool :=
  match v with
  | JUndefined | JNull => false
  | JBool b => b
  | JNumber n => negb (n =? 0)
  | JString s => negb (s =? "")%string
  end.

(** [v === true] *)
Definition is_true (v : value) : bool :=
  match v with JBool true => true | _ => false end.

(** [v === s] for a string literal [s] *)
Definition is_string (v : value) (s : string) : bool :=
  match v with JString s' => (s' =? s)%string | _ => false end.

(** Truthiness of an optional number and of an optional string. *)
Definition truthy_num (o : option Z) : bool :=
  match o with Some n => negb (n =? 0) | None => false end.

Definition truthy_str (o : option string) : bool :=
  match o with Some s => negb (s =? "")%string | None => false end.

(** [x || 0] on an optional number. *)
Definition num_or_zero (o : option Z) : Z :=
  match o with Some n => n | None => 0 end.

(** [a || b] where [a] is an optional string and [b] a string. *)
Definition str_or (o : option string) (d : string) : string :=
  if truthy_str o then match o with Some s => s | None => d end else d.

(** [a || b] where both are optional strings. *)
Definition str_orelse (a b : option string) : option string :=
  if truthy_str a then a else b.

(** The property key an optional string is converted to by [obj[k]]. *)
Definition prop_key (o : option string) : string :=
  match o with Some s => s | None => "undefined" end.

(** [Math.floor(n * 1.5)] for an array length [n]. *)
Definition floor_times_1_5 (n : nat) : Z := (3 * Z.of_nat n) / 2.

End Js.

(** ** Objects used as maps *)

Module JsObject.

Definition t (V : Type) : Type := list (string * V).

Definition empty {V : Type} : t V := [].

(** [o[k]], own properties only. *)
Fixpoint get {V : Type} (o : t V) (k : string) : option V :=
  match o with
  | [] => None
  | (k', v) :: o' => if (k' =? k)%string then Some v else get o' k
  end.

(** The member names of [Object.prototype].  On a plain object, [o[k]] at
    such a name finds the inherited member when [o] has no own property [k];
    [get] answers [None] there.  At every other name [get] is [o[k]]. *)
Definition prototype_members : list string :=
  ["constructor"; "__defineGetter__"; "__defineSetter__"; "hasOwnProperty";
   "__lookupGetter__"; "__lookupSetter__"; "isPrototypeOf";
   "propertyIsEnumerable"; "toString"; "valueOf"; "__proto__";
   "toLocaleString"].

Definition inherited (k : string) : bool :=
  existsb (String.eqb k) prototype_members.

(** A name at which an object has what it owns and nothing else. *)
Definition plain (k : string) : bool := negb (inherited k).

(** [o[k].field = ...]: the value under an existing key is changed in place. *)
Fixpoint modify {V : Type} (o : t V) (k : string) (f : V -> V) : t V :=
  match o with
  | [] => []
  | (k', v) :: o' =>
      if (k' =? k)%string then (k', f v) :: o' else (k', v) :: modify o' k f
  end.

(** [o[k] = v]: an existing property keeps its place, a new one goes last. *)
Fixpoint set {V : Type} (o : t V) (k : string) (v : V) : t V :=
  match o with
  | [] => [(k, v)]
  | (k', v') :: o' =>
      if (k' =? k)%string then (k', v) :: o' else (k', v') :: set o' k v
  end.

Definition digit_of (c : ascii) : option N :=
  let n := N_of_ascii c in
  if ((48 <=? n) && (n <=? 57))%N then Some (n - 48)%N else None.

Fixpoint parse_digits (s : string) (acc : N) : option N :=
  match s with
  | EmptyString => Some acc
  | String c s' =>
      match digit_of c with
      | Some d => parse_digits s' (10 * acc + d)%N
      | None => None
      end
  end.

(** A key is an array index when it is the canonical decimal numeral of an
    integer in [0, 2^32 - 2]. *)
Definition array_index (s : string) : option N :=
  match s with
  | EmptyString => None
  | String "0"%char EmptyString => Some 0%N
  | String "0"%char _ => None
  | _ =>
      match parse_digits s 0 with
      | Some n => if (n <=? 4294967294)%N then Some n else None
      | None => None
      end
  end.

Definition is_index (s : string) : bool :=
  match array_index s with Some _ => true | None => false end.

Definition index_of (s : string) : N :=
  match array_index s with Some n => n | None => 0%N end.

(** Insertion of a property among index-keyed properties sorted ascending. *)
Fixpoint insert_by_index {V : Type} (p : string * V) (l : list (string * V))
  : list (string * V) :=
  match l with
  | [] => [p]
  | q :: l' =>
      if (index_of (fst p) <=? index_of (fst q))%N then p :: q :: l'
      else q :: insert_by_index p l'
  end.

Fixpoint sort_by_index {V : Type} (l : list (string * V)) : list (string * V) :=
  match l with
  | [] => []
  | p :: l' => insert_by_index p (sort_by_index l')
  end.

(** [Object.entries(o)]: the own properties in enumeration order. *)
Definition entries {V : Type} (o : t V) : list (string * V) :=
  sort_by_index (filter (fun p => is_index (fst p)) o)
  ++ filter (fun p => negb (is_index (fst p))) o.

(** [Object.keys(o)] and [Object.values(o)]. *)
Definition keys {V : Type} (o : t V) : list string := map fst (entries o).
Definition values {V : Type} (o : t V) : list V := map snd (entries o).

(** The object built by [snapshot.forEach(doc => o[doc.id] = doc.data())]. *)
Definition of_docs {V : Type} (docs : list (string * V)) : t V :=
  fold_left (fun o d => set o (fst d) (snd d)) docs empty.

End JsObject.

(** ** Data model *)

Record contact : Type := mkContact {
  isNewContact : Js.value;
  isNew : Js.value;
  contactType : Js.value
}.

(** [booksDistributed] is a bare count or counts by book size. *)
Inductive books : Type :=
| BooksCount (n : Z)
| BooksBySize (big medium small : option Z).

(** [createdAt] is a store timestamp (here: its ISO rendering) or any other
    value, which has no [toDate]. *)
Inductive timestamp : Type :=
| StoreTimestamp (iso : string)
| OtherTime (s : string).

(** [s.split('T')[0]] *)
Fixpoint before_T (s : string) : string :=
  match s with
  | EmptyString => EmptyString
  | String c s' => if (c =? "T")%char then EmptyString else String c (before_T s')
  end.

Record report : Type := mkReport {
  id : option string;
  createdBy : option string;
  categoryId : option string;
  categoryName : option string;
  booksDistributed : option books;
  contacts : option (list contact);
  newContacts : option Z;
  prasadamServed : option Z;
  date : option string;
  createdAt : option timestamp
}.

Record category : Type := mkCategory {
  cat_categoryName : option string;
  cat_name : option string
}.

Record user : Type := mkUser {
  displayName : option string;
  name : option string;
  email : option string;
  temple : option string;
  role : option string
}.

Definition categories_map : Type := JsObject.t category.
Definition users_map : Type := JsObject.t user.

(** The empty object [{}] that stands in for a missing category or user. *)
Definition no_category : category := mkCategory None None.
Definition no_user : user := mkUser None None None None None.

(** ** Building blocks shared by the views *)

(** [categories[report.categoryId] || {}] and [users[report.createdBy] || {}] *)
Definition category_of (categories : categories_map) (r : report) : category :=
  match JsObject.get categories (Js.prop_key (categoryId r)) with
  | Some c => c
  | None => no_category
  end.

Definition author_of (users : users_map) (r : report) : user :=
  match JsObject.get users (Js.prop_key (createdBy r)) with
  | Some u => u
  | None => no_user
  end.

(** The book count of a report, as each view computes it. *)
Definition bookCount (r : report) : Z :=
  match booksDistributed r with
  | None => 0
  | Some (BooksCount n) => if negb (n =? 0) then n else 0
  | Some (BooksBySize b m s) =>
      Js.num_or_zero b + Js.num_or_zero m + Js.num_or_zero s
  end.

(** The filter predicate on contacts. *)
Definition isNewContactEntry (c : contact) : bool :=
  Js.is_true (isNewContact c) || Js.is_true (isNew c)
  || (Js.truthy (contactType c) && Js.is_string (contactType c) "new").

(** ** calculatePreachingImpact *)

(** The running totals of the [forEach] loop.  [templesWithReports] is the
    [Set]: its members in insertion order, without repetition. *)
Record totals : Type := mkTotals {
  t_books : Z;
  t_prasadam : Z;
  t_newContacts : Z;
  t_temples : list string
}.

Definition set_add (s : list string) (x : string) : list string :=
  if existsb (String.eqb x) s then s else s ++ [x].

Definition impact_newContacts (r : report) (acc : Z) : Z :=
  match contacts r with
  | Some cs =>
      let fresh := filter isNewContactEntry cs in
      acc + (if (0 <? Z.of_nat (List.length fresh))
             then Z.of_nat (List.length fresh)
             else Z.of_nat (List.length cs))
  | None =>
      if Js.truthy_num (newContacts r)
      then acc + Js.num_or_zero (newContacts r)
      else acc
  end.

Definition impact_prasadam (r : report) (acc : Z) : Z :=
  if Js.truthy_num (prasadamServed r) then acc + Js.num_or_zero (prasadamServed r)
  else match contacts r with
       | Some cs => acc + Js.floor_times_1_5 (List.length cs)
       | None => acc
       end.

Definition impact_temples (users : users_map) (r : report) (acc : list string)
  : list string :=
  if Js.truthy_str (createdBy r) then
    match JsObject.get users (Js.prop_key (createdBy r)) with
    | Some u =>
        if Js.truthy_str (temple u)
        then set_add acc (Js.prop_key (temple u))
        else acc
    | None => acc
    end
  else acc.

(** One iteration of [reports.forEach(report => ...)]. *)
Definition impact_step (users : users_map) (acc : totals) (r : report) : totals :=
  {| t_books := t_books acc + bookCount r;
     t_prasadam := impact_prasadam r (t_prasadam acc);
     t_newContacts := impact_newContacts r (t_newContacts acc);
     t_temples := impact_temples users r (t_temples acc) |}.

Record impact : Type := mkImpact {
  totalReports : Z;
  totalBooksDistributed : Z;
  totalPrasadamServed : Z;
  livesTouched : Z;
  activePreachers : Z;
  citiesCovered : Z
}.

(** The body of [calculatePreachingImpact] once both fetches have returned. *)
Definition impact_of (reports : list report) (users : users_map) : impact :=
  let acc := fold_left (impact_step users) reports (mkTotals 0 0 0 []) in
  {| totalReports := Z.of_nat (List.length reports);
     totalBooksDistributed := t_books acc;
     totalPrasadamServed :=
       if negb (t_prasadam acc =? 0) then t_prasadam acc
       else t_newContacts acc * 2;
     livesTouched := t_newContacts acc;
     activePreachers := Z.of_nat (List.length (JsObject.keys users));
     citiesCovered := Z.of_nat (List.length (t_temples acc)) |}.

Definition zero_impact : impact := mkImpact 0 0 0 0 0 0.

(** ** getRecentReports *)

Record row : Type := mkRow {
  row_id : option string;
  row_date : string;
  row_preacher : string;
  row_temple : string;
  row_activity : string;
  row_books : Z;
  row_prasadam : Z;
  row_contacts : Z;
  row_createdAt : option timestamp
}.

(** [arr.slice(0, n)]; a negative [n] counts from the end. *)
Definition slice0 {A : Type} (n : Z) (l : list A) : list A :=
  if 0 <=? n then firstn (Z.to_nat n) l
  else firstn (Z.to_nat (Z.of_nat (List.length l) + n)) l.

(** The prasadam count of a row and of a region: like [impact_prasadam], with
    the array test on [contacts] written in the source. *)
Definition prasadamCount (r : report) : Z :=
  if Js.truthy_num (prasadamServed r) then Js.num_or_zero (prasadamServed r)
  else match contacts r with
       | Some cs => Js.floor_times_1_5 (List.length cs)
       | None => 0
       end.

(** The activity name of an enriched row. *)
Definition activityName (c : category) (r : report) : string :=
  if Js.truthy_str (cat_categoryName c) then Js.prop_key (cat_categoryName c)
  else if Js.truthy_str (categoryName r) then Js.prop_key (categoryName r)
  else if Js.truthy_str (cat_name c) then Js.prop_key (cat_name c)
  else "Unknown Activity".

(** [createdAt?.toDate?.()?.toISOString().split('T')[0]] *)
Definition createdAt_day (r : report) : option string :=
  match createdAt r with
  | Some (StoreTimestamp iso) => Some (before_T iso)
  | _ => None
  end.

Definition enrich (categories : categories_map) (users : users_map) (r : report)
  : row :=
  let category := category_of categories r in
  let user := author_of users r in
  {| row_id := id r;
     row_date := Js.str_or (date r) (Js.str_or (createdAt_day r) "N/A");
     row_preacher :=
       Js.str_or (displayName user)
         (Js.str_or (name user) (Js.str_or (email user) "Unknown"));
     row_temple := Js.str_or (temple user) "N/A";
     row_activity := activityName category r;
     row_books := bookCount r;
     row_prasadam := prasadamCount r;
     row_contacts :=
       match contacts r with
       | Some cs => Z.of_nat (List.length cs)
       | None => 0
       end;
     row_createdAt := createdAt r |}.

(** The body of [getRecentReports] once the three fetches have returned. *)
Definition recent_of (limitCount : Z) (reports : list report)
    (categories : categories_map) (users : users_map) : list row :=
  map (enrich categories users) (slice0 limitCount reports).

(** ** getChartData *)

Record region : Type := mkRegion {
  books_ : Z;
  prasadam_ : Z;
  events_ : Z
}.

Record chart : Type := mkChart {
  regions : list string;
  booksData : list Z;
  prasadamData : list Z;
  eventsData : list Z
}.

(** The group key of a report: [(users[report.createdBy] || {}).temple || 'Unknown'] *)
Definition regionKey (users : users_map) (r : report) : string :=
  let user := author_of users r in
  Js.str_or (temple user) "Unknown".

(** One iteration of the [forEach] loop over [regionData]. *)
Definition chart_step (users : users_map) (regionData : JsObject.t region)
    (r : report) : JsObject.t region :=
  let temple := regionKey users r in
  let regionData :=
    match JsObject.get regionData temple with
    | Some _ => regionData
    | None => JsObject.set regionData temple (mkRegion 0 0 0)
    end in
  JsObject.modify regionData temple
    (fun g => {| books_ := books_ g + bookCount r;
                 prasadam_ := prasadam_ g + prasadamCount r;
                 events_ := events_ g + 1 |}).

Definition regionData_of (reports : list report) (users : users_map)
  : JsObject.t region :=
  fold_left (chart_step users) reports JsObject.empty.

(** [keys.map(k => regionData[k].field)]; reading a field of a missing group
    is the [TypeError] that sends the source to its [catch] branch. *)
Fixpoint series (regionData : JsObject.t region) (field : region -> Z)
    (ks : list string) : option (list Z) :=
  match ks with
  | [] => Some []
  | k :: ks' =>
      match JsObject.get regionData k, series regionData field ks' with
      | Some g, Some zs => Some (field g :: zs)
      | _, _ => None
      end
  end.

Definition fallback_chart : chart :=
  {| regions := ["Kuala Lumpur"; "Penang"; "Johor"; "Ipoh"; "Kuching"];
     booksData := [0; 0; 0; 0; 0];
     prasadamData := [0; 0; 0; 0; 0];
     eventsData := [0; 0; 0; 0; 0] |}.

(** The body of [getChartData] once both fetches have returned; [None] is
    the [TypeError] of reading a field of a missing group. *)
Definition chart_of (reports : list report) (users : users_map) : option chart :=
  let regionData := regionData_of reports users in
  let regions := firstn 5 (JsObject.keys regionData) in
  match series regionData books_ regions,
        series regionData prasadam_ regions,
        series regionData events_ regions with
  | Some b, Some p, Some e =>
      Some {| regions := regions; booksData := b; prasadamData := p;
              eventsData := e |}
  | _, _, _ => None
  end.

(** ** getPieChartData *)

Definition slice : Type := (string * Z)%type.

(** The label of a category of the directory. *)
Definition categoryLabel (c : category) : string :=
  Js.str_or (cat_categoryName c) (Js.str_or (cat_name c) "Unknown Category").

(** The category name a report is counted under. *)
Definition pieCategoryName (c : category) (r : report) : string :=
  if Js.truthy_str (cat_categoryName c) then Js.prop_key (cat_categoryName c)
  else if Js.truthy_str (cat_name c) then Js.prop_key (cat_name c)
  else if Js.truthy_str (categoryName r) then Js.prop_key (categoryName r)
  else "Other".

(** [if (!categoryData[k]) categoryData[k] = 0] *)
Definition init_count (categoryData : JsObject.t Z) (k : string) : JsObject.t Z :=
  if Js.truthy_num (JsObject.get categoryData k) then categoryData
  else JsObject.set categoryData k 0.

Definition pie_init (categories : categories_map) : JsObject.t Z :=
  fold_left (fun d c => init_count d (categoryLabel c))
    (JsObject.values categories) JsObject.empty.

Definition pie_step (categories : categories_map) (categoryData : JsObject.t Z)
    (r : report) : JsObject.t Z :=
  let category := category_of categories r in
  let k := pieCategoryName category r in
  let d := init_count categoryData k in
  JsObject.set d k (Js.num_or_zero (JsObject.get d k) + 1).

Definition categoryData_of (reports : list report) (categories : categories_map)
  : JsObject.t Z :=
  fold_left (pie_step categories) reports (pie_init categories).

(** [arr.sort((a, b) => b.value - a.value)]: the sort is stable. *)
Fixpoint insert_desc (x : slice) (l : list slice) : list slice :=
  match l with
  | [] => [x]
  | y :: l' => if snd x <? snd y then y :: insert_desc x l' else x :: y :: l'
  end.

Definition sort_desc (l : list slice) : list slice :=
  fold_right insert_desc [] l.

(** The body of [getPieChartData] once both fetches have returned. *)
Definition pie_of (reports : list report) (categories : categories_map)
  : list slice :=
  let pieData :=
    sort_desc
      (filter (fun e => 0 <? snd e)
         (JsObject.entries (categoryData_of reports categories))) in
  match pieData with
  | [] => map (fun c => (categoryLabel c, 0)) (JsObject.values categories)
  | _ => pieData
  end.

Definition fallback_pie : list slice :=
  [("Book Distribution", 0); ("Harinama Sankirtana", 0); ("Food for Life", 0);
   ("Temple Programs", 0); ("University Programs", 0)].

(** ** The store, the cache and the effects of a call *)

Inductive error : Type :=
| StoreError (code : string)
| TypeError (msg : string).

Record query : Type := mkQuery {
  q_collection : string;
  q_where : list (string * Js.value);
  q_orderBy : option (string * string);
  q_limit : option nat
}.

(** A document of [preachingResources], with the fields the code reads. *)
Record resource_doc : Type := mkResourceDoc {
  rd_id : option string;
  rd_uploadedAt : option string;
  rd_createdAt : option timestamp;
  rd_size : option Z
}.

Record resource : Type := mkResource {
  res_id : string;
  res_data : resource_doc;
  res_uploadedAt : string;
  res_formattedSize : string
}.

(** The external store at one moment.  [st_activityReports] lists the reports
    as the store serves them under [orderBy('createdAt', 'desc')];
    [st_refuses] says which one-shot queries fail and [st_rejects] which
    subscriptions throw when they are set up. *)
Record store_t : Type := mkStore {
  st_activityReports : list (string * report);
  st_preachingCategories : list (string * category);
  st_users : list (string * user);
  st_preachingResources : query -> list (string * resource_doc);
  st_refuses : query -> option error;
  st_rejects : query -> option error;
  st_latency : Z
}.

Module DataCache.

Record t : Type := mk {
  activityReports : option (list report);
  preachingCategories : option categories_map;
  users : option users_map;
  lastFetch : option Z
}.

End DataCache.

(** What a call does that its caller can observe besides its result. *)
Inductive event : Type :=
| GetDocs (q : query)
| OnSnapshot (q : query)
| ConsoleError (msg : string)
| ReportsCallback (reports : list report)
| ResourcesCallback (resources : list resource).

Record world : Type := mkWorld {
  dataCache : DataCache.t;
  store : store_t;
  clock : Z;
  trace : list event
}.

Inductive outcome (A : Type) : Type :=
| Ok (a : A)
| Throw (e : error).
Arguments Ok {A} a.
Arguments Throw {A} e.

(** Computations that read and write the world and may throw. *)
Definition M (A : Type) : Type := world -> outcome A * world.

Definition ret {A : Type} (a : A) : M A := fun w => (Ok a, w).

Definition bind {A B : Type} (m : M A) (k : A -> M B) : M B :=
  fun w => match m w with
           | (Ok a, w') => k a w'
           | (Throw e, w') => (Throw e, w')
           end.

Definition throw {A : Type} (e : error) : M A := fun w => (Throw e, w).

(** [try { m } catch (e) { h e }] *)
Definition try_catch {A : Type} (m : M A) (h : error -> M A) : M A :=
  fun w => match m w with
           | (Ok a, w') => (Ok a, w')
           | (Throw e, w') => h e w'
           end.

Declare Scope js_scope.
Delimit Scope js_scope with js.
Notation "x <- c ;; k" := (bind c (fun x => k))
  (at level 61, c at next level, right associativity) : js_scope.
Notation "c ;;; k" := (bind c (fun _ => k))
  (at level 61, right associativity) : js_scope.
Local Open Scope js_scope.

Definition emit (ev : event) : M unit :=
  fun w => (Ok tt, mkWorld (dataCache w) (store w) (clock w) (trace w ++ [ev])).

Definition console_error (msg : string) : M unit := emit (ConsoleError msg).

Definition Date_now : M Z := fun w => (Ok (clock w), w).

Definition read_cache : M DataCache.t := fun w => (Ok (dataCache w), w).

Definition write_cache (f : DataCache.t -> DataCache.t) : M unit :=
  fun w => (Ok tt, mkWorld (f (dataCache w)) (store w) (clock w) (trace w)).

Definition set_activityReports (v : list report) (c : DataCache.t) : DataCache.t :=
  DataCache.mk (Some v) (DataCache.preachingCategories c) (DataCache.users c)
    (DataCache.lastFetch c).

Definition set_preachingCategories (v : categories_map) (c : DataCache.t)
  : DataCache.t :=
  DataCache.mk (DataCache.activityReports c) (Some v) (DataCache.users c)
    (DataCache.lastFetch c).

Definition set_users (v : users_map) (c : DataCache.t) : DataCache.t :=
  DataCache.mk (DataCache.activityReports c) (DataCache.preachingCategories c)
    (Some v) (DataCache.lastFetch c).

Definition set_lastFetch (v : Z) (c : DataCache.t) : DataCache.t :=
  DataCache.mk (DataCache.activityReports c) (DataCache.preachingCategories c)
    (DataCache.users c) (Some v).

(** [await getDocs(q)]: the query reaches the store, time passes, and the
    store answers or fails. *)
Definition getDocs {D : Type} (answer : store_t -> query -> list D) (q : query)
  : M (list D) :=
  fun w =>
    let w' := mkWorld (dataCache w) (store w) (clock w + st_latency (store w))
                (trace w ++ [GetDocs q]) in
    match st_refuses (store w) q with
    | Some e => (Throw e, w')
    | None => (Ok (answer (store w) q), w')
    end.

(** What the store answers to a query on [activityReports] ordered by
    creation time, newest first. *)
Definition reports_answer (s : store_t) (q : query) : list (string * report) :=
  match q_limit q with
  | Some n => firstn n (st_activityReports s)
  | None => st_activityReports s
  end.

Definition categories_answer (s : store_t) (q : query)
  : list (string * category) := st_preachingCategories s.

Definition users_answer (s : store_t) (q : query) : list (string * user) :=
  st_users s.

(** ** The cache *)

Definition CACHE_DURATION : Z := 5 * 60 * 1000.

(** The truth value of [dataCache.lastFetch && (Date.now() - dataCache.lastFetch) < CACHE_DURATION] *)
Definition isCacheValid : M bool :=
  c <- read_cache ;;
  match DataCache.lastFetch c with
  | Some t =>
      if negb (t =? 0)
      then (now <- Date_now ;; ret (now - t <? CACHE_DURATION))
      else ret false
  | None => ret false
  end.

Definition clearCache : M unit :=
  write_cache (fun _ => DataCache.mk None None None None).

(** ** The collection fetchers *)

(** [{ id: doc.id, ...doc.data() }] *)
Definition report_of_doc (d : string * report) : report :=
  let data := snd d in
  mkReport (match id data with Some i => Some i | None => Some (fst d) end)
    (createdBy data) (categoryId data) (categoryName data)
    (booksDistributed data) (contacts data) (newContacts data)
    (prasadamServed data) (date data) (createdAt data).

Definition reports_query : query :=
  mkQuery "activityReports" [] (Some ("createdAt", "desc")) None.

Definition categories_query : query :=
  mkQuery "preachingCategories" [] None None.

Definition users_query : query := mkQuery "users" [] None None.

Definition fetchActivityReports : M (list report) :=
  try_catch
    (valid <- isCacheValid ;;
     c <- read_cache ;;
     match valid, DataCache.activityReports c with
     | true, Some cached => ret cached
     | _, _ =>
         querySnapshot <- getDocs reports_answer reports_query ;;
         let reports := map report_of_doc querySnapshot in
         write_cache (set_activityReports reports) ;;;
         now <- Date_now ;;
         write_cache (set_lastFetch now) ;;;
         ret reports
     end)
    (fun _ => console_error "Error fetching activity reports:" ;;; ret []).

Definition fetchPreachingCategories : M categories_map :=
  try_catch
    (valid <- isCacheValid ;;
     c <- read_cache ;;
     match valid, DataCache.preachingCategories c with
     | true, Some cached => ret cached
     | _, _ =>
         querySnapshot <- getDocs categories_answer categories_query ;;
         let categories := JsObject.of_docs querySnapshot in
         write_cache (set_preachingCategories categories) ;;;
         ret categories
     end)
    (fun _ => console_error "Error fetching preaching categories:" ;;;
              ret JsObject.empty).

Definition fetchUsers : M users_map :=
  try_catch
    (valid <- isCacheValid ;;
     c <- read_cache ;;
     match valid, DataCache.users c with
     | true, Some cached => ret cached
     | _, _ =>
         querySnapshot <- getDocs users_answer users_query ;;
         let users := JsObject.of_docs querySnapshot in
         write_cache (set_users users) ;;;
         ret users
     end)
    (fun _ => console_error "Error fetching users:" ;;; ret JsObject.empty).

(** ** The four derived views *)

Definition calculatePreachingImpact : M impact :=
  try_catch
    (reports <- fetchActivityReports ;;
     users <- fetchUsers ;;
     ret (impact_of reports users))
    (fun _ => console_error "Error calculating preaching impact:" ;;;
              ret zero_impact).

Definition getRecentReports (limitCount : Z) : M (list row) :=
  try_catch
    (reports <- fetchActivityReports ;;
     categories <- fetchPreachingCategories ;;
     users <- fetchUsers ;;
     ret (recent_of limitCount reports categories users))
    (fun _ => console_error "Error getting recent reports:" ;;; ret []).

Definition getChartData : M chart :=
  try_catch
    (reports <- fetchActivityReports ;;
     users <- fetchUsers ;;
     match chart_of reports users with
     | Some c => ret c
     | None => throw (TypeError "Cannot read properties of undefined")
     end)
    (fun _ => console_error "Error getting chart data:" ;;; ret fallback_chart).

Definition getPieChartData : M (list slice) :=
  try_catch
    (reports <- fetchActivityReports ;;
     categories <- fetchPreachingCategories ;;
     ret (pie_of reports categories))
    (fun _ => console_error "Error getting pie chart data:" ;;; ret fallback_pie).

(** ** Live feeds *)

(** What [onSnapshot] registers: the query, the observer of snapshots and,
    when one was passed, the observer of errors. *)
Record subscription (D : Type) : Type := mkSubscription {
  sub_query : query;
  sub_next : list D -> M unit;
  sub_error : option (error -> M unit)
}.
Arguments mkSubscription {D} _ _ _.
Arguments sub_query {D} _.
Arguments sub_next {D} _.
Arguments sub_error {D} _.

Definition onSnapshot {D : Type} (q : query) (next : list D -> M unit)
    (onError : option (error -> M unit)) : M (subscription D) :=
  fun w =>
    match st_rejects (store w) q with
    | Some e => (Throw e, w)
    | None =>
        (Ok (mkSubscription q next onError),
         mkWorld (dataCache w) (store w) (clock w) (trace w ++ [OnSnapshot q]))
    end.

(** What the feed sends to a subscription. *)
Inductive feed_event (D : Type) : Type :=
| Snapshot (docs : list D)
| ListenError (e : error).
Arguments Snapshot {D} docs.
Arguments ListenError {D} e.

(** Delivery of a feed event.  An error that finds no error observer is
    reported by the store's client on the console; no code of the caller runs. *)
Definition deliver {D : Type} (s : subscription D) (ev : feed_event D) : M unit :=
  match ev with
  | Snapshot docs => sub_next s docs
  | ListenError e =>
      match sub_error s with
      | Some onError => onError e
      | None => console_error "Uncaught Error in snapshot listener:"
      end
  end.

(** The snapshot the store pushes to a subscription on [activityReports]. *)
Definition push_reports (s : subscription (string * report)) : M unit :=
  fun w => deliver s (Snapshot (reports_answer (store w) (sub_query s))) w.

Definition reports_live_query : query :=
  mkQuery "activityReports" [] (Some ("createdAt", "desc")) (Some 50%nat).

(** A call of the registered callback, recorded before it runs. *)
Definition call_reports (callback : list report -> M unit) (reports : list report)
  : M unit :=
  emit (ReportsCallback reports) ;;; callback reports.

Definition call_resources (callback : list resource -> M unit)
    (resources : list resource) : M unit :=
  emit (ResourcesCallback resources) ;;; callback resources.

(** [None] is the [null] returned when the listener could not be set up. *)
Definition listenToActivityReports (callback : list report -> M unit)
  : M (option (subscription (string * report))) :=
  try_catch
    (s <- onSnapshot reports_live_query
            (fun querySnapshot =>
               let reports := map report_of_doc querySnapshot in
               write_cache (set_activityReports reports) ;;;
               now <- Date_now ;;
               write_cache (set_lastFetch now) ;;;
               call_reports callback reports)
            None ;;
     ret (Some s))
    (fun _ => console_error "Error setting up real-time listener:" ;;; ret None).

(** The world with one more event in its trace. *)
Definition emitted (w : world) (ev : event) : world :=
  mkWorld (dataCache w) (store w) (clock w) (trace w ++ [ev]).

(** A callback that returns normally and does nothing else. *)
Definition quiet {A : Type} : A -> M unit := fun _ => ret tt.

Section Resources.

(** The rendering helpers of the resources code, which this development does
    not look into: the display size of a byte count, the ISO rendering of the
    current time, and the sort by upload date, newest first. *)
Variable formatFileSize : Z -> string.
Variable toISOString : Z -> string.
Variable sortNewestFirst : list resource -> list resource.

Definition resources_query (category : option string) : query :=
  if Js.truthy_str category
  then mkQuery "preachingResources"
         [("category", Js.JString (Js.prop_key category));
          ("isActive", Js.JBool true)] None None
  else mkQuery "preachingResources" [("isActive", Js.JBool true)] None None.

(** [{ id: doc.id, ...data, uploadedAt: ..., formattedSize: ... }] *)
Definition resource_of_doc (now : Z) (d : string * resource_doc) : resource :=
  let data := snd d in
  {| res_id := fst d;
     res_data := data;
     res_uploadedAt :=
       Js.str_or (rd_uploadedAt data)
         (Js.str_or
            (match rd_createdAt data with
             | Some (StoreTimestamp iso) => Some iso
             | _ => None
             end)
            (toISOString now));
     res_formattedSize := formatFileSize (Js.num_or_zero (rd_size data)) |}.

Definition resources_of (now : Z) (docs : list (string * resource_doc))
  : list resource :=
  sortNewestFirst (map (resource_of_doc now) docs).

Definition fetchResources (category : option string) : M (list resource) :=
  try_catch
    (querySnapshot <-
       getDocs (fun s q => st_preachingResources s q) (resources_query category) ;;
     now <- Date_now ;;
     ret (resources_of now querySnapshot))
    (fun _ => console_error "Error fetching resources:" ;;; ret []).

(** The error observer of the resources listener:
    [fetchResources(category).then(callback).catch(... callback([]))].
    A [Throw] of this computation is a rejection nobody handles. *)
Definition resources_onError (category : option string)
    (callback : list resource -> M unit) (e : error) : M unit :=
  console_error "Real-time listener error for resources:" ;;;
  try_catch
    (resources <- fetchResources category ;;
     call_resources callback resources)
    (fun _ => console_error "Manual fallback fetch failed:" ;;;
              call_resources callback []).

Definition listenToResources (category : option string)
    (callback : list resource -> M unit)
  : M (option (subscription (string * resource_doc))) :=
  try_catch
    (s <- onSnapshot (resources_query category)
            (fun querySnapshot =>
               now <- Date_now ;;
               call_resources callback (resources_of now querySnapshot))
            (Some (resources_onError category callback)) ;;
     ret (Some s))
    (fun _ => console_error "Error setting up resources listener:" ;;; ret None).

End Resources.

(** ** Gallery images (fetchGalleryImages) *)

(** A document of [galleryImages], with the fields the code reads into the
    result. *)
Record image_doc : Type := mkImageDoc {
  im_title : option string;
  im_category : option string;
  im_url : option string;
  im_filename : option string;
  im_uploadedAt : option string;
  im_createdAt : option timestamp;
  im_date : option string
}.

(** An entry of the listing that debugGalleryImages builds. *)
Record debug_entry : Type := mkDebugEntry {
  dbg_id : string;
  dbg_title : option string;
  dbg_category : option string;
  dbg_url : option string;
  dbg_filename : option string;
  dbg_uploadedAt : string
}.

(** [createdAt?.toDate?.()?.toISOString()] of an image document. *)
Definition image_createdAt_iso (data : image_doc) : option string :=
  match im_createdAt data with
  | Some (StoreTimestamp iso) => Some iso
  | _ => None
  end.

Definition debug_entry_of (d : string * image_doc) : debug_entry :=
  let data := snd d in
  {| dbg_id := fst d;
     dbg_title := im_title data;
     dbg_category := im_category data;
     dbg_url := im_url data;
     dbg_filename := im_filename data;
     dbg_uploadedAt :=
       Js.str_or (im_uploadedAt data)
         (Js.str_or (image_createdAt_iso data) "N/A") |}.

(** [data.category || 'unknown'] *)
Definition debug_category (d : string * image_doc) : string :=
  Js.str_or (im_category (snd d)) "unknown".

(** One iteration of the loop of debugGalleryImages. *)
Definition debug_step (imagesByCategory : JsObject.t (list debug_entry))
    (d : string * image_doc) : JsObject.t (list debug_entry) :=
  let category := debug_category d in
  let imagesByCategory :=
    match JsObject.get imagesByCategory category with
    | Some _ => imagesByCategory
    | None => JsObject.set imagesByCategory category []
    end in
  JsObject.modify imagesByCategory category (fun l => l ++ [debug_entry_of d]).

Record image : Type := mkImage {
  img_id : string;
  img_data : image_doc;
  img_uploadedAt : string;
  img_date : string
}.

Section Gallery.

(** What this development does not look into: what the store answers to a
    query on [galleryImages], the ISO rendering of the current time, and the
    sort by date, newest first.  [console.warn] and [console.log] are not
    recorded. *)
Variable gallery_answer : store_t -> query -> list (string * image_doc).
Variable toISOString : Z -> string.
Variable sortNewestFirst : list image -> list image.

Definition gallery_ordered_query (category : option string) : query :=
  if Js.truthy_str category
  then mkQuery "galleryImages" [("category", Js.JString (Js.prop_key category))]
         (Some ("createdAt", "desc")) None
  else mkQuery "galleryImages" [] (Some ("createdAt", "desc")) None.

Definition gallery_plain_query (category : option string) : query :=
  if Js.truthy_str category
  then mkQuery "galleryImages" [("category", Js.JString (Js.prop_key category))]
         None None
  else mkQuery "galleryImages" [] None None.

(** [{ id: doc.id, ...data, uploadedAt: ..., date: ... }] *)
Definition image_of_doc (now : Z) (d : string * image_doc) : image :=
  let data := snd d in
  let createdAt_iso := image_createdAt_iso data in
  {| img_id := fst d;
     img_data := data;
     img_uploadedAt :=
       Js.str_or (im_uploadedAt data)
         (Js.str_or createdAt_iso (toISOString now));
     img_date :=
       Js.str_or (option_map before_T createdAt_iso)
         (Js.str_or (im_date data) "N/A") |}.

Definition fetchGalleryImages (category : option string) : M (list image) :=
  try_catch
    (querySnapshot <-
       try_catch
         (getDocs gallery_answer (gallery_ordered_query category))
         (fun _ =>
            try_catch
              (getDocs gallery_answer (gallery_plain_query category))
              (fun fallbackError =>
                 console_error "❌ Even fallback query failed:" ;;;
                 throw fallbackError)) ;;
     now <- Date_now ;;
     let images := map (image_of_doc now) querySnapshot in
     ret (if (1 <? List.length images)%nat then sortNewestFirst images
          else images))
    (fun _ =>
       console_error "=== FETCH GALLERY IMAGES FAILED ===" ;;;
       console_error "Error fetching gallery images:" ;;;
       ret []).

(** ** The live feed of gallery images (listenToGalleryImages) *)

(** What the callback of the listener receives: a pushed document keeps its
    own [uploadedAt], a fetched image has the one fetchGalleryImages gave it. *)
Record gallery_item : Type := mkGalleryItem {
  gi_id : string;
  gi_data : image_doc;
  gi_uploadedAt : option string;
  gi_date : string
}.

(** [{ id: doc.id, ...data, date: ... }] *)
Definition gallery_item_of_doc (d : string * image_doc) : gallery_item :=
  let data := snd d in
  {| gi_id := fst d;
     gi_data := data;
     gi_uploadedAt := im_uploadedAt data;
     gi_date :=
       Js.str_or (option_map before_T (image_createdAt_iso data))
         (Js.str_or (im_date data) "N/A") |}.

Definition gallery_item_of_image (i : image) : gallery_item :=
  {| gi_id := img_id i;
     gi_data := img_data i;
     gi_uploadedAt := Some (img_uploadedAt i);
     gi_date := img_date i |}.

(** What this section does not look into besides: the sort by date of the
    items, and whether the message of an error mentions an index. *)
Variable sortItems : list gallery_item -> list gallery_item.
Variable mentions_index : error -> bool.

(** [error.code === 'failed-precondition' && error.message.includes('index')] *)
Definition is_index_error (e : error) : bool :=
  match e with
  | StoreError code => (code =? "failed-precondition")%string && mentions_index e
  | TypeError _ => false
  end.

(** The observer of snapshots; [useOrderBy] says whether the query orders. *)
Definition gallery_onNext (useOrderBy : bool)
    (callback : list gallery_item -> M unit)
    (querySnapshot : list (string * image_doc)) : M unit :=
  let images := map gallery_item_of_doc querySnapshot in
  callback (if negb useOrderBy && (1 <? List.length images)%nat
            then sortItems images else images).

(** The observer of errors.  On an index error it subscribes again without
    the ordering and returns; otherwise, or when that subscription throws, it
    fetches the images once and hands them to the callback. *)
Definition gallery_onError (category : option string)
    (callback : list gallery_item -> M unit) (e : error) : M unit :=
  console_error "Real-time listener error:" ;;;
  returned <-
    (if is_index_error e
     then try_catch
            (onSnapshot (gallery_plain_query category)
               (gallery_onNext false callback) None ;;;
             ret true)
            (fun _ =>
               console_error "Fallback real-time listener also failed:" ;;;
               ret false)
     else ret false) ;;
  if (returned : bool) then ret tt
  else
    try_catch
      (images <- fetchGalleryImages category ;;
       callback (map gallery_item_of_image images))
      (fun _ =>
         console_error "Manual fallback fetch also failed:" ;;;
         callback []).

(** The queries are built without failure, so [useOrderBy] is true. *)
Definition listenToGalleryImages (category : option string)
    (callback : list gallery_item -> M unit)
  : M (option (subscription (string * image_doc))) :=
  try_catch
    (let useOrderBy := true in
     s <- onSnapshot (gallery_ordered_query category)
            (gallery_onNext useOrderBy callback)
            (Some (gallery_onError category callback)) ;;
     ret (Some s))
    (fun _ =>
       console_error "Error setting up gallery images listener:" ;;;
       ret None).

Definition debug_query : query := mkQuery "galleryImages" [] None None.

Definition debugGalleryImages : M (JsObject.t (list debug_entry)) :=
  try_catch
    (querySnapshot <- getDocs gallery_answer debug_query ;;
     ret (fold_left debug_step querySnapshot JsObject.empty))
    (fun _ => console_error "Error debugging gallery images:" ;;;
              ret JsObject.empty).

End Gallery.

(** ** Roles (getUserRole, checkAdminAccess, updateUserRole) *)

Section Roles.

(** What this development does not look into: the case mapping of strings;
    the fields [userRole], [permission] and [level] that a user document may
    carry besides those of [user]; the ISO rendering of a time; and the
    store's update of a document, once the module that provides it is
    loaded. *)
Variable toLowerCase : string -> string.
Variable userRole permission level : user -> option string.
Variable toISOString : Z -> string.
Variable updateDoc : string -> string -> string -> string -> M unit.

(** [Object.values(users).find(user => user.email &&
      user.email.toLowerCase() === userEmail.toLowerCase())] *)
Definition find_by_email (users : users_map) (userEmail : string)
  : option user :=
  find (fun u => Js.truthy_str (email u)
                 && (toLowerCase (Js.prop_key (email u))
                     =? toLowerCase userEmail)%string)
    (JsObject.values users).

(** [userData.role || userData.userRole || userData.permission ||
     userData.level || 'member'] *)
Definition role_of (u : user) : string :=
  Js.str_or (role u)
    (Js.str_or (userRole u)
       (Js.str_or (permission u) (Js.str_or (level u) "member"))).

Definition getUserRole (userId userEmail : option string) : M string :=
  try_catch
    (users <- fetchUsers ;;
     let userData :=
       match JsObject.get users (Js.prop_key userId) with
       | Some u => Some u
       | None =>
           if Js.truthy_str userEmail
           then find_by_email users (Js.prop_key userEmail)
           else None
       end in
     match userData with
     | None => ret "user"
     | Some u => ret (toLowerCase (role_of u))
     end)
    (fun _ => console_error "Error fetching user role:" ;;; ret "user").

Definition is_admin_role (r : string) : bool :=
  ((r =? "admin") || (r =? "super_admin"))%string.

Definition checkAdminAccess (userId : option string) : M bool :=
  try_catch
    (r <- getUserRole userId None ;;
     ret (is_admin_role r))
    (fun _ => console_error "Error checking admin access:" ;;; ret false).

Definition updateUserRole (userId newRole : string) : M bool :=
  try_catch
    (now <- Date_now ;;
     updateDoc "users" userId newRole (toISOString now) ;;;
     clearCache ;;;
     ret true)
    (fun e => console_error "Error updating user role:" ;;; throw e).

End Roles.

(** ** Uploads and deletions (uploadResource, uploadGalleryImage,
       deleteResource, deleteGalleryImage, incrementDownloadCount) *)

Module Upload.

(** A browser [File]: its name, its size in bytes and its MIME type. *)
Record file : Type := mkFile {
  file_name : string;
  file_size : Z;
  file_type : string
}.

(** A JavaScript [Error], known by its message. *)
Inductive failure : Type := Failure (message : string).

Definition message (e : failure) : string :=
  match e with Failure m => m end.

(** The metadata document of an uploaded file; a resource has a
    description, an extension, a download counter and an active flag, an
    image has a date.  ([createdAt] is the store's server timestamp.) *)
Record metadata : Type := mkMetadata {
  m_title : string;
  m_description : option string;
  m_category : string;
  m_url : string;
  m_filename : string;
  m_originalName : string;
  m_size : Z;
  m_type : string;
  m_fileExtension : option string;
  m_uploadedBy : string;
  m_uploadedAt : string;
  m_downloads : option Z;
  m_isActive : option bool;
  m_date : option string
}.

(** What an upload returns: [{ id: docRef.id, ...data, createdAt: new Date() }] *)
Record uploaded : Type := mkUploaded {
  up_id : string;
  up_data : metadata;
  up_createdAt : Z
}.

(** The calls to the file storage and to the document store. *)
Inductive call : Type :=
| UploadBytes (path : string) (f : file)
| GetDownloadURL (path : string)
| AddDoc (collection : string) (data : metadata)
| DeleteDoc (collection id : string)
| DeleteObject (path : string)
| UpdateDoc (collection id lastDownloaded : string).

(** The two services as the code meets them: which calls fail and with what
    error, the download URL of a path, the id given to a new document, and
    the time a call takes. *)
Record services : Type := mkServices {
  sv_fails : call -> option failure;
  sv_url : string -> string;
  sv_new_id : metadata -> string;
  sv_latency : call -> Z
}.

(** The calls made so far, oldest first, and the time. *)
Record state : Type := mkState {
  calls : list call;
  time : Z
}.

Inductive result (A : Type) : Type :=
| Returned (a : A)
| Thrown (e : failure).
Arguments Returned {A} a.
Arguments Thrown {A} e.

Definition U (A : Type) : Type := services -> state -> result A * state.

Definition ret {A : Type} (a : A) : U A := fun _ st => (Returned a, st).

Definition bind {A B : Type} (m : U A) (k : A -> U B) : U B :=
  fun sv st => match m sv st with
               | (Returned a, st') => k a sv st'
               | (Thrown e, st') => (Thrown e, st')
               end.

Definition throw {A : Type} (e : failure) : U A := fun _ st => (Thrown e, st).

Definition try_catch {A : Type} (m : U A) (h : failure -> U A) : U A :=
  fun sv st => match m sv st with
               | (Returned a, st') => (Returned a, st')
               | (Thrown e, st') => h e sv st'
               end.

Declare Scope upload_scope.
Delimit Scope upload_scope with upload.
Notation "x <- c ;; k" := (bind c (fun x => k))
  (at level 61, c at next level, right associativity) : upload_scope.
Notation "c ;;; k" := (bind c (fun _ => k))
  (at level 61, right associativity) : upload_scope.
Local Open Scope upload_scope.

Definition Date_now : U Z := fun _ st => (Returned (time st), st).

(** [await service(...)]: the call is made, time passes, and the service
    answers or fails. *)
Definition await {A : Type} (c : call) (answer : services -> A) : U A :=
  fun sv st =>
    let st' := mkState (calls st ++ [c]) (time st + sv_latency sv c) in
    match sv_fails sv c with
    | Some e => (Thrown e, st')
    | None => (Returned (answer sv), st')
    end.

(** [if (cond) throw new Error(msg)] *)
Definition throw_if (cond : bool) (msg : string) : U unit :=
  if cond then throw (Failure msg) else ret tt.

(** [s.startsWith(p)] *)
Fixpoint startsWith (s p : string) : bool :=
  match p, s with
  | EmptyString, _ => true
  | String c p', String d s' => (c =? d)%char && startsWith s' p'
  | String _ _, EmptyString => false
  end.

(** The text before the last ['.'] of a name, when there is one, and the text
    after it (the whole name without a dot). *)
Fixpoint split_last_dot (s : string) : option string * string :=
  match s with
  | EmptyString => (None, EmptyString)
  | String c s' =>
      match split_last_dot s' with
      | (Some p, l) => (Some (String c p), l)
      | (None, l) =>
          if (c =? ".")%char then (Some EmptyString, l)
          else (None, String c l)
      end
  end.

(** [name.split('.').pop()] *)
Definition last_segment (n : string) : string := snd (split_last_dot n).

Fixpoint has_slash (s : string) : bool :=
  match s with
  | EmptyString => false
  | String c s' => (c =? "/")%char || has_slash s'
  end.

(** [name.replace(/\.[^/.]+$/, '')]: a last dot followed by at least one
    character, none of them a slash, is removed with what follows it. *)
Definition strip_extension (n : string) : string :=
  match split_last_dot n with
  | (Some p, l) =>
      if negb (l =? "")%string && negb (has_slash l) then p else n
  | (None, _) => n
  end.

Section Operations.

(** What this development does not look into: the case mappings of strings,
    the ISO rendering of a time, the decimal rendering of a number, the two
    replacements of characters by underscores ([/[^a-zA-Z0-9\s]/g] for
    resources, [/[^a-zA-Z0-9]/g] for images), and the [TypeError] raised by
    reading a property of [null].  Console output is not recorded. *)
Variable toLowerCase toUpperCase : string -> string.
Variable toISOString : Z -> string.
Variable decimal : Z -> string.
Variable sanitizeResourceName sanitizeImageName : string -> string.
Variable null_property_error : failure.

(** Reading [file.name] for the first console message. *)
Definition read_file (file : option file) : U Upload.file :=
  match file with
  | Some f => ret f
  | None => throw null_property_error
  end.

Definition is_absent {A : Type} (o : option A) : bool :=
  match o with Some _ => false | None => true end.

(** [`${category}/${timestamp}_${sanitizedBaseName}.${fileExtension}`] *)
Definition filename_of (category : string) (timestamp : Z)
    (sanitizedBaseName fileExtension : string) : string :=
  (category ++ "/" ++ decimal timestamp ++ "_" ++ sanitizedBaseName ++ "."
   ++ fileExtension)%string.

Definition uploadResource (file : option file)
    (category title description userId : option string) : U uploaded :=
  try_catch
    (f <- read_file file ;;
     throw_if (is_absent file) "No file provided" ;;;
     throw_if (negb (Js.truthy_str category)) "Category is required" ;;;
     throw_if (negb (Js.truthy_str title)) "Title is required" ;;;
     throw_if (negb (Js.truthy_str userId)) "User ID is required" ;;;
     throw_if (50 * 1024 * 1024 <? file_size f) "File size exceeds 50MB limit" ;;;
     timestamp <- Date_now ;;
     let fileExtension := toLowerCase (last_segment (file_name f)) in
     let baseName := strip_extension (file_name f) in
     let sanitizedBaseName := sanitizeResourceName baseName in
     let filename :=
       filename_of (Js.prop_key category) timestamp sanitizedBaseName
         fileExtension in
     let path := ("resources/" ++ filename)%string in
     await (UploadBytes path f) (fun _ => tt) ;;;
     downloadURL <- await (GetDownloadURL path) (fun sv => sv_url sv path) ;;
     now <- Date_now ;;
     let resourceData :=
       {| m_title := Js.prop_key title;
          m_description := Some (Js.str_or description "");
          m_category := Js.prop_key category;
          m_url := downloadURL;
          m_filename := filename;
          m_originalName := file_name f;
          m_size := file_size f;
          m_type := file_type f;
          m_fileExtension := Some (toUpperCase fileExtension);
          m_uploadedBy := Js.prop_key userId;
          m_uploadedAt := toISOString now;
          m_downloads := Some 0;
          m_isActive := Some true;
          m_date := None |} in
     docId <- await (AddDoc "preachingResources" resourceData)
                (fun sv => sv_new_id sv resourceData) ;;
     created <- Date_now ;;
     ret (mkUploaded docId resourceData created))
    (fun error => throw (Failure ("Upload failed: " ++ message error))).

Definition uploadGalleryImage (file : option file)
    (category title userId : option string) : U uploaded :=
  try_catch
    (f <- read_file file ;;
     throw_if (is_absent file) "No file provided" ;;;
     throw_if (negb (Js.truthy_str category)) "Category is required" ;;;
     throw_if (negb (Js.truthy_str userId)) "User ID is required" ;;;
     throw_if (5 * 1024 * 1024 <? file_size f) "File size exceeds 5MB limit" ;;;
     throw_if (negb (startsWith (file_type f) "image/")) "File must be an image" ;;;
     timestamp <- Date_now ;;
     let fileExtension := toLowerCase (last_segment (file_name f)) in
     let baseName := strip_extension (file_name f) in
     let sanitizedBaseName := sanitizeImageName baseName in
     let filename :=
       filename_of (Js.prop_key category) timestamp sanitizedBaseName
         fileExtension in
     let path := ("gallery/" ++ filename)%string in
     try_catch
       (await (UploadBytes path f) (fun _ => tt))
       (fun storageError =>
          throw (Failure ("Storage upload failed: " ++ message storageError))) ;;;
     downloadURL <-
       try_catch
         (await (GetDownloadURL path) (fun sv => sv_url sv path))
         (fun urlError =>
            throw (Failure ("Failed to get download URL: " ++ message urlError))) ;;
     now <- Date_now ;;
     let imageData :=
       {| m_title := Js.str_or title sanitizedBaseName;
          m_category := Js.prop_key category;
          m_description := None;
          m_url := downloadURL;
          m_filename := filename;
          m_originalName := file_name f;
          m_size := file_size f;
          m_type := file_type f;
          m_fileExtension := None;
          m_uploadedBy := Js.prop_key userId;
          m_uploadedAt := toISOString now;
          m_downloads := None;
          m_isActive := None;
          m_date := Some (before_T (toISOString now)) |} in
     try_catch
       (docId <- await (AddDoc "galleryImages" imageData)
                   (fun sv => sv_new_id sv imageData) ;;
        created <- Date_now ;;
        ret (mkUploaded docId imageData created))
       (fun firestoreError =>
          throw (Failure ("Failed to save metadata: " ++ message firestoreError))))
    (fun error => throw (Failure ("Upload failed: " ++ message error))).

(** [updateDoc(ref, { downloads: increment(1), lastDownloaded: ... })], once
    the module that provides it is loaded. *)
Definition incrementDownloadCount (resourceId : string) : U bool :=
  try_catch
    (now <- Date_now ;;
     await (UpdateDoc "preachingResources" resourceId (toISOString now))
       (fun _ => tt) ;;;
     ret true)
    (fun _ => ret false).

(** The name under which an upload is stored, and the checks it has to pass. *)
Definition resource_filename (f : file) (category : option string)
    (timestamp : Z) : string :=
  filename_of (Js.prop_key category) timestamp
    (sanitizeResourceName (strip_extension (file_name f)))
    (toLowerCase (last_segment (file_name f))).

Definition image_filename (f : file) (category : option string)
    (timestamp : Z) : string :=
  filename_of (Js.prop_key category) timestamp
    (sanitizeImageName (strip_extension (file_name f)))
    (toLowerCase (last_segment (file_name f))).

Definition resource_rejection (f : file) (category title userId : option string)
  : option string :=
  if negb (Js.truthy_str category) then Some "Category is required"
  else if negb (Js.truthy_str title) then Some "Title is required"
  else if negb (Js.truthy_str userId) then Some "User ID is required"
  else if 52428800 <? file_size f then Some "File size exceeds 50MB limit"
  else None.

Definition image_rejection (f : file) (category userId : option string)
  : option string :=
  if negb (Js.truthy_str category) then Some "Category is required"
  else if negb (Js.truthy_str userId) then Some "User ID is required"
  else if 5242880 <? file_size f then Some "File size exceeds 5MB limit"
  else if negb (startsWith (file_type f) "image/")
       then Some "File must be an image"
  else None.

End Operations.

Definition is_deletion (c : call) : bool :=
  match c with
  | DeleteDoc _ _ | DeleteObject _ => true
  | _ => false
  end.

Definition deleteResource (resourceId filename : string) : U bool :=
  try_catch
    (await (DeleteDoc "preachingResources" resourceId) (fun _ => tt) ;;;
     await (DeleteObject ("resources/" ++ filename)%string) (fun _ => tt) ;;;
     ret true)
    (fun error => throw error).

Definition deleteGalleryImage (imageId filename : string) : U bool :=
  try_catch
    (await (DeleteDoc "galleryImages" imageId) (fun _ => tt) ;;;
     await (DeleteObject ("gallery/" ++ filename)%string) (fun _ => tt) ;;;
     ret true)
    (fun error => throw error).

End Upload.

(** ** The field normalizers in the words of the specification *)

Module Spec.

Definition sumZ {A : Type} (f : A -> Z) (l : list A) : Z :=
  fold_right (fun a s => f a + s) 0 l.

(** [normalizeNewContactCount]: the contacts carrying a new-contact marker,
    all contacts when none carries one; without a contact sequence the
    [newContacts] count when set; else 0. *)
Definition normalizeNewContactCount (r : report) : Z :=
  match contacts r with
  | Some cs =>
      let marked :=
        filter (fun c => Js.is_true (isNewContact c) || Js.is_true (isNew c)
                         || Js.is_string (contactType c) "new") cs in
      match marked with
      | [] => Z.of_nat (List.length cs)
      | _ => Z.of_nat (List.length marked)
      end
  | None =>
      match newContacts r with
      | Some n => n
      | None => 0
      end
  end.

(** [normalizePrasadamCount]: [prasadamServed] if present, otherwise the
    estimate from the contacts when present, otherwise 0. *)
Definition normalizePrasadamCount (r : report) : Z :=
  match prasadamServed r with
  | Some n => n
  | None =>
      match contacts r with
      | Some cs => Js.floor_times_1_5 (List.length cs)
      | None => 0
      end
  end.

(** The same with "present" read as "present and not zero". *)
Definition normalizePrasadamCount_nonzero (r : report) : Z :=
  match prasadamServed r with
  | Some (Zpos _ as n) | Some (Zneg _ as n) => n
  | _ =>
      match contacts r with
      | Some cs => Js.floor_times_1_5 (List.length cs)
      | None => 0
      end
  end.

(** The total with its global fallback, over a per-report count [f]. *)
Definition totalPrasadamServed_from (f : report -> Z) (reports : list report)
    (livesTouched : Z) : Z :=
  if sumZ f reports =? 0 then livesTouched * 2 else sumZ f reports.

(** [resolveCategoryName]: the category's [categoryName], then the report's
    [categoryName], then the category's [name], else the given literal. *)
Definition resolveCategoryName (c : category) (r : report) (literal : string)
  : string :=
  match Js.str_orelse (cat_categoryName c)
          (Js.str_orelse (categoryName r) (cat_name c)) with
  | Some s => if (s =? "")%string then literal else s
  | None => literal
  end.

(** The order the distribution follows: the category's [categoryName], then
    the category's [name], then the report's [categoryName]. *)
Definition resolveCategoryName_distribution (c : category) (r : report)
  : string :=
  match Js.str_orelse (cat_categoryName c)
          (Js.str_orelse (cat_name c) (categoryName r)) with
  | Some s => if (s =? "")%string then "Other" else s
  | None => "Other"
  end.

End Spec.

(** ** Quantities the properties speak about *)

(** Reports that differ from [r] in one field. *)
Definition with_contacts (r : report) (cs : option (list contact)) : report :=
  mkReport (id r) (createdBy r) (categoryId r) (categoryName r)
    (booksDistributed r) cs (newContacts r) (prasadamServed r) (date r)
    (createdAt r).

Definition with_prasadamServed (r : report) (n : option Z) : report :=
  mkReport (id r) (createdBy r) (categoryId r) (categoryName r)
    (booksDistributed r) (contacts r) (newContacts r) n (date r) (createdAt r).

Definition blank_report : report :=
  mkReport None None None None None None None None None None.

Definition blank_contact : contact :=
  mkContact Js.JUndefined Js.JUndefined Js.JUndefined.

(** The name a report is counted under in the distribution. *)
Definition reportCategoryName (categories : categories_map) (r : report)
  : string :=
  pieCategoryName (category_of categories r) r.

(** The entries of [categoryData] that the chart keeps. *)
Definition positive_entries (d : JsObject.t Z) : list slice :=
  filter (fun e => 0 <? snd e) (JsObject.entries d).

(** The number of reports that [f] sends to the key [k]. *)
Definition count_by (f : report -> string) (k : string) (reports : list report)
  : Z :=
  Z.of_nat (List.length (filter (fun r => (f r =? k)%string) reports)).

(** The sum of [f] over the reports that [key] sends to [k]. *)
Definition sum_by (key : report -> string) (f : report -> Z) (k : string)
    (reports : list report) : Z :=
  Spec.sumZ f (filter (fun r => (key r =? k)%string) reports).

(** [o[k] || 0] *)
Definition count_of (o : JsObject.t Z) (k : string) : Z :=
  Js.num_or_zero (JsObject.get o k).


(** The distinct members of a list, in the order of their first occurrence. *)
Definition distinct_in_order (l : list string) : list string :=
  fold_left set_add l [].

(** The totals of the reports that [key] sends to [k]. *)
Definition group_of (key : report -> string) (k : string)
    (reports : list report) : region :=
  {| books_ := sum_by key bookCount k reports;
     prasadam_ := sum_by key prasadamCount k reports;
     events_ := count_by key k reports |}.

(** ** Names outside [Object.prototype] *)

(** The report names its category, and its author, by a plain name. *)
Definition plain_categoryId (r : report) : bool :=
  JsObject.plain (Js.prop_key (categoryId r)).

Definition plain_author (r : report) : bool :=
  JsObject.plain (Js.prop_key (createdBy r)).

(** Every group of the regional series has a plain name. *)
Definition plain_regions (users : users_map) (reports : list report) : bool :=
  forallb (fun r => JsObject.plain (regionKey users r)) reports.

(** Every label of the directory, every category id of a report and every
    name a report is counted under is plain. *)
Definition plain_distribution (reports : list report)
    (categories : categories_map) : bool :=
  forallb (fun c => JsObject.plain (categoryLabel c))
    (JsObject.values categories)
  && forallb (fun r => plain_categoryId r
                       && JsObject.plain (reportCategoryName categories r))
       reports.

(** Every image is listed under a plain name. *)
Definition plain_gallery (docs : list (string * image_doc)) : bool :=
  forallb (fun d => JsObject.plain (debug_category d)) docs.

(** ** Sample data *)

(** A user that has only a temple, and a report that has only an author. *)
Definition user_of_temple (t : string) : user :=
  mkUser None None None (Some t) None.

Definition report_by (u : string) : report :=
  mkReport None (Some u) None None None None None None None None.

(** Six users of six temples; the first five each file one report, the sixth
    files three. *)
Definition six_temples : users_map :=
  [("u1", user_of_temple "A"); ("u2", user_of_temple "B");
   ("u3", user_of_temple "C"); ("u4", user_of_temple "D");
   ("u5", user_of_temple "E"); ("u6", user_of_temple "F")].

Definition six_temples_reports : list report :=
  [report_by "u1"; report_by "u2"; report_by "u3"; report_by "u4";
   report_by "u5"; report_by "u6"; report_by "u6"; report_by "u6"].

(** A store that holds two reports, one category and one user, and worlds
    around it: one whose store fails every query, one with an empty cache. *)
Definition sample_store (refuses : query -> option error) : store_t :=
  {| st_activityReports := [("r1", report_by "u1"); ("r2", report_by "u1")];
     st_preachingCategories := [("a", mkCategory (Some "A") None)];
     st_users := [("u1", user_of_temple "Ipoh")];
     st_preachingResources := fun _ => [];
     st_refuses := refuses;
     st_rejects := fun _ => None;
     st_latency := 40 |}.

Definition empty_cache : DataCache.t := DataCache.mk None None None None.

Definition offline_world : world :=
  mkWorld empty_cache (sample_store (fun _ => Some (StoreError "unavailable")))
    1700000000000 [].

Definition online_world : world :=
  mkWorld empty_cache (sample_store (fun _ => None)) 1700000000000 [].

(** A world one minute after a push stamped the cache. *)
Definition pushed_world : world :=
  mkWorld
    (DataCache.mk (Some [report_by "u1"]) None None (Some 1700000000000))
    (sample_store (fun _ => None)) 1700000060000 [].

(** A category that carries a label of its own. *)
Definition has_own_label (c : category) : bool :=
  Js.truthy_str (cat_categoryName c) || Js.truthy_str (cat_name c).

(** A report that names a category by id and nothing else. *)
Definition report_in_category (cid : string) : report :=
  mkReport None None (Some cid) None None None None None None None.

(** A directory with one category that has only a [name], and a report of
    that category that carries a [categoryName] of its own. *)
Definition name_only_categories : categories_map :=
  [("c1", mkCategory None (Some "Kirtan"))].

Definition renamed_report : report :=
  mkReport None None (Some "c1") (Some "Street Festival") None None None None
    None None.

(** The directory of two categories A and B. *)
Definition two_categories : categories_map :=
  JsObject.of_docs [("a", mkCategory (Some "A") None);
                    ("b", mkCategory (Some "B") None)].

(** A report that records zero prasadam and two contacts without markers. *)
Definition zero_prasadam_report : report :=
  with_prasadamServed
    (with_contacts blank_report (Some [blank_contact; blank_contact])) (Some 0).

(** A report that records five plates of prasadam and one contact. *)
Definition five_prasadam_report : report :=
  with_prasadamServed (with_contacts blank_report (Some [blank_contact])) (Some 5).

(** ** Worlds the properties speak about *)

(** The truth value [isCacheValid] computes, as a function of the cache and
    of the time. *)
Definition valid_at (c : DataCache.t) (now : Z) : bool :=
  match DataCache.lastFetch c with
  | Some t => negb (t =? 0) && (now - t <? CACHE_DURATION)
  | None => false
  end.

(** The world after a one-shot query has come back. *)
Definition after_query (w : world) (q : query) : world :=
  mkWorld (dataCache w) (store w) (clock w + st_latency (store w))
    (trace w ++ [GetDocs q]).

Definition with_cache (w : world) (c : DataCache.t) : world :=
  mkWorld c (store w) (clock w) (trace w).

Definition logged (w : world) (msg : string) : world :=
  mkWorld (dataCache w) (store w) (clock w) (trace w ++ [ConsoleError msg]).

(** The temple a report adds to the set: that of its author, when the report
    names a (non-empty) author, the directory has it, and its temple is a
    non-empty string. *)
Definition authored_temple (users : users_map) (r : report) (t : string) : Prop :=
  t <> "" /\
  exists u usr, createdBy r = Some u /\ u <> "" /\
                JsObject.get users u = Some usr /\ temple usr = Some t.

(** Six users, the sixth of a temple named by a number; each files one report. *)
Definition index_temple_users : users_map :=
  [("u1", user_of_temple "A"); ("u2", user_of_temple "B");
   ("u3", user_of_temple "C"); ("u4", user_of_temple "D");
   ("u5", user_of_temple "E"); ("u6", user_of_temple "7")].

Definition index_temple_reports : list report :=
  [report_by "u1"; report_by "u2"; report_by "u3"; report_by "u4";
   report_by "u5"; report_by "u6"].

(** A world whose cache holds directories fetched long ago under a stamp
    that has expired. *)
Definition stale_world : world :=
  mkWorld
    (DataCache.mk (Some [report_by "u1"]) (Some two_categories)
       (Some six_temples) (Some 1600000000000))
    (sample_store (fun _ => None)) 1700000000000 [].

(** Services that answer every call, a document and an image to upload,
    and the state before any call. *)
Definition sample_services : Upload.services :=
  {| Upload.sv_fails := fun _ => None;
     Upload.sv_url := fun path => ("https://files/" ++ path)%string;
     Upload.sv_new_id := fun _ => "doc1";
     Upload.sv_latency := fun _ => 5 |}.

Definition sample_document : Upload.file :=
  Upload.mkFile "Gita.Notes.PDF" 1024 "application/pdf".

Definition sample_image : Upload.file :=
  Upload.mkFile "kirtan.JPG" 2048 "image/jpeg".

Definition no_calls : Upload.state := Upload.mkState [] 1700000000000.

(** The number of entries of a listing of debugGalleryImages. *)
Definition listed (o : JsObject.t (list debug_entry)) : Z :=
  Spec.sumZ (fun e => Z.of_nat (List.length (snd e))) o.

(* ================================================================== *)
(** * Part II. Properties *)
(* ================================================================== *)

(** ** Objects used as maps *)

Section JsObjectFacts.

Context {V : Type}.
Implicit Types (o : JsObject.t V) (k : string) (v : V).

Lemma get_set_same o k v : JsObject.get (JsObject.set o k v) k = Some v.
Proof.
  induction o as [|[k' v'] o IH]; simpl.
  - now rewrite String.eqb_refl.
  - destruct (String.eqb_spec k' k) as [->|Hne]; simpl.
    + now rewrite String.eqb_refl.
    + destruct (String.eqb_spec k' k); [contradiction|exact IH].
Qed.

Lemma get_set_other o k k' v :
  k <> k' -> JsObject.get (JsObject.set o k v) k' = JsObject.get o k'.
Proof.
  intros Hne. induction o as [|[k0 v0] o IH]; simpl.
  - destruct (String.eqb_spec k k'); [contradiction|reflexivity].
  - destruct (String.eqb_spec k0 k) as [->|Hk]; simpl.
    + destruct (String.eqb_spec k k'); [contradiction|reflexivity].
    + destruct (String.eqb_spec k0 k'); [reflexivity|exact IH].
Qed.

Lemma get_modify_same o k f :
  JsObject.get (JsObject.modify o k f) k = option_map f (JsObject.get o k).
Proof.
  induction o as [|[k' v'] o IH]; simpl; [reflexivity|].
  destruct (String.eqb_spec k' k) as [->|Hne]; simpl.
  - now rewrite String.eqb_refl.
  - destruct (String.eqb_spec k' k); [contradiction|exact IH].
Qed.

Lemma get_modify_other o k k' f :
  k <> k' -> JsObject.get (JsObject.modify o k f) k' = JsObject.get o k'.
Proof.
  intros Hne. induction o as [|[k0 v0] o IH]; simpl; [reflexivity|].
  destruct (String.eqb_spec k0 k) as [->|Hk]; simpl.
  - destruct (String.eqb_spec k k'); [contradiction|reflexivity].
  - destruct (String.eqb_spec k0 k'); [reflexivity|exact IH].
Qed.

Lemma get_In o k v : JsObject.get o k = Some v -> In (k, v) o.
Proof.
  induction o as [|[k' v'] o IH]; simpl; [discriminate|].
  destruct (String.eqb_spec k' k) as [->|Hne].
  - intros [= ->]. now left.
  - intros H. right. now apply IH.
Qed.

Lemma get_None_iff o k : JsObject.get o k = None <-> ~ In k (map fst o).
Proof.
  induction o as [|[k' v'] o IH]; simpl.
  - tauto.
  - destruct (String.eqb_spec k' k) as [->|Hne].
    + split; [discriminate|]. intros H. exfalso. apply H. now left.
    + rewrite IH. tauto.
Qed.

Lemma In_get o k v : NoDup (map fst o) -> In (k, v) o -> JsObject.get o k = Some v.
Proof.
  induction o as [|[k' v'] o IH]; simpl; [tauto|].
  intros Hnd [Heq|Hin].
  - injection Heq as -> ->. now rewrite String.eqb_refl.
  - inversion Hnd as [|? ? Hnotin Hnd']; subst.
    destruct (String.eqb_spec k' k) as [->|Hne].
    + exfalso. apply Hnotin. change k with (fst (k, v)). now apply in_map.
    + now apply IH.
Qed.

(** The raw keys after a write: unchanged when the key exists, one more at
    the end when it does not. *)
Lemma set_keys_raw o k v :
  map fst (JsObject.set o k v) =
  match JsObject.get o k with
  | Some _ => map fst o
  | None => map fst o ++ [k]
  end.
Proof.
  induction o as [|[k' v'] o IH]; simpl; [reflexivity|].
  destruct (String.eqb_spec k' k) as [->|Hne]; simpl; [reflexivity|].
  rewrite IH. now destruct (JsObject.get o k).
Qed.

Lemma modify_keys_raw o k f : map fst (JsObject.modify o k f) = map fst o.
Proof.
  induction o as [|[k' v'] o IH]; simpl; [reflexivity|].
  destruct (String.eqb_spec k' k); simpl; [reflexivity|now rewrite IH].
Qed.

Lemma set_NoDup o k v : NoDup (map fst o) -> NoDup (map fst (JsObject.set o k v)).
Proof.
  intros Hnd. rewrite set_keys_raw.
  destruct (JsObject.get o k) eqn:Hget; [exact Hnd|].
  apply get_None_iff in Hget.
  apply NoDup_app; [exact Hnd|repeat constructor; simpl; tauto|].
  intros x Hx [<-|[]]. contradiction.
Qed.

Lemma insert_by_index_perm (p : string * V) l :
  Permutation (JsObject.insert_by_index p l) (p :: l).
Proof.
  induction l as [|q l IH]; simpl; [reflexivity|].
  destruct (_ <=? _)%N; [reflexivity|].
  rewrite IH. apply perm_swap.
Qed.

Lemma sort_by_index_perm (l : list (string * V)) :
  Permutation (JsObject.sort_by_index l) l.
Proof.
  induction l as [|p l IH]; simpl; [reflexivity|].
  rewrite insert_by_index_perm. now constructor.
Qed.

Lemma filter_partition_perm {A : Type} (f : A -> bool) (l : list A) :
  Permutation (filter f l ++ filter (fun x => negb (f x)) l) l.
Proof.
  induction l as [|a l IH]; simpl; [reflexivity|].
  destruct (f a); simpl.
  - now constructor.
  - rewrite <- Permutation_middle. now constructor.
Qed.

(** Enumeration lists the own properties, each once. *)
Lemma entries_perm o : Permutation (JsObject.entries o) o.
Proof.
  unfold JsObject.entries. rewrite sort_by_index_perm.
  apply (filter_partition_perm (fun p => JsObject.is_index (fst p))).
Qed.

Lemma keys_perm o : Permutation (JsObject.keys o) (map fst o).
Proof. unfold JsObject.keys. apply Permutation_map, entries_perm. Qed.

Lemma keys_length o : List.length (JsObject.keys o) = List.length o.
Proof.
  rewrite (Permutation_length (keys_perm o)). apply length_map.
Qed.

Lemma keys_NoDup o : NoDup (map fst o) -> NoDup (JsObject.keys o).
Proof.
  intros H. eapply Permutation_NoDup; [symmetry; apply keys_perm|exact H].
Qed.

Lemma keys_In o k : In k (JsObject.keys o) <-> In k (map fst o).
Proof.
  split; apply Permutation_in; [|symmetry]; apply keys_perm.
Qed.

(** Without array-index keys, enumeration order is creation order. *)
Lemma entries_no_index o :
  (forall k, In k (map fst o) -> JsObject.is_index k = false) ->
  JsObject.entries o = o.
Proof.
  intros H. unfold JsObject.entries.
  assert (Hidx : filter (fun p => JsObject.is_index (fst p)) o = []).
  { induction o as [|[k v] o IH]; simpl; [reflexivity|].
    rewrite (H k) by (simpl; now left). apply IH.
    intros k' Hk'. apply H. simpl. now right. }
  rewrite Hidx. simpl.
  induction o as [|[k v] o IH]; simpl; [reflexivity|].
  rewrite (H k) by (simpl; now left). simpl. f_equal. apply IH.
  - intros k' Hk'. apply H. simpl. now right.
  - simpl in Hidx. rewrite (H k) in Hidx by (simpl; now left). exact Hidx.
Qed.

Lemma keys_no_index o :
  (forall k, In k (map fst o) -> JsObject.is_index k = false) ->
  JsObject.keys o = map fst o.
Proof. intros H. unfold JsObject.keys. now rewrite entries_no_index. Qed.

Lemma map_fst_filter (p : string -> bool) o :
  map fst (filter (fun e => p (fst e)) o) = filter p (map fst o).
Proof.
  induction o as [|[k v] o IH]; simpl; [reflexivity|].
  destruct (p k); simpl; now rewrite IH.
Qed.

Lemma insert_by_index_HdRel (q p : string * V) l :
  (JsObject.index_of (fst q) <= JsObject.index_of (fst p))%N ->
  HdRel (fun a b => (JsObject.index_of (fst a) <= JsObject.index_of (fst b))%N)
    q l ->
  HdRel (fun a b => (JsObject.index_of (fst a) <= JsObject.index_of (fst b))%N)
    q (JsObject.insert_by_index p l).
Proof.
  intros Hqp Hl. destruct l as [|z l]; simpl.
  - now constructor.
  - destruct (_ <=? _)%N; constructor; [exact Hqp|now inversion Hl].
Qed.

Lemma sort_by_index_sorted (l : list (string * V)) :
  Sorted (fun a b => (JsObject.index_of (fst a) <= JsObject.index_of (fst b))%N)
    (JsObject.sort_by_index l).
Proof.
  induction l as [|p l IH]; simpl; [constructor|].
  induction IH as [|q l' Hs IH' Hhd]; simpl.
  - repeat constructor.
  - destruct (N.leb_spec (JsObject.index_of (fst p)) (JsObject.index_of (fst q)))
      as [Hle|Hgt].
    + constructor; [now constructor|]. now constructor.
    + constructor; [exact IH'|].
      apply insert_by_index_HdRel; [lia|exact Hhd].
Qed.

(** Enumeration order: the array-index keys, ascending, then the other keys
    in creation order. *)
Lemma keys_order o :
  exists idx,
    JsObject.keys o
    = idx ++ filter (fun k => negb (JsObject.is_index k)) (map fst o)
    /\ Permutation idx (filter JsObject.is_index (map fst o))
    /\ Sorted (fun a b => (JsObject.index_of a <= JsObject.index_of b)%N) idx.
Proof.
  exists (map fst (JsObject.sort_by_index
                     (filter (fun e => JsObject.is_index (fst e)) o))).
  split; [|split].
  - unfold JsObject.keys, JsObject.entries. rewrite map_app. f_equal.
    apply (map_fst_filter (fun k => negb (JsObject.is_index k))).
  - rewrite <- (map_fst_filter JsObject.is_index).
    apply Permutation_map, sort_by_index_perm.
  - generalize (sort_by_index_sorted
                  (filter (fun e => JsObject.is_index (fst e)) o)).
    generalize (JsObject.sort_by_index
                  (filter (fun e => JsObject.is_index (fst e)) o)).
    intros l Hl. induction Hl as [|a l Hs IH Hhd]; simpl; [constructor|].
    constructor; [exact IH|].
    destruct Hhd; simpl; constructor. assumption.
Qed.

End JsObjectFacts.

(** ** The loop of calculatePreachingImpact, total by total *)

Section ImpactLoop.

Variable users : users_map.

Lemma impact_fold_books reports acc :
  t_books (fold_left (impact_step users) reports acc)
  = t_books acc + Spec.sumZ bookCount reports.
Proof.
  revert acc. induction reports as [|r rs IH]; intros acc; simpl.
  - lia.
  - rewrite IH. simpl. lia.
Qed.

Lemma impact_newContacts_spec r acc :
  impact_newContacts r acc = acc + Spec.normalizeNewContactCount r.
Proof.
  unfold impact_newContacts, Spec.normalizeNewContactCount, isNewContactEntry.
  destruct (contacts r) as [cs|].
  - assert (Hf : filter (fun c => Js.is_true (isNewContact c)
                     || Js.is_true (isNew c)
                     || Js.truthy (contactType c) && Js.is_string (contactType c) "new") cs
                 = filter (fun c => Js.is_true (isNewContact c)
                     || Js.is_true (isNew c)
                     || Js.is_string (contactType c) "new") cs).
    { apply filter_ext. intros c. f_equal.
      destruct (contactType c) as [| |b|n|s]; simpl;
        try reflexivity; try apply andb_false_r.
      destruct (String.eqb_spec s "new") as [->|]; simpl;
        [reflexivity|apply andb_false_r]. }
    cbv zeta. rewrite Hf. clear Hf.
    destruct (filter _ cs) as [|c m]; simpl List.length.
    + reflexivity.
    + destruct (0 <? Z.of_nat (S (List.length m))) eqn:E; [reflexivity|].
      apply Z.ltb_ge in E. lia.
  - destruct (newContacts r) as [n|]; simpl; [|lia].
    destruct (Z.eqb_spec n 0); simpl; lia.
Qed.

Lemma impact_fold_newContacts reports acc :
  t_newContacts (fold_left (impact_step users) reports acc)
  = t_newContacts acc + Spec.sumZ Spec.normalizeNewContactCount reports.
Proof.
  revert acc. induction reports as [|r rs IH]; intros acc; simpl.
  - lia.
  - rewrite IH. simpl. rewrite impact_newContacts_spec. lia.
Qed.

Lemma impact_prasadam_spec r acc :
  impact_prasadam r acc = acc + Spec.normalizePrasadamCount_nonzero r.
Proof.
  unfold impact_prasadam, Spec.normalizePrasadamCount_nonzero.
  destruct (prasadamServed r) as [[|p|p]|]; simpl; try reflexivity;
    destruct (contacts r); lia.
Qed.

Lemma impact_fold_prasadam reports acc :
  t_prasadam (fold_left (impact_step users) reports acc)
  = t_prasadam acc + Spec.sumZ Spec.normalizePrasadamCount_nonzero reports.
Proof.
  revert acc. induction reports as [|r rs IH]; intros acc; simpl.
  - lia.
  - rewrite IH. simpl. rewrite impact_prasadam_spec. lia.
Qed.

Lemma impact_fold_temples reports acc :
  t_temples (fold_left (impact_step users) reports acc)
  = fold_left (fun ts r => impact_temples users r ts) reports (t_temples acc).
Proof.
  revert acc. induction reports as [|r rs IH]; intros acc; simpl.
  - reflexivity.
  - now rewrite IH.
Qed.

End ImpactLoop.

Lemma sumZ_app {A : Type} (f : A -> Z) (l1 l2 : list A) :
  Spec.sumZ f (l1 ++ l2) = Spec.sumZ f l1 + Spec.sumZ f l2.
Proof. induction l1 as [|a l1 IH]; simpl; lia. Qed.

(** ** Running the fetchers *)


Lemma isCacheValid_run w :
  isCacheValid w = (Ok (valid_at (dataCache w) (clock w)), w).
Proof.
  unfold isCacheValid, valid_at, bind, read_cache, Date_now, ret.
  destruct (DataCache.lastFetch (dataCache w)) as [t|]; [|reflexivity].
  destruct (negb (t =? 0)); reflexivity.
Qed.

Ltac run_fetch :=
  unfold try_catch, bind; rewrite isCacheValid_run;
  unfold read_cache, getDocs, write_cache, Date_now, console_error, emit, ret;
  simpl.

Lemma fetchActivityReports_hit w cached :
  valid_at (dataCache w) (clock w) = true ->
  DataCache.activityReports (dataCache w) = Some cached ->
  fetchActivityReports w = (Ok cached, w).
Proof.
  intros Hv Hc. unfold fetchActivityReports. run_fetch.
  now rewrite Hv, Hc.
Qed.

Lemma fetchActivityReports_miss w :
  valid_at (dataCache w) (clock w) = false
  \/ DataCache.activityReports (dataCache w) = None ->
  fetchActivityReports w =
  match st_refuses (store w) reports_query with
  | Some _ =>
      (Ok [], logged (after_query w reports_query)
                "Error fetching activity reports:")
  | None =>
      let reports := map report_of_doc (st_activityReports (store w)) in
      (Ok reports,
       with_cache (after_query w reports_query)
         (set_lastFetch (clock w + st_latency (store w))
            (set_activityReports reports (dataCache w))))
  end.
Proof.
  intros H. unfold fetchActivityReports. run_fetch.
  assert (Hm : match valid_at (dataCache w) (clock w),
                     DataCache.activityReports (dataCache w) with
               | true, Some _ => False
               | _, _ => True
               end).
  { destruct H as [-> | ->]; [exact I|].
    now destruct (valid_at _ _). }
  destruct (valid_at _ _), (DataCache.activityReports _); try contradiction;
    destruct (st_refuses _ _); reflexivity.
Qed.

Lemma fetchPreachingCategories_hit w cached :
  valid_at (dataCache w) (clock w) = true ->
  DataCache.preachingCategories (dataCache w) = Some cached ->
  fetchPreachingCategories w = (Ok cached, w).
Proof.
  intros Hv Hc. unfold fetchPreachingCategories. run_fetch.
  now rewrite Hv, Hc.
Qed.

Lemma fetchPreachingCategories_miss w :
  valid_at (dataCache w) (clock w) = false
  \/ DataCache.preachingCategories (dataCache w) = None ->
  fetchPreachingCategories w =
  match st_refuses (store w) categories_query with
  | Some _ =>
      (Ok JsObject.empty, logged (after_query w categories_query)
                            "Error fetching preaching categories:")
  | None =>
      let categories := JsObject.of_docs (st_preachingCategories (store w)) in
      (Ok categories,
       with_cache (after_query w categories_query)
         (set_preachingCategories categories (dataCache w)))
  end.
Proof.
  intros H. unfold fetchPreachingCategories. run_fetch.
  assert (Hm : match valid_at (dataCache w) (clock w),
                     DataCache.preachingCategories (dataCache w) with
               | true, Some _ => False
               | _, _ => True
               end).
  { destruct H as [-> | ->]; [exact I|].
    now destruct (valid_at _ _). }
  destruct (valid_at _ _), (DataCache.preachingCategories _);
    try contradiction; destruct (st_refuses _ _); reflexivity.
Qed.

Lemma fetchUsers_hit w cached :
  valid_at (dataCache w) (clock w) = true ->
  DataCache.users (dataCache w) = Some cached ->
  fetchUsers w = (Ok cached, w).
Proof.
  intros Hv Hc. unfold fetchUsers. run_fetch.
  now rewrite Hv, Hc.
Qed.

Lemma fetchUsers_miss w :
  valid_at (dataCache w) (clock w) = false
  \/ DataCache.users (dataCache w) = None ->
  fetchUsers w =
  match st_refuses (store w) users_query with
  | Some _ =>
      (Ok JsObject.empty, logged (after_query w users_query)
                            "Error fetching users:")
  | None =>
      let users := JsObject.of_docs (st_users (store w)) in
      (Ok users,
       with_cache (after_query w users_query) (set_users users (dataCache w)))
  end.
Proof.
  intros H. unfold fetchUsers. run_fetch.
  assert (Hm : match valid_at (dataCache w) (clock w),
                     DataCache.users (dataCache w) with
               | true, Some _ => False
               | _, _ => True
               end).
  { destruct H as [-> | ->]; [exact I|].
    now destruct (valid_at _ _). }
  destruct (valid_at _ _), (DataCache.users _);
    try contradiction; destruct (st_refuses _ _); reflexivity.
Qed.

(** Every fetcher returns: none of them throws. *)
Lemma fetchActivityReports_returns w :
  exists reports w', fetchActivityReports w = (Ok reports, w').
Proof.
  destruct (valid_at (dataCache w) (clock w)) eqn:Hv.
  - destruct (DataCache.activityReports (dataCache w)) as [c|] eqn:Hc.
    + exists c, w. now apply fetchActivityReports_hit.
    + rewrite fetchActivityReports_miss by now right.
      destruct (st_refuses _ _); eauto.
  - rewrite fetchActivityReports_miss by now left.
    destruct (st_refuses _ _); eauto.
Qed.

Lemma fetchPreachingCategories_returns w :
  exists categories w', fetchPreachingCategories w = (Ok categories, w').
Proof.
  destruct (valid_at (dataCache w) (clock w)) eqn:Hv.
  - destruct (DataCache.preachingCategories (dataCache w)) as [c|] eqn:Hc.
    + exists c, w. now apply fetchPreachingCategories_hit.
    + rewrite fetchPreachingCategories_miss by now right.
      destruct (st_refuses _ _); eauto.
  - rewrite fetchPreachingCategories_miss by now left.
    destruct (st_refuses _ _); eauto.
Qed.

Lemma fetchUsers_returns w :
  exists users w', fetchUsers w = (Ok users, w').
Proof.
  destruct (valid_at (dataCache w) (clock w)) eqn:Hv.
  - destruct (DataCache.users (dataCache w)) as [c|] eqn:Hc.
    + exists c, w. now apply fetchUsers_hit.
    + rewrite fetchUsers_miss by now right.
      destruct (st_refuses _ _); eauto.
  - rewrite fetchUsers_miss by now left.
    destruct (st_refuses _ _); eauto.
Qed.

(** [calculatePreachingImpact] returns the totals of the reports and of the
    user directory its two fetches return. *)
Lemma calculatePreachingImpact_run w :
  exists reports w1 users w2,
    fetchActivityReports w = (Ok reports, w1)
    /\ fetchUsers w1 = (Ok users, w2)
    /\ calculatePreachingImpact w = (Ok (impact_of reports users), w2).
Proof.
  destruct (fetchActivityReports_returns w) as (reports & w1 & H1).
  destruct (fetchUsers_returns w1) as (users & w2 & H2).
  exists reports, w1, users, w2. repeat split; try assumption.
  unfold calculatePreachingImpact, try_catch, bind. now rewrite H1, H2.
Qed.

(** ** Impact totals *)

Lemma set_add_In s x y : In x (set_add s y) <-> In x s \/ x = y.
Proof.
  unfold set_add. destruct (existsb (String.eqb y) s) eqn:E.
  - split; [now left|]. intros [H| ->]; [exact H|].
    apply existsb_exists in E. destruct E as (z & Hz & Heq).
    apply String.eqb_eq in Heq. now subst.
  - rewrite in_app_iff. simpl. intuition.
Qed.

Lemma set_add_NoDup s y : NoDup s -> NoDup (set_add s y).
Proof.
  intros Hnd. unfold set_add. destruct (existsb (String.eqb y) s) eqn:E.
  - exact Hnd.
  - apply NoDup_app; [exact Hnd|repeat constructor; simpl; tauto|].
    intros x Hx [<-|[]].
    assert (existsb (String.eqb y) s = true); [|congruence].
    apply existsb_exists. exists y. split; [exact Hx|apply String.eqb_refl].
Qed.


Lemma truthy_str_Some o :
  Js.truthy_str o = true <-> exists s, o = Some s /\ s <> "".
Proof.
  destruct o as [s|]; simpl.
  - destruct (String.eqb_spec s ""); simpl; split.
    + discriminate.
    + intros (s' & [= <-] & Hne). contradiction.
    + intros _. now exists s.
    + reflexivity.
  - split; [discriminate|]. now intros (s & H & _).
Qed.

Lemma impact_temples_In users r acc t :
  In t (impact_temples users r acc) <-> In t acc \/ authored_temple users r t.
Proof.
  unfold impact_temples, authored_temple.
  destruct (Js.truthy_str (createdBy r)) eqn:Hc.
  - apply truthy_str_Some in Hc. destruct Hc as (u & Hu & Hune).
    rewrite Hu. simpl.
    destruct (JsObject.get users u) as [usr|] eqn:Hg.
    + destruct (Js.truthy_str (temple usr)) eqn:Ht.
      * apply truthy_str_Some in Ht. destruct Ht as (t' & Ht' & Hne).
        rewrite Ht'. simpl. rewrite set_add_In. split.
        -- intros [H| ->]; [now left|right]. split; [exact Hne|].
           now exists u, usr.
        -- intros [H|(Hne' & u' & usr' & [= <-] & _ & Hg' & Ht'')];
             [now left|right]. congruence.
      * split; [now left|]. intros [H|(Hne & u' & usr' & [= <-] & _ & Hg' & Ht')];
          [exact H|].
        assert (Js.truthy_str (temple usr) = true); [|congruence].
        apply truthy_str_Some. exists t. split; congruence.
    + split; [now left|].
      intros [H|(_ & u' & usr' & [= <-] & _ & Hg' & _)]; [exact H|congruence].
  - split; [now left|]. intros [H|(_ & u & usr & Hu & Hne & _)]; [exact H|].
    assert (Js.truthy_str (createdBy r) = true); [|congruence].
    apply truthy_str_Some. now exists u.
Qed.

Lemma impact_temples_NoDup users r acc :
  NoDup acc -> NoDup (impact_temples users r acc).
Proof.
  intros H. unfold impact_temples.
  destruct (Js.truthy_str (createdBy r)); [|exact H].
  destruct (JsObject.get users _) as [usr|]; [|exact H].
  destruct (Js.truthy_str (temple usr)); [|exact H].
  now apply set_add_NoDup.
Qed.

Lemma temples_fold_spec users reports acc :
  NoDup acc ->
  NoDup (fold_left (fun ts r => impact_temples users r ts) reports acc)
  /\ forall t,
       In t (fold_left (fun ts r => impact_temples users r ts) reports acc)
       <-> In t acc \/ exists r, In r reports /\ authored_temple users r t.
Proof.
  revert acc. induction reports as [|r rs IH]; intros acc Hnd; simpl.
  - split; [exact Hnd|]. intros t. split; [now left|].
    now intros [H|(r & [] & _)].
  - destruct (IH _ (impact_temples_NoDup users r acc Hnd)) as [Hnd' Hin].
    split; [exact Hnd'|]. intros t. rewrite Hin, impact_temples_In. split.
    + intros [[H|H]|(r' & Hr' & H)]; [now left|right..].
      * exists r. split; [now left|exact H].
      * exists r'. split; [now right|exact H].
    + intros [H|(r' & [<-|Hr'] & H)]; [now left; left|now left; right|].
      right. now exists r'.
Qed.

Lemma impact_temples_absent users r acc :
  (forall u, createdBy r = Some u -> JsObject.get users u = None) ->
  impact_temples users r acc = acc.
Proof.
  intros H. unfold impact_temples.
  destruct (createdBy r) as [u|]; simpl; [|reflexivity].
  rewrite (H u eq_refl). now destruct (negb _).
Qed.

(** C3: the per-report new-contact count that makes up livesTouched. *)
Theorem C3_livesTouched_sums_new_contact_counts :
  (forall reports users,
     livesTouched (impact_of reports users)
     = Spec.sumZ Spec.normalizeNewContactCount reports)
  /\ (forall w, exists reports w1 users w2,
        fetchActivityReports w = (Ok reports, w1)
        /\ fetchUsers w1 = (Ok users, w2)
        /\ exists i, calculatePreachingImpact w = (Ok i, w2)
           /\ livesTouched i = Spec.sumZ Spec.normalizeNewContactCount reports)
  /\ (forall r users,
        livesTouched
          (impact_of
             [with_contacts r
                (Some [mkContact Js.JUndefined (Js.JBool true) Js.JUndefined;
                       mkContact Js.JUndefined (Js.JBool false) Js.JUndefined])]
             users) = 1)
  /\ (forall r users,
        livesTouched
          (impact_of [with_contacts r (Some [blank_contact; blank_contact])] users)
        = 2).
Proof.
  assert (H : forall reports users,
             livesTouched (impact_of reports users)
             = Spec.sumZ Spec.normalizeNewContactCount reports).
  { intros reports users. unfold impact_of. simpl.
    rewrite impact_fold_newContacts. reflexivity. }
  split; [exact H|]. split; [|split].
  - intros w.
    destruct (calculatePreachingImpact_run w)
      as (reports & w1 & users & w2 & H1 & H2 & H3).
    exists reports, w1, users, w2. repeat split; try assumption.
    exists (impact_of reports users). split; [exact H3|apply H].
  - intros r users. reflexivity.
  - intros r users. reflexivity.
Qed.

Lemma normalizePrasadamCount_nonzero_eq r :
  prasadamServed r <> Some 0 ->
  Spec.normalizePrasadamCount_nonzero r = Spec.normalizePrasadamCount r.
Proof.
  unfold Spec.normalizePrasadamCount_nonzero, Spec.normalizePrasadamCount.
  destruct (prasadamServed r) as [[|p|p]|]; try reflexivity.
  intros H. now contradiction H.
Qed.

Lemma sumZ_ext_in {A : Type} (f g : A -> Z) (l : list A) :
  (forall a, In a l -> f a = g a) -> Spec.sumZ f l = Spec.sumZ g l.
Proof.
  induction l as [|a l IH]; simpl; intros H; [reflexivity|].
  rewrite (H a) by now left. rewrite IH; [reflexivity|].
  intros b Hb. apply H. now right.
Qed.

Lemma totalPrasadamServed_spec reports users :
  totalPrasadamServed (impact_of reports users)
  = Spec.totalPrasadamServed_from Spec.normalizePrasadamCount_nonzero reports
      (livesTouched (impact_of reports users)).
Proof.
  unfold impact_of, Spec.totalPrasadamServed_from. simpl.
  rewrite impact_fold_prasadam. simpl.
  destruct (Z.eqb_spec (Spec.sumZ Spec.normalizePrasadamCount_nonzero reports) 0);
    reflexivity.
Qed.

(** C1, as stated, fails: a report that records [prasadamServed: 0] and two
    contacts is counted with the estimate 3, where the claim's count is 0 and
    its fallback then gives [livesTouched * 2 = 4]. *)
Lemma C1_counterexample_prasadamServed_zero :
  totalPrasadamServed (impact_of [zero_prasadam_report] JsObject.empty) = 3
  /\ livesTouched (impact_of [zero_prasadam_report] JsObject.empty) = 2
  /\ Spec.totalPrasadamServed_from Spec.normalizePrasadamCount
       [zero_prasadam_report]
       (livesTouched (impact_of [zero_prasadam_report] JsObject.empty)) = 4.
Proof. repeat split; reflexivity. Qed.

(** C1, amended: totalPrasadamServed is the sum over the reports of a count
    that uses prasadamServed when it is present and not zero, otherwise
    floor(contacts.length * 1.5) when contacts is present, otherwise 0; a sum
    of zero is replaced by livesTouched * 2.  Where no report records a zero
    prasadamServed, this is the count of the claim. *)
Theorem C1_totalPrasadamServed_sum_with_fallback :
  (forall reports users,
     totalPrasadamServed (impact_of reports users)
     = Spec.totalPrasadamServed_from Spec.normalizePrasadamCount_nonzero reports
         (livesTouched (impact_of reports users)))
  /\ (forall w, exists reports w1 users w2,
        fetchActivityReports w = (Ok reports, w1)
        /\ fetchUsers w1 = (Ok users, w2)
        /\ exists i, calculatePreachingImpact w = (Ok i, w2)
           /\ totalPrasadamServed i
              = Spec.totalPrasadamServed_from
                  Spec.normalizePrasadamCount_nonzero reports (livesTouched i))
  /\ (forall reports users,
        (forall r, In r reports -> prasadamServed r <> Some 0) ->
        totalPrasadamServed (impact_of reports users)
        = Spec.totalPrasadamServed_from Spec.normalizePrasadamCount reports
            (livesTouched (impact_of reports users))).
Proof.
  split; [exact totalPrasadamServed_spec|]. split.
  - intros w.
    destruct (calculatePreachingImpact_run w)
      as (reports & w1 & users & w2 & H1 & H2 & H3).
    exists reports, w1, users, w2. repeat split; try assumption.
    exists (impact_of reports users). split; [exact H3|].
    apply totalPrasadamServed_spec.
  - intros reports users H. rewrite totalPrasadamServed_spec.
    unfold Spec.totalPrasadamServed_from.
    rewrite (sumZ_ext_in Spec.normalizePrasadamCount_nonzero
               Spec.normalizePrasadamCount reports); [reflexivity|].
    intros r Hr. apply normalizePrasadamCount_nonzero_eq. now apply H.
Qed.

Lemma C1_witness_five_prasadam :
  totalPrasadamServed (impact_of [five_prasadam_report] JsObject.empty)
  = Spec.totalPrasadamServed_from Spec.normalizePrasadamCount
      [five_prasadam_report]
      (livesTouched (impact_of [five_prasadam_report] JsObject.empty)).
Proof.
  destruct C1_totalPrasadamServed_sum_with_fallback as (_ & _ & H).
  apply H. intros r [<-|[]]. discriminate.
Defined.

(** C8: activePreachers is the size of the user directory; citiesCovered is
    the number of distinct (non-empty) temples of directory users who
    authored a report; a report whose author is not in the directory adds to
    the other totals and leaves citiesCovered as it is. *)
Theorem C8_activePreachers_and_citiesCovered :
  (forall reports users,
     activePreachers (impact_of reports users) = Z.of_nat (List.length users)
     /\ exists temples,
          NoDup temples
          /\ citiesCovered (impact_of reports users)
             = Z.of_nat (List.length temples)
          /\ forall t, In t temples
                       <-> exists r, In r reports /\ authored_temple users r t)
  /\ (forall w, exists reports w1 users w2,
        fetchActivityReports w = (Ok reports, w1)
        /\ fetchUsers w1 = (Ok users, w2)
        /\ calculatePreachingImpact w = (Ok (impact_of reports users), w2))
  /\ (forall before after users r,
        (forall u, createdBy r = Some u -> JsObject.get users u = None) ->
        let without := impact_of (before ++ after) users in
        let with_r := impact_of (before ++ r :: after) users in
        citiesCovered with_r = citiesCovered without
        /\ activePreachers with_r = activePreachers without
        /\ totalReports with_r = totalReports without + 1
        /\ totalBooksDistributed with_r
           = totalBooksDistributed without + bookCount r
        /\ livesTouched with_r
           = livesTouched without + Spec.normalizeNewContactCount r).
Proof.
  split; [|split].
  - intros reports users. split.
    + unfold impact_of. simpl. now rewrite keys_length.
    + exists (t_temples (fold_left (impact_step users) reports (mkTotals 0 0 0 []))).
      unfold impact_of. simpl. rewrite impact_fold_temples. simpl.
      destruct (temples_fold_spec users reports [] (NoDup_nil _)) as [Hnd Hin].
      split; [exact Hnd|]. split; [reflexivity|].
      intros t. rewrite Hin. simpl. tauto.
  - exact calculatePreachingImpact_run.
  - intros before after users r Habsent. cbv zeta. unfold impact_of. simpl.
    rewrite !impact_fold_temples, !impact_fold_books, !impact_fold_newContacts.
    rewrite !fold_left_app, !sumZ_app, !length_app. simpl.
    rewrite (impact_temples_absent users r _ Habsent).
    repeat split; lia.
Qed.

Lemma C8_witness_unknown_author :
  citiesCovered
    (impact_of ([] ++ mkReport None (Some "u9") None None None None None None
                        None None :: [])
       [("u1", mkUser None None None (Some "Ipoh") None)])
  = citiesCovered
      (impact_of ([] ++ []) [("u1", mkUser None None None (Some "Ipoh") None)]).
Proof.
  destruct C8_activePreachers_and_citiesCovered as (_ & _ & H).
  apply H. intros u [= <-]. reflexivity.
Defined.

(** ** Category names *)

Lemma activityName_spec c r :
  activityName c r = Spec.resolveCategoryName c r "Unknown Activity".
Proof.
  unfold activityName, Spec.resolveCategoryName, Js.str_orelse, Js.truthy_str,
    Js.prop_key.
  destruct (cat_categoryName c) as [a|], (categoryName r) as [b|],
    (cat_name c) as [d|]; simpl;
    repeat match goal with
           | |- context [(?s =? "")%string] =>
               destruct (String.eqb_spec s ""); subst; simpl
           end; try reflexivity; try contradiction.
Qed.

Lemma pieCategoryName_spec c r :
  pieCategoryName c r = Spec.resolveCategoryName_distribution c r.
Proof.
  unfold pieCategoryName, Spec.resolveCategoryName_distribution, Js.str_orelse,
    Js.truthy_str, Js.prop_key.
  destruct (cat_categoryName c) as [a|], (categoryName r) as [b|],
    (cat_name c) as [d|]; simpl;
    repeat match goal with
           | |- context [(?s =? "")%string] =>
               destruct (String.eqb_spec s ""); subst; simpl
           end; try reflexivity; try contradiction.
Qed.

(** ** The counting loop of getPieChartData *)

Lemma init_count_value d k k' : count_of (init_count d k) k' = count_of d k'.
Proof.
  unfold init_count, count_of.
  destruct (Js.truthy_num (JsObject.get d k)) eqn:E; [reflexivity|].
  destruct (String.eqb_spec k k') as [<-|Hne].
  - rewrite get_set_same. simpl.
    destruct (JsObject.get d k) as [n|]; [|reflexivity].
    simpl in E. apply negb_false_iff, Z.eqb_eq in E. now subst.
  - now rewrite get_set_other.
Qed.

Lemma init_count_keys d k k' :
  In k' (map fst (init_count d k)) <-> In k' (map fst d) \/ k' = k.
Proof.
  unfold init_count.
  destruct (Js.truthy_num (JsObject.get d k)) eqn:E.
  - split; [now left|]. intros [H| ->]; [exact H|].
    destruct (JsObject.get d k) eqn:G; [|discriminate].
    apply get_In in G. change k with (fst (k, z)). now apply in_map.
  - rewrite set_keys_raw. destruct (JsObject.get d k) eqn:G.
    + split; [now left|]. intros [H| ->]; [exact H|].
      apply get_In in G. change k with (fst (k, z)). now apply in_map.
    + rewrite in_app_iff. simpl. intuition.
Qed.

Lemma init_count_NoDup d k :
  NoDup (map fst d) -> NoDup (map fst (init_count d k)).
Proof.
  intros H. unfold init_count.
  destruct (Js.truthy_num _); [exact H|now apply set_NoDup].
Qed.

Section PieLoop.

Variable categories : categories_map.

Local Abbreviation name_of := (reportCategoryName categories).

Lemma pie_step_value d r k :
  count_of (pie_step categories d r) k
  = count_of d k + (if (name_of r =? k)%string then 1 else 0).
Proof.
  unfold pie_step. fold (category_of categories r).
  fold (reportCategoryName categories r). cbv zeta.
  destruct (String.eqb_spec (name_of r) k) as [<-|Hne].
  - unfold count_of at 1. rewrite get_set_same. simpl.
    fold (count_of (init_count d (name_of r)) (name_of r)).
    now rewrite init_count_value.
  - unfold count_of at 1. rewrite get_set_other by exact Hne.
    fold (count_of (init_count d (name_of r)) k).
    rewrite init_count_value. lia.
Qed.

Lemma pie_step_keys d r k :
  In k (map fst (pie_step categories d r))
  <-> In k (map fst d) \/ k = name_of r.
Proof.
  unfold pie_step. fold (reportCategoryName categories r). cbv zeta.
  rewrite set_keys_raw.
  destruct (JsObject.get (init_count d (name_of r)) (name_of r)) eqn:G.
  - apply init_count_keys.
  - exfalso. apply get_None_iff in G. apply G.
    apply init_count_keys. now right.
Qed.

Lemma pie_step_NoDup d r :
  NoDup (map fst d) -> NoDup (map fst (pie_step categories d r)).
Proof.
  intros H. unfold pie_step. cbv zeta. now apply set_NoDup, init_count_NoDup.
Qed.

Lemma pie_fold_spec reports d :
  NoDup (map fst d) ->
  let d' := fold_left (pie_step categories) reports d in
  NoDup (map fst d')
  /\ (forall k, count_of d' k = count_of d k + count_by name_of k reports)
  /\ (forall k, In k (map fst d')
                <-> In k (map fst d) \/ exists r, In r reports /\ name_of r = k).
Proof.
  revert d. induction reports as [|r rs IH]; intros d Hnd; simpl.
  - split; [exact Hnd|]. split.
    + intros k. unfold count_by. simpl. lia.
    + intros k. split; [now left|]. now intros [H|(r & [] & _)].
  - destruct (IH _ (pie_step_NoDup d r Hnd)) as (Hnd' & Hval & Hkeys).
    split; [exact Hnd'|]. split.
    + intros k. rewrite Hval, pie_step_value. unfold count_by. simpl.
      destruct (name_of r =? k)%string; simpl List.length; lia.
    + intros k. rewrite Hkeys, pie_step_keys. split.
      * intros [[H| ->]|(r' & Hr' & H)]; [now left|right..].
        -- now exists r; split; [left|].
        -- now exists r'; split; [right|].
      * intros [H|(r' & [<-|Hr'] & H)]; [now left; left|now left; right|].
        right. now exists r'.
Qed.

Lemma pie_init_fold_spec cs d :
  NoDup (map fst d) ->
  let d' := fold_left (fun d c => init_count d (categoryLabel c)) cs d in
  NoDup (map fst d')
  /\ (forall k, count_of d' k = count_of d k)
  /\ (forall k, In k (map fst d')
                <-> In k (map fst d) \/ exists c, In c cs /\ categoryLabel c = k).
Proof.
  revert d. induction cs as [|c cs IH]; intros d Hnd; simpl.
  - split; [exact Hnd|]. split; [reflexivity|].
    intros k. split; [now left|]. now intros [H|(c & [] & _)].
  - destruct (IH _ (init_count_NoDup d (categoryLabel c) Hnd))
      as (Hnd' & Hval & Hkeys).
    split; [exact Hnd'|]. split.
    + intros k. now rewrite Hval, init_count_value.
    + intros k. rewrite Hkeys, init_count_keys. split.
      * intros [[H| ->]|(c' & Hc' & H)]; [now left|right..].
        -- now exists c; split; [left|].
        -- now exists c'; split; [right|].
      * intros [H|(c' & [<-|Hc'] & H)]; [now left; left|now left; right|].
        right. now exists c'.
Qed.

(** What [categoryData] holds when the loop ends. *)
Lemma categoryData_spec reports :
  let d := categoryData_of reports categories in
  NoDup (map fst d)
  /\ (forall k, count_of d k = count_by name_of k reports)
  /\ (forall k, In k (map fst d)
                <-> (exists c, In c (JsObject.values categories)
                               /\ categoryLabel c = k)
                    \/ exists r, In r reports /\ name_of r = k).
Proof.
  unfold categoryData_of, pie_init.
  destruct (pie_init_fold_spec (JsObject.values categories) JsObject.empty
              (NoDup_nil _)) as (Hnd0 & Hval0 & Hkeys0).
  destruct (pie_fold_spec reports _ Hnd0) as (Hnd & Hval & Hkeys).
  cbv zeta in *. split; [exact Hnd|]. split.
  - intros k. rewrite Hval, Hval0. reflexivity.
  - intros k. rewrite Hkeys, Hkeys0. simpl. tauto.
Qed.

End PieLoop.

(** ** Sorting the slices *)

Lemma insert_desc_perm x l : Permutation (insert_desc x l) (x :: l).
Proof.
  induction l as [|y l IH]; simpl; [reflexivity|].
  destruct (snd x <? snd y); [|reflexivity].
  rewrite IH. apply perm_swap.
Qed.

Lemma sort_desc_perm l : Permutation (sort_desc l) l.
Proof.
  induction l as [|x l IH]; simpl; [reflexivity|].
  rewrite insert_desc_perm. now constructor.
Qed.





Lemma no_member_nil {A : Type} (l : list A) :
  (forall x, ~ In x l) -> l = [].
Proof.
  destruct l as [|a l]; [reflexivity|].
  intros H. exfalso. apply (H a). now left.
Qed.

(** ** The category distribution *)

Section Distribution.

Variable categories : categories_map.
Variable reports : list report.

Local Abbreviation d := (categoryData_of reports categories).

Lemma positive_entries_In k v :
  In (k, v) (positive_entries d)
  <-> 0 < v /\ v = count_by (reportCategoryName categories) k reports.
Proof.
  destruct (categoryData_spec categories reports) as (Hnd & Hval & _).
  cbv zeta in *. unfold positive_entries. rewrite filter_In. simpl.
  rewrite Z.ltb_lt. split.
  - intros [Hin Hpos]. split; [exact Hpos|].
    apply (Permutation_in _ (entries_perm d)) in Hin.
    apply (In_get _ _ _ Hnd) in Hin.
    rewrite <- Hval. unfold count_of. now rewrite Hin.
  - intros [Hpos Hv]. split; [|exact Hpos].
    apply (Permutation_in _ (Permutation_sym (entries_perm d))).
    apply get_In. rewrite <- Hval in Hv. unfold count_of in Hv.
    destruct (JsObject.get d k) as [n|]; simpl in Hv; [now subst|lia].
Qed.


Lemma count_by_pos_iff (f : report -> string) k :
  0 < count_by f k reports <-> exists r, In r reports /\ f r = k.
Proof.
  unfold count_by. split.
  - intros H. destruct (filter _ reports) as [|r l] eqn:E; [simpl in H; lia|].
    assert (Hin : In r (filter (fun r => (f r =? k)%string) reports))
      by (rewrite E; now left).
    apply filter_In in Hin. destruct Hin as [Hin Heq].
    exists r. split; [exact Hin|now apply String.eqb_eq].
  - intros (r & Hin & Heq).
    assert (Hf : In r (filter (fun r => (f r =? k)%string) reports)).
    { apply filter_In. split; [exact Hin|now apply String.eqb_eq]. }
    destruct (filter _ reports); [contradiction|simpl; lia].
Qed.

Lemma positive_entries_nil_iff : positive_entries d = [] <-> reports = [].
Proof.
  split.
  - intros H. apply no_member_nil. intros r Hr.
    pose (k := reportCategoryName categories r).
    assert (Hpos : 0 < count_by (reportCategoryName categories) k reports).
    { apply count_by_pos_iff. now exists r. }
    assert (Hin : In (k, count_by (reportCategoryName categories) k reports)
                    (positive_entries d)).
    { apply positive_entries_In. split; [exact Hpos|reflexivity]. }
    rewrite H in Hin. contradiction.
  - intros Hnil. apply no_member_nil. intros [k v] Hin.
    apply positive_entries_In in Hin. destruct Hin as [Hpos ->].
    apply count_by_pos_iff in Hpos. destruct Hpos as (r & Hr & _).
    rewrite Hnil in Hr. contradiction.
Qed.

Lemma pie_of_unfold :
  pie_of reports categories =
  match sort_desc (positive_entries d) with
  | [] => map (fun c => (categoryLabel c, 0)) (JsObject.values categories)
  | pieData => pieData
  end.
Proof.
  unfold pie_of, positive_entries. cbv zeta.
  now destruct (sort_desc _).
Qed.

Lemma pie_of_nonempty :
  positive_entries d <> [] ->
  pie_of reports categories = sort_desc (positive_entries d).
Proof.
  intros H. rewrite pie_of_unfold.
  destruct (sort_desc (positive_entries d)) eqn:E; [|reflexivity].
  exfalso. apply H. apply Permutation_nil.
  rewrite <- E. apply sort_desc_perm.
Qed.

Lemma pie_of_empty :
  positive_entries d = [] ->
  pie_of reports categories
  = map (fun c => (categoryLabel c, 0)) (JsObject.values categories).
Proof. intros H. rewrite pie_of_unfold, H. reflexivity. Qed.

End Distribution.

Lemma count_by_ext (f g : report -> string) k reports :
  (forall r, f r = g r) -> count_by f k reports = count_by g k reports.
Proof.
  intros H. unfold count_by. do 2 f_equal. apply filter_ext.
  intros r. now rewrite H.
Qed.

Lemma pieCategoryName_own_label c r :
  has_own_label c = true -> pieCategoryName c r = categoryLabel c.
Proof.
  unfold has_own_label, pieCategoryName, categoryLabel, Js.str_or.
  destruct (Js.truthy_str (cat_categoryName c)) eqn:E1.
  - intros _. destruct (cat_categoryName c); [reflexivity|discriminate].
  - simpl. intros E2. rewrite E2.
    destruct (cat_name c); [reflexivity|discriminate].
Qed.




(** C2, as stated, fails for the distribution: a category that has only a
    [name] and a report that carries its own [categoryName] are counted under
    the category's [name], where the claim's order gives the report's name
    (which is what the enriched row shows). *)
Lemma C2_counterexample_distribution_order :
  pie_of [renamed_report] name_only_categories = [("Kirtan", 1)]
  /\ Spec.resolveCategoryName (category_of name_only_categories renamed_report)
       renamed_report "Other" = "Street Festival"
  /\ row_activity (enrich name_only_categories JsObject.empty renamed_report)
     = "Street Festival".
Proof. repeat split; reflexivity. Qed.

(** C2, amended: an enriched row resolves the name as category.categoryName,
    then report.categoryName, then category.name, else "Unknown Activity";
    the distribution counts a report under category.categoryName, then
    category.name, then report.categoryName, else "Other", so that a report
    of a category with a label of its own is counted on the slice that the
    first loop of the distribution made for that category.  A known category
    with a non-empty categoryName gives exactly that name in the row, and an
    unknown categoryId without a report-level name gives "Unknown Activity".
    Category ids and the names counted under are plain names. *)
Theorem C2_category_name_resolution :
  (forall categories users r,
     plain_categoryId r = true ->
     row_activity (enrich categories users r)
     = Spec.resolveCategoryName (category_of categories r) r "Unknown Activity")
  /\ (forall reports categories k v,
        plain_distribution reports categories = true ->
        In (k, v) (positive_entries (categoryData_of reports categories))
        <-> 0 < v
            /\ v = count_by
                     (fun r => Spec.resolveCategoryName_distribution
                                 (category_of categories r) r) k reports)
  /\ (forall reports categories,
        plain_distribution reports categories = true ->
        reports <> [] ->
        Permutation (pie_of reports categories)
          (positive_entries (categoryData_of reports categories)))
  /\ (forall categories users r c n,
        JsObject.get categories (Js.prop_key (categoryId r)) = Some c ->
        cat_categoryName c = Some n -> n <> "" ->
        row_activity (enrich categories users r) = n)
  /\ (forall categories users r,
        plain_categoryId r = true ->
        JsObject.get categories (Js.prop_key (categoryId r)) = None ->
        Js.truthy_str (categoryName r) = false ->
        row_activity (enrich categories users r) = "Unknown Activity")
  /\ (forall categories r c,
        JsObject.get categories (Js.prop_key (categoryId r)) = Some c ->
        has_own_label c = true ->
        JsObject.plain (categoryLabel c) = true ->
        reportCategoryName categories r = categoryLabel c
        /\ In (categoryLabel c) (JsObject.keys (pie_init categories))).
Proof.
  split; [|split; [|split; [|split; [|split]]]].
  - intros categories users r _. simpl. apply activityName_spec.
  - intros reports categories k v _. rewrite positive_entries_In.
    rewrite (count_by_ext (reportCategoryName categories)
               (fun r => Spec.resolveCategoryName_distribution
                           (category_of categories r) r)); [reflexivity|].
    intros r. apply pieCategoryName_spec.
  - intros reports categories _ Hne. rewrite pie_of_nonempty.
    + apply sort_desc_perm.
    + intros H. apply Hne. now apply positive_entries_nil_iff in H.
  - intros categories users r c n Hget Hn Hne. simpl.
    unfold category_of, activityName. rewrite Hget, Hn. simpl.
    destruct (String.eqb_spec n ""); [contradiction|reflexivity].
  - intros categories users r _ Hget Hr. simpl.
    unfold category_of, activityName. rewrite Hget, Hr. reflexivity.
  - intros categories r c Hget Hl _. split.
    + unfold reportCategoryName, category_of. rewrite Hget.
      now apply pieCategoryName_own_label.
    + apply keys_In. unfold pie_init.
      destruct (pie_init_fold_spec (JsObject.values categories) JsObject.empty
                  (NoDup_nil _)) as (_ & _ & Hkeys).
      apply Hkeys. right. exists c. split; [|reflexivity].
      unfold JsObject.values. apply in_map_iff.
      exists (Js.prop_key (categoryId r), c). split; [reflexivity|].
      apply (Permutation_in _ (Permutation_sym (entries_perm categories))).
      now apply get_In.
Qed.

Lemma C2_witness_known_and_unknown_category :
  row_activity (enrich two_categories JsObject.empty (report_in_category "a"))
  = "A"
  /\ row_activity (enrich two_categories JsObject.empty (report_in_category "zz"))
     = "Unknown Activity"
  /\ Permutation (pie_of [renamed_report] name_only_categories)
       (positive_entries (categoryData_of [renamed_report] name_only_categories))
  /\ reportCategoryName name_only_categories renamed_report = "Kirtan".
Proof.
  destruct C2_category_name_resolution
    as (_ & _ & Hpie & Hknown & Hunknown & Hslice).
  split; [|split; [|split]].
  - apply (Hknown _ _ _ (mkCategory (Some "A") None)); [reflexivity..|discriminate].
  - apply Hunknown; reflexivity.
  - apply Hpie; [reflexivity|discriminate].
  - now destruct (Hslice name_only_categories renamed_report
                    (mkCategory None (Some "Kirtan")) eq_refl eq_refl eq_refl).
Defined.

(** ** The grouping loop of getChartData *)

Lemma existsb_keys {V : Type} (o : JsObject.t V) k :
  existsb (String.eqb k) (map fst o)
  = match JsObject.get o k with Some _ => true | None => false end.
Proof.
  induction o as [|[k' v] o IH]; simpl; [reflexivity|].
  rewrite String.eqb_sym.
  destruct (k' =? k)%string; simpl; [reflexivity|exact IH].
Qed.

Lemma count_by_app f k l1 l2 :
  count_by f k (l1 ++ l2) = count_by f k l1 + count_by f k l2.
Proof. unfold count_by. rewrite filter_app, length_app. lia. Qed.

Lemma sum_by_app key f k l1 l2 :
  sum_by key f k (l1 ++ l2) = sum_by key f k l1 + sum_by key f k l2.
Proof. unfold sum_by. now rewrite filter_app, sumZ_app. Qed.

Lemma count_by_nonneg f k l : 0 <= count_by f k l.
Proof. unfold count_by. lia. Qed.

Lemma sum_by_no_member key f k l : count_by key k l = 0 -> sum_by key f k l = 0.
Proof.
  unfold count_by, sum_by. destruct (filter _ l); simpl; [reflexivity|lia].
Qed.

Lemma count_by_single f k r :
  count_by f k [r] = if (f r =? k)%string then 1 else 0.
Proof. unfold count_by. simpl. now destruct (f r =? k)%string. Qed.

Lemma sum_by_single key f k r :
  sum_by key f k [r] = if (key r =? k)%string then f r else 0.
Proof.
  unfold sum_by. simpl. destruct (key r =? k)%string; simpl; lia.
Qed.

Section ChartLoop.

Variable users : users_map.

Local Abbreviation key := (regionKey users).

Lemma chart_step_keys rd r :
  map fst (chart_step users rd r) = set_add (map fst rd) (key r).
Proof.
  unfold chart_step. cbv zeta. rewrite modify_keys_raw.
  unfold set_add. rewrite existsb_keys.
  destruct (JsObject.get rd (key r)) eqn:G; [reflexivity|].
  rewrite set_keys_raw. now rewrite G.
Qed.

Lemma chart_step_get rd r k :
  JsObject.get (chart_step users rd r) k =
  if (key r =? k)%string then
    let g := match JsObject.get rd k with
             | Some g => g
             | None => mkRegion 0 0 0
             end in
    Some {| books_ := books_ g + bookCount r;
            prasadam_ := prasadam_ g + prasadamCount r;
            events_ := events_ g + 1 |}
  else JsObject.get rd k.
Proof.
  unfold chart_step. cbv zeta.
  destruct (String.eqb_spec (key r) k) as [<-|Hne].
  - rewrite get_modify_same.
    destruct (JsObject.get rd (key r)) eqn:G.
    + now rewrite G.
    + now rewrite get_set_same.
  - rewrite get_modify_other by exact Hne.
    destruct (JsObject.get rd (key r)); [reflexivity|].
    now rewrite get_set_other.
Qed.

Lemma regionData_keys reports :
  map fst (regionData_of reports users) = distinct_in_order (map key reports).
Proof.
  unfold regionData_of, distinct_in_order.
  change (@nil string) with (map fst (@JsObject.empty region)).
  generalize (@JsObject.empty region) as rd.
  induction reports as [|r rs IH]; intros rd; simpl; [reflexivity|].
  rewrite IH. now rewrite chart_step_keys.
Qed.

Lemma regionData_get reports k :
  JsObject.get (regionData_of reports users) k =
  if 0 <? count_by key k reports then Some (group_of key k reports) else None.
Proof.
  unfold regionData_of.
  induction reports as [|r rs IH] using rev_ind; [reflexivity|].
  rewrite fold_left_app. simpl. rewrite chart_step_get, IH.
  unfold group_of. rewrite count_by_app, !sum_by_app.
  rewrite count_by_single, !sum_by_single.
  pose proof (count_by_nonneg key k rs) as Hnn.
  destruct (key r =? k)%string.
  - destruct (Z.ltb_spec 0 (count_by key k rs + 1)) as [_|]; [|lia].
    destruct (Z.ltb_spec 0 (count_by key k rs)) as [Hpos|Hz]; cbv zeta; simpl.
    + reflexivity.
    + assert (Hc : count_by key k rs = 0) by lia.
      rewrite !(sum_by_no_member key _ k rs Hc), Hc. reflexivity.
  - rewrite !Z.add_0_r. reflexivity.
Qed.

Lemma set_add_NoDup_fold l acc :
  NoDup acc -> NoDup (fold_left set_add l acc).
Proof.
  revert acc. induction l as [|x l IH]; intros acc H; simpl; [exact H|].
  apply IH. now apply set_add_NoDup.
Qed.

Lemma set_add_In_fold l acc x :
  In x (fold_left set_add l acc) <-> In x acc \/ In x l.
Proof.
  revert acc. induction l as [|y l IH]; intros acc; simpl; [tauto|].
  rewrite IH, set_add_In. intuition.
Qed.

Lemma distinct_in_order_NoDup l : NoDup (distinct_in_order l).
Proof. apply set_add_NoDup_fold. constructor. Qed.

Lemma distinct_in_order_In l x : In x (distinct_in_order l) <-> In x l.
Proof. unfold distinct_in_order. rewrite set_add_In_fold. simpl. tauto. Qed.

Lemma series_spec reports (field : region -> Z) ks :
  (forall k, In k ks -> In k (map key reports)) ->
  series (regionData_of reports users) field ks
  = Some (map (fun k => field (group_of key k reports)) ks).
Proof.
  induction ks as [|k ks IH]; intros H; simpl; [reflexivity|].
  rewrite regionData_get, IH by (intros k' Hk'; apply H; now right).
  assert (Hpos : 0 < count_by key k reports).
  { apply count_by_pos_iff.
    destruct (proj1 (in_map_iff _ _ _) (H k (or_introl eq_refl)))
      as (r & Hr & Hin).
    exists r. tauto. }
  apply Z.ltb_lt in Hpos. now rewrite Hpos.
Qed.

End ChartLoop.

(** ** The regional series *)

Lemma firstn_incl {A : Type} (n : nat) (l : list A) x :
  In x (firstn n l) -> In x l.
Proof.
  intros H. rewrite <- (firstn_skipn n l). apply in_or_app. now left.
Qed.

Lemma firstn_NoDup {A : Type} (n : nat) (l : list A) :
  NoDup l -> NoDup (firstn n l).
Proof.
  intros H. rewrite <- (firstn_skipn n l) in H.
  now apply NoDup_app_remove_r in H.
Qed.

Lemma regionKey_spec users r :
  regionKey users r =
  match JsObject.get users (Js.prop_key (createdBy r)) with
  | Some u =>
      match temple u with
      | Some t => if (t =? "")%string then "Unknown" else t
      | None => "Unknown"
      end
  | None => "Unknown"
  end.
Proof.
  unfold regionKey, author_of, Js.str_or.
  destruct (JsObject.get users _) as [u|]; [|reflexivity].
  destruct (temple u) as [t|]; simpl; [|reflexivity].
  now destruct (t =? "")%string.
Qed.

Lemma chart_of_spec reports users :
  let ks := firstn 5 (JsObject.keys (regionData_of reports users)) in
  chart_of reports users =
  Some {| regions := ks;
          booksData :=
            map (fun k => sum_by (regionKey users) bookCount k reports) ks;
          prasadamData :=
            map (fun k => sum_by (regionKey users) prasadamCount k reports) ks;
          eventsData := map (fun k => count_by (regionKey users) k reports) ks |}.
Proof.
  cbv zeta. unfold chart_of. cbv zeta.
  assert (Hks : forall k,
             In k (firstn 5 (JsObject.keys (regionData_of reports users))) ->
             In k (map (regionKey users) reports)).
  { intros k Hk. apply firstn_incl in Hk.
    apply (proj1 (keys_In _ _)) in Hk.
    rewrite regionData_keys in Hk.
    exact (proj1 (distinct_in_order_In _ _) Hk). }
  rewrite !(series_spec users reports _ _ Hks). reflexivity.
Qed.

Lemma getChartData_run w :
  exists reports w1 users w2 c,
    fetchActivityReports w = (Ok reports, w1)
    /\ fetchUsers w1 = (Ok users, w2)
    /\ chart_of reports users = Some c
    /\ getChartData w = (Ok c, w2).
Proof.
  destruct (fetchActivityReports_returns w) as (reports & w1 & H1).
  destruct (fetchUsers_returns w1) as (users & w2 & H2).
  pose proof (chart_of_spec reports users) as Hc. cbv zeta in Hc.
  eexists reports, w1, users, w2, _.
  split; [exact H1|]. split; [exact H2|]. split; [exact Hc|].
  unfold getChartData, try_catch, bind. now rewrite H1, H2, Hc.
Qed.

(** C5, as stated, fails when a temple is named by an array index: the
    group "7", met sixth, is emitted first, and the group "E", among the first
    five met, is left out. *)
Lemma C5_counterexample_array_index_temple :
  option_map regions (chart_of index_temple_reports index_temple_users)
  = Some ["7"; "A"; "B"; "C"; "D"]
  /\ firstn 5
       (distinct_in_order
          (map (regionKey index_temple_users) index_temple_reports))
     = ["A"; "B"; "C"; "D"; "E"].
Proof. split; reflexivity. Qed.

(** C5, amended: the regional series groups the reports by the author's temple
    ("Unknown" without author in the directory, without temple or with an
    empty one), sums books and prasadam and counts one event per report in
    each group, and emits the first five group keys in the enumeration order
    of the grouping object: array-index keys first, ascending, then the other
    keys as first met -- so the first five met when no temple is named by an
    array index -- whatever the volumes.  The groups have plain names. *)
Theorem C5_regional_series_first_five (reports : list report)
    (users : users_map) :
  plain_regions users reports = true ->
  exists c,
    chart_of reports users = Some c
    /\ (forall w w1 w2, fetchActivityReports w = (Ok reports, w1) ->
                        fetchUsers w1 = (Ok users, w2) ->
                        getChartData w = (Ok c, w2))
    /\ (forall r, regionKey users r =
                  match JsObject.get users (Js.prop_key (createdBy r)) with
                  | Some u =>
                      match temple u with
                      | Some t => if (t =? "")%string then "Unknown" else t
                      | None => "Unknown"
                      end
                  | None => "Unknown"
                  end)
    /\ regions c = firstn 5 (JsObject.keys (regionData_of reports users))
    /\ (List.length (regions c) <= 5)%nat
    /\ NoDup (regions c)
    /\ Permutation (JsObject.keys (regionData_of reports users))
         (distinct_in_order (map (regionKey users) reports))
    /\ (exists idx,
          JsObject.keys (regionData_of reports users)
          = idx ++ filter (fun k => negb (JsObject.is_index k))
                     (distinct_in_order (map (regionKey users) reports))
          /\ Permutation idx
               (filter JsObject.is_index
                  (distinct_in_order (map (regionKey users) reports)))
          /\ Sorted (fun a b => (JsObject.index_of a <= JsObject.index_of b)%N)
               idx)
    /\ ((forall r, In r reports ->
                   JsObject.is_index (regionKey users r) = false) ->
        regions c = firstn 5 (distinct_in_order (map (regionKey users) reports)))
    /\ booksData c
       = map (fun k => sum_by (regionKey users) bookCount k reports) (regions c)
    /\ prasadamData c
       = map (fun k => sum_by (regionKey users) prasadamCount k reports)
           (regions c)
    /\ eventsData c
       = map (fun k => count_by (regionKey users) k reports) (regions c)
    /\ (exists c6,
          chart_of six_temples_reports six_temples = Some c6
          /\ distinct_in_order (map (regionKey six_temples) six_temples_reports)
             = ["A"; "B"; "C"; "D"; "E"; "F"]
          /\ regions c6 = ["A"; "B"; "C"; "D"; "E"]
          /\ eventsData c6 = [1; 1; 1; 1; 1]
          /\ count_by (regionKey six_temples) "F" six_temples_reports = 3).
Proof.
  intros _.
  pose proof (chart_of_spec reports users) as Hc. cbv zeta in Hc.
  eexists. split; [exact Hc|].
  cbn [regions booksData prasadamData eventsData].
  assert (Hperm : Permutation (JsObject.keys (regionData_of reports users))
                    (distinct_in_order (map (regionKey users) reports))).
  { rewrite <- regionData_keys. apply keys_perm. }
  repeat match goal with |- _ /\ _ => split end.
  - intros w w1 w2 H1 H2. unfold getChartData, try_catch, bind.
    now rewrite H1, H2, Hc.
  - intros r. apply regionKey_spec.
  - reflexivity.
  - apply firstn_le_length.
  - apply firstn_NoDup.
    eapply Permutation_NoDup; [symmetry; exact Hperm|].
    apply distinct_in_order_NoDup.
  - exact Hperm.
  - rewrite <- regionData_keys. apply keys_order.
  - intros Hidx. f_equal. rewrite <- regionData_keys. apply keys_no_index.
    intros k Hk. rewrite regionData_keys in Hk.
    apply (proj1 (distinct_in_order_In _ _)) in Hk.
    apply (proj1 (in_map_iff _ _ _)) in Hk.
    destruct Hk as (r & <- & Hr). now apply Hidx.
  - reflexivity.
  - reflexivity.
  - reflexivity.
  - eexists. repeat split; reflexivity.
Qed.

Lemma C5_witness_six_temples :
  exists c,
    chart_of six_temples_reports six_temples = Some c
    /\ regions c
       = firstn 5 (distinct_in_order
                     (map (regionKey six_temples) six_temples_reports)).
Proof.
  destruct (C5_regional_series_first_five six_temples_reports six_temples
              eq_refl)
    as (c & Hc & _ & _ & _ & _ & _ & _ & _ & Hfirst & _).
  exists c. split; [exact Hc|]. apply Hfirst.
  intros r Hr. simpl in Hr.
  repeat (destruct Hr as [<-|Hr]; [reflexivity|]). contradiction.
Defined.

(** ** Running the other views *)

Lemma getRecentReports_run limitCount w :
  exists reports w1 categories w2 users w3,
    fetchActivityReports w = (Ok reports, w1)
    /\ fetchPreachingCategories w1 = (Ok categories, w2)
    /\ fetchUsers w2 = (Ok users, w3)
    /\ getRecentReports limitCount w
       = (Ok (recent_of limitCount reports categories users), w3).
Proof.
  destruct (fetchActivityReports_returns w) as (reports & w1 & H1).
  destruct (fetchPreachingCategories_returns w1) as (categories & w2 & H2).
  destruct (fetchUsers_returns w2) as (users & w3 & H3).
  exists reports, w1, categories, w2, users, w3.
  repeat split; try assumption.
  unfold getRecentReports, try_catch, bind. now rewrite H1, H2, H3.
Qed.

Lemma getPieChartData_run w :
  exists reports w1 categories w2,
    fetchActivityReports w = (Ok reports, w1)
    /\ fetchPreachingCategories w1 = (Ok categories, w2)
    /\ getPieChartData w = (Ok (pie_of reports categories), w2).
Proof.
  destruct (fetchActivityReports_returns w) as (reports & w1 & H1).
  destruct (fetchPreachingCategories_returns w1) as (categories & w2 & H2).
  exists reports, w1, categories, w2.
  repeat split; try assumption.
  unfold getPieChartData, try_catch, bind. now rewrite H1, H2.
Qed.

(** ** Errors of the store *)

(** C9: a fetcher never throws; when the store fails its query, the fetcher
    logs the error and returns the empty sequence (reports) or the empty
    mapping (categories, users), so the views built on the fetchers return
    as well. *)
Theorem C9_fetchers_never_throw :
  (forall w, exists reports w', fetchActivityReports w = (Ok reports, w'))
  /\ (forall w, exists categories w',
        fetchPreachingCategories w = (Ok categories, w'))
  /\ (forall w, exists users w', fetchUsers w = (Ok users, w'))
  /\ (forall w e,
        st_refuses (store w) reports_query = Some e ->
        valid_at (dataCache w) (clock w) = false
        \/ DataCache.activityReports (dataCache w) = None ->
        fetchActivityReports w
        = (Ok [], logged (after_query w reports_query)
                    "Error fetching activity reports:"))
  /\ (forall w e,
        st_refuses (store w) categories_query = Some e ->
        valid_at (dataCache w) (clock w) = false
        \/ DataCache.preachingCategories (dataCache w) = None ->
        fetchPreachingCategories w
        = (Ok JsObject.empty, logged (after_query w categories_query)
                                "Error fetching preaching categories:"))
  /\ (forall w e,
        st_refuses (store w) users_query = Some e ->
        valid_at (dataCache w) (clock w) = false
        \/ DataCache.users (dataCache w) = None ->
        fetchUsers w
        = (Ok JsObject.empty, logged (after_query w users_query)
                                "Error fetching users:"))
  /\ (forall w, (exists i w', calculatePreachingImpact w = (Ok i, w'))
                /\ (exists c w', getChartData w = (Ok c, w'))
                /\ (exists p w', getPieChartData w = (Ok p, w'))
                /\ forall n, exists rows w', getRecentReports n w = (Ok rows, w')).
Proof.
  repeat match goal with |- _ /\ _ => split end.
  - exact fetchActivityReports_returns.
  - exact fetchPreachingCategories_returns.
  - exact fetchUsers_returns.
  - intros w e He Hmiss. rewrite fetchActivityReports_miss by exact Hmiss.
    now rewrite He.
  - intros w e He Hmiss. rewrite fetchPreachingCategories_miss by exact Hmiss.
    now rewrite He.
  - intros w e He Hmiss. rewrite fetchUsers_miss by exact Hmiss.
    now rewrite He.
  - intros w. repeat match goal with |- _ /\ _ => split end.
    + destruct (calculatePreachingImpact_run w) as (? & ? & ? & ? & _ & _ & H).
      eauto.
    + destruct (getChartData_run w) as (? & ? & ? & ? & ? & _ & _ & _ & H).
      eauto.
    + destruct (getPieChartData_run w) as (? & ? & ? & ? & _ & _ & H). eauto.
    + intros n.
      destruct (getRecentReports_run n w)
        as (? & ? & ? & ? & ? & ? & _ & _ & _ & H).
      eauto.
Qed.

Lemma C9_witness_offline_store :
  fetchActivityReports offline_world
  = (Ok [], logged (after_query offline_world reports_query)
              "Error fetching activity reports:")
  /\ fetchPreachingCategories offline_world
     = (Ok JsObject.empty, logged (after_query offline_world categories_query)
                             "Error fetching preaching categories:")
  /\ fetchUsers offline_world
     = (Ok JsObject.empty, logged (after_query offline_world users_query)
                             "Error fetching users:").
Proof.
  destruct C9_fetchers_never_throw as (_ & _ & _ & Hr & Hc & Hu & _).
  split; [|split].
  - apply (Hr offline_world (StoreError "unavailable")); [reflexivity|now left].
  - apply (Hc offline_world (StoreError "unavailable")); [reflexivity|now left].
  - apply (Hu offline_world (StoreError "unavailable")); [reflexivity|now left].
Defined.

(** ** The cache *)

Lemma valid_at_empty c now :
  DataCache.lastFetch c = None -> valid_at c now = false.
Proof. unfold valid_at. now intros ->. Qed.

Lemma fetchPreachingCategories_lastFetch w :
  DataCache.lastFetch (dataCache (snd (fetchPreachingCategories w)))
  = DataCache.lastFetch (dataCache w).
Proof.
  destruct (valid_at (dataCache w) (clock w)) eqn:Hv.
  - destruct (DataCache.preachingCategories (dataCache w)) as [c|] eqn:Hc.
    + now rewrite (fetchPreachingCategories_hit w c Hv Hc).
    + rewrite fetchPreachingCategories_miss by now right.
      now destruct (st_refuses _ _).
  - rewrite fetchPreachingCategories_miss by now left.
    now destruct (st_refuses _ _).
Qed.

Lemma fetchUsers_lastFetch w :
  DataCache.lastFetch (dataCache (snd (fetchUsers w)))
  = DataCache.lastFetch (dataCache w).
Proof.
  destruct (valid_at (dataCache w) (clock w)) eqn:Hv.
  - destruct (DataCache.users (dataCache w)) as [c|] eqn:Hc.
    + now rewrite (fetchUsers_hit w c Hv Hc).
    + rewrite fetchUsers_miss by now right.
      now destruct (st_refuses _ _).
  - rewrite fetchUsers_miss by now left.
    now destruct (st_refuses _ _).
Qed.

(** C7: fetching the categories or the users stores what was fetched and
    leaves lastFetch as it was; the reports fetch stamps it; clearCache empties
    the three collections and the timestamp at once, after which isCacheValid
    is false and the next fetch of each collection queries the store. *)
Theorem C7_lastFetch_and_clearCache :
  (forall w,
     DataCache.lastFetch (dataCache (snd (fetchPreachingCategories w)))
     = DataCache.lastFetch (dataCache w)
     /\ DataCache.lastFetch (dataCache (snd (fetchUsers w)))
        = DataCache.lastFetch (dataCache w))
  /\ (forall w,
        st_refuses (store w) categories_query = None ->
        valid_at (dataCache w) (clock w) = false
        \/ DataCache.preachingCategories (dataCache w) = None ->
        DataCache.preachingCategories
          (dataCache (snd (fetchPreachingCategories w)))
        = Some (JsObject.of_docs (st_preachingCategories (store w))))
  /\ (forall w,
        st_refuses (store w) users_query = None ->
        valid_at (dataCache w) (clock w) = false
        \/ DataCache.users (dataCache w) = None ->
        DataCache.users (dataCache (snd (fetchUsers w)))
        = Some (JsObject.of_docs (st_users (store w))))
  /\ (forall w,
        st_refuses (store w) reports_query = None ->
        valid_at (dataCache w) (clock w) = false
        \/ DataCache.activityReports (dataCache w) = None ->
        DataCache.lastFetch (dataCache (snd (fetchActivityReports w)))
        = Some (clock w + st_latency (store w))
        /\ DataCache.activityReports (dataCache (snd (fetchActivityReports w)))
           = Some (map report_of_doc (st_activityReports (store w))))
  /\ (forall w, clearCache w = (Ok tt, with_cache w empty_cache))
  /\ (forall w,
        dataCache w = empty_cache ->
        isCacheValid w = (Ok false, w)
        /\ (exists reports w' rest,
              fetchActivityReports w = (Ok reports, w')
              /\ trace w' = trace w ++ GetDocs reports_query :: rest
              /\ (st_refuses (store w) reports_query = None ->
                  reports = map report_of_doc (st_activityReports (store w))))
        /\ (exists categories w' rest,
              fetchPreachingCategories w = (Ok categories, w')
              /\ trace w' = trace w ++ GetDocs categories_query :: rest
              /\ (st_refuses (store w) categories_query = None ->
                  categories
                  = JsObject.of_docs (st_preachingCategories (store w))))
        /\ (exists users w' rest,
              fetchUsers w = (Ok users, w')
              /\ trace w' = trace w ++ GetDocs users_query :: rest
              /\ (st_refuses (store w) users_query = None ->
                  users = JsObject.of_docs (st_users (store w))))).
Proof.
  split; [|split; [|split; [|split; [|split]]]].
  - intros w. split;
      [apply fetchPreachingCategories_lastFetch|apply fetchUsers_lastFetch].
  - intros w Hok Hmiss. rewrite fetchPreachingCategories_miss by exact Hmiss.
    now rewrite Hok.
  - intros w Hok Hmiss. rewrite fetchUsers_miss by exact Hmiss.
    now rewrite Hok.
  - intros w Hok Hmiss. rewrite fetchActivityReports_miss by exact Hmiss.
    now rewrite Hok.
  - reflexivity.
  - intros w Hempty.
    assert (Hv : valid_at (dataCache w) (clock w) = false)
      by (rewrite Hempty; reflexivity).
    split; [|split; [|split]].
    + rewrite isCacheValid_run. now rewrite Hv.
    + rewrite fetchActivityReports_miss by now left.
      destruct (st_refuses (store w) reports_query) eqn:E.
      * eexists _, _, _. split; [reflexivity|]. split; [|discriminate].
        simpl. rewrite <- app_assoc. reflexivity.
      * eexists _, _, []. split; [reflexivity|]. split; reflexivity.
    + rewrite fetchPreachingCategories_miss by now left.
      destruct (st_refuses (store w) categories_query) eqn:E.
      * eexists _, _, _. split; [reflexivity|]. split; [|discriminate].
        simpl. rewrite <- app_assoc. reflexivity.
      * eexists _, _, []. split; [reflexivity|]. split; reflexivity.
    + rewrite fetchUsers_miss by now left.
      destruct (st_refuses (store w) users_query) eqn:E.
      * eexists _, _, _. split; [reflexivity|]. split; [|discriminate].
        simpl. rewrite <- app_assoc. reflexivity.
      * eexists _, _, []. split; [reflexivity|]. split; reflexivity.
Qed.

Lemma C7_witness_after_clearCache :
  isCacheValid (snd (clearCache online_world))
  = (Ok false, snd (clearCache online_world))
  /\ DataCache.lastFetch
       (dataCache (snd (fetchActivityReports (snd (clearCache online_world)))))
     = Some 1700000000040.
Proof.
  destruct C7_lastFetch_and_clearCache as (_ & _ & _ & Hstamp & _ & Hclear).
  split.
  - apply (Hclear (snd (clearCache online_world))). reflexivity.
  - apply (Hstamp (snd (clearCache online_world))); [reflexivity|now left].
Defined.

(** ** Live feeds *)

Lemma listenToActivityReports_run callback w :
  listenToActivityReports callback w =
  match st_rejects (store w) reports_live_query with
  | Some _ => (Ok None, logged w "Error setting up real-time listener:")
  | None =>
      (Ok (Some
             (mkSubscription reports_live_query
                (fun querySnapshot =>
                   let reports := map report_of_doc querySnapshot in
                   write_cache (set_activityReports reports) ;;;
                   now <- Date_now ;;
                   write_cache (set_lastFetch now) ;;;
                   call_reports callback reports)
                None)),
       emitted w (OnSnapshot reports_live_query))
  end.
Proof.
  unfold listenToActivityReports, try_catch, bind, onSnapshot.
  destruct (st_rejects (store w) reports_live_query); reflexivity.
Qed.

Lemma views_over_cached_reports w snapshot :
  fetchActivityReports w = (Ok snapshot, w) ->
  (exists users w',
     calculatePreachingImpact w = (Ok (impact_of snapshot users), w'))
  /\ (forall n, exists categories users w',
        getRecentReports n w = (Ok (recent_of n snapshot categories users), w'))
  /\ (exists users c w',
        chart_of snapshot users = Some c /\ getChartData w = (Ok c, w'))
  /\ (exists categories w',
        getPieChartData w = (Ok (pie_of snapshot categories), w')).
Proof.
  intros Hr. split; [|split; [|split]].
  - destruct (fetchUsers_returns w) as (users & w' & Hu).
    exists users, w'. unfold calculatePreachingImpact, try_catch, bind.
    now rewrite Hr, Hu.
  - intros n.
    destruct (fetchPreachingCategories_returns w) as (categories & w1 & Hc).
    destruct (fetchUsers_returns w1) as (users & w2 & Hu).
    exists categories, users, w2. unfold getRecentReports, try_catch, bind.
    now rewrite Hr, Hc, Hu.
  - destruct (fetchUsers_returns w) as (users & w' & Hu).
    pose proof (chart_of_spec snapshot users) as Hc. cbv zeta in Hc.
    eexists users, _, w'. split; [exact Hc|].
    unfold getChartData, try_catch, bind. now rewrite Hr, Hu, Hc.
  - destruct (fetchPreachingCategories_returns w) as (categories & w1 & Hc).
    exists categories, w1. unfold getPieChartData, try_catch, bind.
    now rewrite Hr, Hc.
Qed.

(** C10: the live listener subscribes to the reports, newest first, with a
    limit of 50 documents.  On each push the cache that the callback finds
    holds the pushed snapshot -- the at most 50 newest reports -- in place of
    the reports it held, stamped with the time of the push.  Therefore, in
    every later world whose cache is still that one, the fetch returns the
    snapshot without a query and the four views are computed over it while
    less than five minutes have passed since the push, and from five minutes
    on, or once the cache is cleared, the fetch asks the store again.  A
    one-shot fetch that reaches the store returns all the reports. *)
Theorem C10_live_push_caps_cached_reports (callback : list report -> M unit) :
  (q_collection reports_live_query = "activityReports"
   /\ q_where reports_live_query = []
   /\ q_orderBy reports_live_query = Some ("createdAt", "desc")
   /\ q_limit reports_live_query = Some 50%nat
   /\ q_limit reports_query = None)
  /\ (forall w,
        st_rejects (store w) reports_live_query = None ->
        exists s w',
          listenToActivityReports callback w = (Ok (Some s), w')
          /\ sub_query s = reports_live_query
          /\ trace w' = trace w ++ [OnSnapshot reports_live_query]
          /\ forall w1,
               let snapshot :=
                 map report_of_doc (firstn 50 (st_activityReports (store w1))) in
               exists w2,
                 push_reports s w1 = callback snapshot w2
                 /\ (List.length snapshot <= 50)%nat
                 /\ DataCache.activityReports (dataCache w2) = Some snapshot
                 /\ DataCache.lastFetch (dataCache w2) = Some (clock w1)
                 /\ DataCache.users (dataCache w2)
                    = DataCache.users (dataCache w1)
                 /\ DataCache.preachingCategories (dataCache w2)
                    = DataCache.preachingCategories (dataCache w1)
                 /\ store w2 = store w1
                 /\ clock w2 = clock w1
                 /\ trace w2 = trace w1 ++ [ReportsCallback snapshot]
                 /\ ((forall rs w0, dataCache (snd (callback rs w0)) = dataCache w0) ->
                     dataCache (snd (push_reports s w1)) = dataCache w2)
                 /\ (forall w3,
                       dataCache w3 = dataCache w2 ->
                       clock w1 <> 0 ->
                       clock w3 - clock w1 < CACHE_DURATION ->
                       fetchActivityReports w3 = (Ok snapshot, w3)
                       /\ (exists users w4,
                             calculatePreachingImpact w3
                             = (Ok (impact_of snapshot users), w4))
                       /\ (forall n, exists categories users w4,
                             getRecentReports n w3
                             = (Ok (recent_of n snapshot categories users), w4))
                       /\ (exists users c w4,
                             chart_of snapshot users = Some c
                             /\ getChartData w3 = (Ok c, w4))
                       /\ (exists categories w4,
                             getPieChartData w3
                             = (Ok (pie_of snapshot categories), w4)))
                 /\ (forall w3,
                       dataCache w3 = dataCache w2 ->
                       CACHE_DURATION <= clock w3 - clock w1 ->
                       exists reports w4 rest,
                         fetchActivityReports w3 = (Ok reports, w4)
                         /\ trace w4
                            = trace w3 ++ GetDocs reports_query :: rest))
  /\ (forall w snapshot t0,
        DataCache.activityReports (dataCache w) = Some snapshot ->
        DataCache.lastFetch (dataCache w) = Some t0 ->
        t0 <> 0 ->
        clock w - t0 < CACHE_DURATION ->
        fetchActivityReports w = (Ok snapshot, w)
        /\ (exists users w',
              calculatePreachingImpact w = (Ok (impact_of snapshot users), w'))
        /\ (forall n, exists categories users w',
              getRecentReports n w
              = (Ok (recent_of n snapshot categories users), w'))
        /\ (exists users c w',
              chart_of snapshot users = Some c /\ getChartData w = (Ok c, w'))
        /\ (exists categories w',
              getPieChartData w = (Ok (pie_of snapshot categories), w')))
  /\ (forall w,
        st_refuses (store w) reports_query = None ->
        valid_at (dataCache w) (clock w) = false
        \/ DataCache.activityReports (dataCache w) = None ->
        fst (fetchActivityReports w)
        = Ok (map report_of_doc (st_activityReports (store w))))
  /\ (forall w,
        exists reports w' rest,
          fetchActivityReports (snd (clearCache w)) = (Ok reports, w')
          /\ trace w' = trace w ++ GetDocs reports_query :: rest).
Proof.
  assert (Hfresh : forall w snapshot t0,
             DataCache.activityReports (dataCache w) = Some snapshot ->
             DataCache.lastFetch (dataCache w) = Some t0 ->
             t0 <> 0 ->
             clock w - t0 < CACHE_DURATION ->
             fetchActivityReports w = (Ok snapshot, w)).
  { intros w snapshot t0 Hc Ht Hne Hlt.
    apply fetchActivityReports_hit; [|exact Hc].
    unfold valid_at. rewrite Ht.
    apply andb_true_intro. split.
    - apply negb_true_iff. now apply Z.eqb_neq.
    - now apply Z.ltb_lt. }
  split; [repeat split|]. split; [|split; [|split]].
  - intros w Hok. rewrite listenToActivityReports_run, Hok.
    eexists _, _. split; [reflexivity|]. split; [reflexivity|].
    split; [reflexivity|].
    intros w1. cbv zeta.
    set (snapshot :=
           map report_of_doc (firstn 50 (st_activityReports (store w1)))).
    exists (emitted
              (with_cache w1
                 (set_lastFetch (clock w1)
                    (set_activityReports snapshot (dataCache w1))))
              (ReportsCallback snapshot)).
    split; [reflexivity|]. split.
    { unfold snapshot. rewrite length_map. apply firstn_le_length. }
    do 7 (split; [reflexivity|]). split; [|split].
    + intros Hkeep.
      change (push_reports _ w1)
        with (callback snapshot
                (emitted
                   (with_cache w1
                      (set_lastFetch (clock w1)
                         (set_activityReports snapshot (dataCache w1))))
                   (ReportsCallback snapshot))).
      apply Hkeep.
    + intros w3 Hc Hne Hlt.
      assert (Hhit : fetchActivityReports w3 = (Ok snapshot, w3)).
      { apply (Hfresh w3 snapshot (clock w1)); try assumption;
          now rewrite Hc. }
      split; [exact Hhit|]. now apply views_over_cached_reports.
    + intros w3 Hc Hold. rewrite fetchActivityReports_miss.
      * destruct (st_refuses (store w3) reports_query).
        -- eexists _, _, _. split; [reflexivity|]. simpl.
           now rewrite <- app_assoc.
        -- eexists _, _, []. split; reflexivity.
      * left. unfold valid_at. rewrite Hc. simpl.
        apply andb_false_iff. right. now apply Z.ltb_ge.
  - intros w snapshot t0 Hc Ht Hne Hlt.
    pose proof (Hfresh w snapshot t0 Hc Ht Hne Hlt) as Hhit.
    split; [exact Hhit|]. now apply views_over_cached_reports.
  - intros w Hok Hmiss. rewrite fetchActivityReports_miss by exact Hmiss.
    now rewrite Hok.
  - intros w. rewrite fetchActivityReports_miss by (now left).
    simpl. destruct (st_refuses (store w) reports_query).
    + eexists _, _, _. split; [reflexivity|]. simpl.
      now rewrite <- app_assoc.
    + eexists _, _, []. split; reflexivity.
Qed.

Lemma C10_witness_pushed_world :
  (exists s w',
     listenToActivityReports quiet online_world = (Ok (Some s), w')
     /\ sub_query s = reports_live_query
     /\ fetchActivityReports (snd (push_reports s online_world))
        = (Ok [report_of_doc ("r1", report_by "u1");
               report_of_doc ("r2", report_by "u1")],
           snd (push_reports s online_world)))
  /\ fetchActivityReports pushed_world = (Ok [report_by "u1"], pushed_world)
  /\ fst (fetchActivityReports online_world)
     = Ok (map report_of_doc (st_activityReports (store online_world))).
Proof.
  destruct (C10_live_push_caps_cached_reports quiet)
    as (_ & Hlisten & Hfresh & Hall & _).
  split; [|split].
  - destruct (Hlisten online_world eq_refl) as (s & w' & Hl & Hq & _ & Hpush).
    exists s, w'. split; [exact Hl|]. split; [exact Hq|].
    destruct (Hpush online_world)
      as (w2 & _ & _ & _ & _ & _ & _ & _ & _ & _ & Hkeep & Hviews & _).
    apply Hviews.
    + apply Hkeep. reflexivity.
    + discriminate.
    + assert (Hclock : clock (snd (push_reports s online_world))
                       = clock online_world).
      { revert Hl. rewrite listenToActivityReports_run. simpl.
        intros [= <- _]. reflexivity. }
      rewrite Hclock. reflexivity.
  - apply (Hfresh pushed_world [report_by "u1"] 1700000000000);
      [reflexivity|reflexivity|discriminate|reflexivity].
  - apply Hall; [reflexivity|now left].
Defined.

(** The error observer of the resources listener: one manual fetch, then the
    callback with what the fetch returned (the empty sequence when the fetch
    failed); a callback that throws is called a second time, with the empty
    sequence. *)
Lemma resources_onError_run fmt iso srt category callback e w :
  resources_onError fmt iso srt category callback e w =
  let q := resources_query category in
  let w1 := after_query (logged w "Real-time listener error for resources:") q in
  let fetched :=
    match st_refuses (store w) q with
    | Some _ => ([], logged w1 "Error fetching resources:")
    | None =>
        (resources_of fmt iso srt (clock w1) (st_preachingResources (store w) q),
         w1)
    end in
  match callback (fst fetched)
          (emitted (snd fetched) (ResourcesCallback (fst fetched))) with
  | (Ok u, w') => (Ok u, w')
  | (Throw _, w') =>
      callback []
        (emitted (logged w' "Manual fallback fetch failed:")
           (ResourcesCallback []))
  end.
Proof.
  unfold resources_onError, fetchResources, call_resources, try_catch, bind,
    getDocs, console_error, emit, Date_now, ret. simpl.
  destruct (st_refuses (store w) (resources_query category)); simpl;
    destruct (callback _ _) as [[u|e'] w']; reflexivity.
Qed.

Lemma listenToResources_fallback fmt iso srt category w e :
  st_rejects (store w) (resources_query category) = None ->
  exists s w' onError,
    listenToResources fmt iso srt category quiet w = (Ok (Some s), w')
    /\ sub_error s = Some onError
    /\ forall w1,
         exists resources w2,
           deliver s (ListenError e) w1 = (Ok tt, w2)
           /\ (trace w2
               = trace w1
                 ++ [ConsoleError "Real-time listener error for resources:";
                     GetDocs (resources_query category);
                     ResourcesCallback resources]
               /\ st_refuses (store w1) (resources_query category) = None
               \/ trace w2
                  = trace w1
                    ++ [ConsoleError "Real-time listener error for resources:";
                        GetDocs (resources_query category);
                        ConsoleError "Error fetching resources:";
                        ResourcesCallback []]
                  /\ resources = []).
Proof.
  intros Hok. unfold listenToResources, try_catch, bind, onSnapshot.
  rewrite Hok. eexists _, _, _. split; [reflexivity|]. split; [reflexivity|].
  intros w1. simpl. rewrite resources_onError_run. cbv zeta.
  destruct (st_refuses (store w1) (resources_query category)) eqn:E; simpl.
  - eexists [], _. split; [reflexivity|]. right. split; [|reflexivity].
    simpl. now rewrite <- !app_assoc.
  - eexists _, _. split; [reflexivity|]. left. split; [|reflexivity].
    simpl. now rewrite <- !app_assoc.
Qed.

(** C4 on the reports listener: the subscription is registered without an
    error observer, so an error of the feed runs no code of the listener --
    no fetch, no callback; a listener that cannot be set up returns null
    after one console message, again without fetch or callback. *)
Theorem C4_reports_listener_has_no_fallback
    (callback : list report -> M unit) (w : world) (e : error) :
  match listenToActivityReports callback w with
  | (Ok (Some s), w') =>
      st_rejects (store w) reports_live_query = None
      /\ w' = emitted w (OnSnapshot reports_live_query)
      /\ sub_error s = None
      /\ forall w1,
           deliver s (ListenError e) w1
           = (Ok tt, logged w1 "Uncaught Error in snapshot listener:")
  | (Ok None, w') =>
      st_rejects (store w) reports_live_query <> None
      /\ w' = logged w "Error setting up real-time listener:"
  | (Throw _, _) => False
  end.
Proof.
  rewrite listenToActivityReports_run.
  destruct (st_rejects (store w) reports_live_query) eqn:E.
  - split; [discriminate|reflexivity].
  - repeat split; reflexivity.
Qed.

(* ================================================================== *)
(** * Part III. Further properties of the code *)
(* ================================================================== *)

(** ** Impact totals do not depend on the order of the reports *)

Lemma sumZ_perm {A : Type} (f : A -> Z) (l l' : list A) :
  Permutation l l' -> Spec.sumZ f l = Spec.sumZ f l'.
Proof.
  induction 1 as [|a l l' _ IH|a b l|l l' l'' _ IH1 _ IH2]; simpl; lia.
Qed.

Lemma NoDup_same_members_length {A : Type} (l l' : list A) :
  NoDup l -> NoDup l' -> (forall x, In x l <-> In x l') ->
  List.length l = List.length l'.
Proof.
  intros H H' Hin. apply Permutation_length.
  now apply NoDup_Permutation.
Qed.

(** calculatePreachingImpact returns the same six totals for two lists that
    hold the same reports in different orders. *)
Theorem impact_of_permutation reports reports' users :
  Permutation reports reports' ->
  impact_of reports users = impact_of reports' users.
Proof.
  intros Hp. unfold impact_of.
  set (acc := fold_left (impact_step users) reports (mkTotals 0 0 0 [])).
  set (acc' := fold_left (impact_step users) reports' (mkTotals 0 0 0 [])).
  assert (Hb : t_books acc = t_books acc').
  { unfold acc, acc'. rewrite !impact_fold_books. simpl.
    now rewrite (sumZ_perm _ _ _ Hp). }
  assert (Hs : t_prasadam acc = t_prasadam acc').
  { unfold acc, acc'. rewrite !impact_fold_prasadam. simpl.
    now rewrite (sumZ_perm _ _ _ Hp). }
  assert (Hn : t_newContacts acc = t_newContacts acc').
  { unfold acc, acc'. rewrite !impact_fold_newContacts. simpl.
    now rewrite (sumZ_perm _ _ _ Hp). }
  assert (Ht : List.length (t_temples acc) = List.length (t_temples acc')).
  { unfold acc, acc'. rewrite !impact_fold_temples. simpl.
    destruct (temples_fold_spec users reports [] (NoDup_nil _)) as [Hnd Hin].
    destruct (temples_fold_spec users reports' [] (NoDup_nil _)) as [Hnd' Hin'].
    apply NoDup_same_members_length; [exact Hnd|exact Hnd'|].
    intros t. rewrite Hin, Hin'. simpl. split.
    - intros [[]|(r & Hr & H)]. right. exists r. split; [|exact H].
      now apply (Permutation_in _ Hp).
    - intros [[]|(r & Hr & H)]. right. exists r. split; [|exact H].
      now apply (Permutation_in _ (Permutation_sym Hp)). }
  rewrite Hb, Hs, Hn, Ht, (Permutation_length Hp). reflexivity.
Qed.

Lemma impact_of_permutation_witness :
  impact_of [zero_prasadam_report; five_prasadam_report] six_temples
  = impact_of [five_prasadam_report; zero_prasadam_report] six_temples.
Proof.
  apply impact_of_permutation. apply perm_swap.
Defined.

(** ** Book counts *)

(** The book count of a report is its bare number, or the sum of its big,
    medium and small counts with missing sizes as zero, or zero without the
    field; totalBooksDistributed is the sum of these counts, and so is the sum
    of the books column of the enriched rows when the limit covers all
    reports. *)
Theorem book_counts_agree reports users :
  (forall r,
     bookCount r
     = match booksDistributed r with
       | Some (BooksCount n) => n
       | Some (BooksBySize b m s) =>
           Js.num_or_zero b + Js.num_or_zero m + Js.num_or_zero s
       | None => 0
       end)
  /\ totalBooksDistributed (impact_of reports users) = Spec.sumZ bookCount reports
  /\ (forall limitCount categories users',
        Z.of_nat (List.length reports) <= limitCount ->
        Spec.sumZ row_books (recent_of limitCount reports categories users')
        = totalBooksDistributed (impact_of reports users)).
Proof.
  split; [|split].
  - intros r. unfold bookCount.
    destruct (booksDistributed r) as [[n|b m s]|]; try reflexivity.
    destruct (Z.eqb_spec n 0); simpl; lia.
  - unfold impact_of. simpl. now rewrite impact_fold_books.
  - intros limitCount categories users' Hl.
    unfold impact_of. simpl. rewrite impact_fold_books. simpl.
    unfold recent_of, slice0.
    destruct (Z.leb_spec 0 limitCount); [|lia].
    rewrite firstn_all2 by lia.
    induction reports as [|r rs IH]; simpl; [reflexivity|].
    simpl in Hl. rewrite IH by lia. reflexivity.
Qed.

Lemma book_counts_agree_witness :
  Spec.sumZ row_books
    (recent_of 10 [zero_prasadam_report; five_prasadam_report]
       two_categories six_temples)
  = totalBooksDistributed
      (impact_of [zero_prasadam_report; five_prasadam_report] six_temples).
Proof.
  destruct (book_counts_agree [zero_prasadam_report; five_prasadam_report]
              six_temples) as (_ & _ & H).
  apply H. simpl. lia.
Defined.

(** ** Enriched rows *)

(** getRecentReports keeps the store order and returns a prefix: with a
    limit of zero or more, the first [limitCount] reports (all of them when
    there are fewer); with a negative limit, all but the last [-limitCount];
    row [i] is the enrichment of report [i]. *)
Theorem recent_rows_are_a_prefix limitCount reports categories users :
  let rows := recent_of limitCount reports categories users in
  (0 <= limitCount ->
   List.length rows = Nat.min (Z.to_nat limitCount) (List.length reports))
  /\ (limitCount < 0 ->
      List.length rows = (List.length reports - Z.to_nat (- limitCount))%nat)
  /\ (forall i row,
        nth_error rows i = Some row ->
        exists r, nth_error reports i = Some r
                  /\ row = enrich categories users r
                  /\ row_id row = id r).
Proof.
  cbv zeta. unfold recent_of, slice0. split; [|split].
  - intros H. destruct (Z.leb_spec 0 limitCount); [|lia].
    now rewrite length_map, length_firstn.
  - intros H. destruct (Z.leb_spec 0 limitCount); [lia|].
    rewrite length_map, length_firstn. lia.
  - intros i row Hrow.
    set (n := if 0 <=? limitCount then Z.to_nat limitCount
              else Z.to_nat (Z.of_nat (List.length reports) + limitCount)).
    assert (Hrows : nth_error (map (enrich categories users) (firstn n reports)) i
                    = Some row).
    { unfold n. now destruct (0 <=? limitCount). }
    rewrite nth_error_map in Hrows.
    destruct (nth_error (firstn n reports) i) as [r|] eqn:E; [|discriminate].
    injection Hrows as <-. exists r. split; [|split; reflexivity].
    destruct (Nat.ltb_spec i n) as [Hlt|Hge].
    + now rewrite nth_error_firstn, (proj2 (Nat.ltb_lt _ _) Hlt) in E.
    + assert (Hnone : nth_error (firstn n reports) i = None).
      { apply nth_error_None. rewrite length_firstn. lia. }
      congruence.
Qed.

Lemma recent_rows_are_a_prefix_witness :
  List.length (recent_of 1 six_temples_reports two_categories six_temples) = 1%nat
  /\ List.length (recent_of (-3) six_temples_reports two_categories six_temples)
     = 5%nat.
Proof.
  destruct (recent_rows_are_a_prefix 1 six_temples_reports two_categories
              six_temples) as (H & _ & _).
  destruct (recent_rows_are_a_prefix (-3) six_temples_reports two_categories
              six_temples) as (_ & H' & _).
  split; [rewrite H by lia; reflexivity|rewrite H' by lia; reflexivity].
Defined.

Lemma before_T_prefix day rest :
  (forall c, In c (list_ascii_of_string day) -> c <> "T"%char) ->
  before_T (day ++ String "T" rest)%string = day.
Proof.
  induction day as [|c day IH]; simpl; intros H.
  - reflexivity.
  - destruct (Ascii.eqb_spec c "T") as [->|_].
    + exfalso. now apply (H "T"%char); [left|].
    + f_equal. apply IH. intros c' Hc'. apply H. now right.
Qed.

Lemma str_or_truthy o d s :
  o = Some s -> s <> "" -> Js.str_or o d = s.
Proof.
  intros -> Hne. unfold Js.str_or. simpl.
  now destruct (String.eqb_spec s "").
Qed.

Lemma str_or_falsy o d : Js.truthy_str o = false -> Js.str_or o d = d.
Proof. intros H. unfold Js.str_or. now rewrite H. Qed.

(** The display fields of an enriched row.  The date is the report's [date]
    when it has one, else the day of its store timestamp (the part of the ISO
    rendering before the 'T'), else "N/A".  A report whose author, named by
    a plain name, is not in the directory is shown with preacher "Unknown"
    and temple "N/A", and is grouped under "Unknown" in the regional
    series. *)
Theorem row_display_fields categories users r :
  let row := enrich categories users r in
  (forall d, date r = Some d -> d <> "" -> row_date row = d)
  /\ (forall day rest,
        Js.truthy_str (date r) = false ->
        createdAt r = Some (StoreTimestamp (day ++ String "T" rest)) ->
        day <> "" ->
        (forall c, In c (list_ascii_of_string day) -> c <> "T"%char) ->
        row_date row = day)
  /\ (Js.truthy_str (date r) = false ->
      (forall iso, createdAt r <> Some (StoreTimestamp iso)) ->
      row_date row = "N/A")
  /\ (plain_author r = true ->
      JsObject.get users (Js.prop_key (createdBy r)) = None ->
      row_preacher row = "Unknown" /\ row_temple row = "N/A"
      /\ regionKey users r = "Unknown")
  /\ (forall u n,
        JsObject.get users (Js.prop_key (createdBy r)) = Some u ->
        displayName u = Some n -> n <> "" -> row_preacher row = n)
  /\ row_contacts row
     = match contacts r with
       | Some cs => Z.of_nat (List.length cs)
       | None => 0
       end.
Proof.
  cbv zeta. simpl. repeat match goal with |- _ /\ _ => split end.
  - intros d Hd Hne. now apply str_or_truthy.
  - intros day rest Hd Hc Hne Hday.
    rewrite (str_or_falsy _ _ Hd). unfold createdAt_day. rewrite Hc.
    apply str_or_truthy; [|exact Hne]. f_equal. now apply before_T_prefix.
  - intros Hd Hc. rewrite (str_or_falsy _ _ Hd). unfold createdAt_day.
    destruct (createdAt r) as [[iso|s]|]; try reflexivity.
    now contradiction (Hc iso).
  - intros _ Hu. unfold regionKey, author_of. rewrite Hu. repeat split.
  - intros u n Hu Hn Hne. unfold author_of. rewrite Hu.
    now apply str_or_truthy.
  - reflexivity.
Qed.

Lemma row_display_fields_witness :
  row_date
    (enrich two_categories six_temples
       (mkReport None (Some "u1") None None None None None None None
          (Some (StoreTimestamp "2024-03-09T10:15:00.000Z"))))
  = "2024-03-09"
  /\ row_preacher (enrich two_categories six_temples (report_by "u9"))
     = "Unknown".
Proof.
  split.
  - destruct (row_display_fields two_categories six_temples
                (mkReport None (Some "u1") None None None None None None None
                   (Some (StoreTimestamp "2024-03-09T10:15:00.000Z"))))
      as (_ & H & _).
    apply (H "2024-03-09" "10:15:00.000Z");
      [reflexivity|reflexivity|discriminate|].
    intros c Hc. simpl in Hc.
    repeat (destruct Hc as [<-|Hc]; [discriminate|]). contradiction.
  - destruct (row_display_fields two_categories six_temples (report_by "u9"))
      as (_ & _ & _ & H & _).
    now destruct (H eq_refl eq_refl) as (Hp & _).
Defined.

(** ** Sums over groups *)

Lemma sumZ_map {A B : Type} (g : B -> Z) (h : A -> B) (l : list A) :
  Spec.sumZ g (map h l) = Spec.sumZ (fun a => g (h a)) l.
Proof. induction l as [|a l IH]; simpl; [reflexivity|now rewrite IH]. Qed.

Lemma sumZ_plus {A : Type} (f g : A -> Z) (l : list A) :
  Spec.sumZ (fun a => f a + g a) l = Spec.sumZ f l + Spec.sumZ g l.
Proof. induction l as [|a l IH]; simpl; lia. Qed.

Lemma sumZ_indicator (a : string) (v : Z) (ks : list string) :
  NoDup ks ->
  Spec.sumZ (fun k => if (a =? k)%string then v else 0) ks
  = if existsb (String.eqb a) ks then v else 0.
Proof.
  induction 1 as [|k ks Hnotin Hnd IH]; simpl; [reflexivity|].
  rewrite IH. destruct (String.eqb_spec a k) as [->|Hne]; simpl; [|reflexivity].
  destruct (existsb (String.eqb k) ks) eqn:E; [|lia].
  exfalso. apply existsb_exists in E. destruct E as (x & Hx & Heq).
  apply String.eqb_eq in Heq. subst x. contradiction.
Qed.

Lemma sum_by_cons key f k r rs :
  sum_by key f k (r :: rs)
  = (if (key r =? k)%string then f r else 0) + sum_by key f k rs.
Proof.
  change (r :: rs) with ([r] ++ rs). now rewrite sum_by_app, sum_by_single.
Qed.

Lemma sum_over_groups (key : report -> string) (f : report -> Z) reports ks :
  NoDup ks ->
  Spec.sumZ (fun k => sum_by key f k reports) ks
  = Spec.sumZ (fun r => if existsb (String.eqb (key r)) ks then f r else 0)
      reports.
Proof.
  intros Hnd. induction reports as [|r rs IH]; simpl.
  - induction ks as [|k ks IHk]; simpl; [reflexivity|].
    inversion Hnd; subst. now rewrite IHk.
  - rewrite <- IH.
    rewrite (sumZ_ext_in _ (fun k => (if (key r =? k)%string then f r else 0)
                                     + sum_by key f k rs) ks)
      by (intros k _; apply sum_by_cons).
    rewrite sumZ_plus. now rewrite sumZ_indicator.
Qed.

Lemma sum_over_all_groups (key : report -> string) (f : report -> Z) reports ks :
  NoDup ks -> (forall r, In r reports -> In (key r) ks) ->
  Spec.sumZ (fun k => sum_by key f k reports) ks = Spec.sumZ f reports.
Proof.
  intros Hnd Hall. rewrite sum_over_groups by exact Hnd.
  apply sumZ_ext_in. intros r Hr.
  destruct (existsb (String.eqb (key r)) ks) eqn:E; [reflexivity|].
  exfalso. assert (existsb (String.eqb (key r)) ks = true); [|congruence].
  apply existsb_exists. exists (key r). split; [now apply Hall|].
  apply String.eqb_refl.
Qed.

Lemma sumZ_ones {A : Type} (l : list A) :
  Spec.sumZ (fun _ => 1) l = Z.of_nat (List.length l).
Proof.
  induction l as [|a l IH]; [reflexivity|].
  cbn [Spec.sumZ fold_right List.length]. fold (Spec.sumZ (fun _ : A => 1) l).
  rewrite IH. lia.
Qed.

Lemma count_by_as_sum key k reports :
  count_by key k reports = sum_by key (fun _ => 1) k reports.
Proof. unfold count_by, sum_by. now rewrite sumZ_ones. Qed.

Lemma sumZ_le {A : Type} (f g : A -> Z) (l : list A) :
  (forall a, In a l -> f a <= g a) -> Spec.sumZ f l <= Spec.sumZ g l.
Proof.
  induction l as [|a l IH]; simpl; intros H; [lia|].
  pose proof (H a (or_introl eq_refl)).
  assert (Spec.sumZ f l <= Spec.sumZ g l) by (apply IH; intros; apply H; now right).
  lia.
Qed.

(** ** The regional series adds up *)

(** When the groups have plain names, the three series are as long as the
    list of regions; the events emitted never exceed the number of reports;
    and with at most five distinct regions the series add up to the report
    count, to totalBooksDistributed and to the prasadam of all reports. *)
Theorem chart_series_add_up reports users c :
  plain_regions users reports = true ->
  chart_of reports users = Some c ->
  List.length (booksData c) = List.length (regions c)
  /\ List.length (prasadamData c) = List.length (regions c)
  /\ List.length (eventsData c) = List.length (regions c)
  /\ Spec.sumZ (fun z => z) (eventsData c) <= Z.of_nat (List.length reports)
  /\ ((List.length (distinct_in_order (map (regionKey users) reports)) <= 5)%nat ->
      Spec.sumZ (fun z => z) (eventsData c) = Z.of_nat (List.length reports)
      /\ Spec.sumZ (fun z => z) (booksData c)
         = totalBooksDistributed (impact_of reports users)
      /\ Spec.sumZ (fun z => z) (prasadamData c)
         = Spec.sumZ prasadamCount reports).
Proof.
  intros _ Hc. pose proof (chart_of_spec reports users) as Hs. cbv zeta in Hs.
  remember (firstn 5 (JsObject.keys (regionData_of reports users))) as ks eqn:Eks.
  rewrite Hs in Hc. injection Hc as <-.
  cbn [regions booksData prasadamData eventsData].
  assert (Hperm : Permutation (JsObject.keys (regionData_of reports users))
                    (distinct_in_order (map (regionKey users) reports))).
  { rewrite <- regionData_keys. apply keys_perm. }
  assert (Hnd : NoDup ks).
  { rewrite Eks. apply firstn_NoDup. eapply Permutation_NoDup; [symmetry; exact Hperm|].
    apply distinct_in_order_NoDup. }
  rewrite !length_map. repeat split.
  - rewrite sumZ_map.
    rewrite (sumZ_ext_in _ (fun k => sum_by (regionKey users) (fun _ => 1) k reports))
      by (intros; apply count_by_as_sum).
    rewrite sum_over_groups by exact Hnd. rewrite <- sumZ_ones.
    apply sumZ_le. intros r _. cbv beta.
    match goal with |- (if ?b then _ else _) <= _ => destruct b end; lia.
  - rewrite sumZ_map.
    rewrite (sumZ_ext_in _ (fun k => sum_by (regionKey users) (fun _ => 1) k reports))
      by (intros; apply count_by_as_sum).
    rewrite sum_over_all_groups; [apply sumZ_ones|exact Hnd|].
    intros r Hr. rewrite Eks, firstn_all2.
    + apply (Permutation_in _ (Permutation_sym Hperm)).
      apply distinct_in_order_In. now apply in_map.
    + now rewrite (Permutation_length Hperm).
  - rewrite sumZ_map. unfold impact_of. simpl. rewrite impact_fold_books. simpl.
    apply sum_over_all_groups; [exact Hnd|].
    intros r Hr. rewrite Eks, firstn_all2.
    + apply (Permutation_in _ (Permutation_sym Hperm)).
      apply distinct_in_order_In. now apply in_map.
    + now rewrite (Permutation_length Hperm).
  - rewrite sumZ_map.
    apply sum_over_all_groups; [exact Hnd|].
    intros r Hr. rewrite Eks, firstn_all2.
    + apply (Permutation_in _ (Permutation_sym Hperm)).
      apply distinct_in_order_In. now apply in_map.
    + now rewrite (Permutation_length Hperm).
Qed.

Lemma chart_series_add_up_witness :
  Spec.sumZ (fun z => z) (eventsData (mkChart ["A"; "B"] [0; 0] [0; 0] [1; 1]))
  = Z.of_nat (List.length [report_by "u1"; report_by "u2"]).
Proof.
  destruct (chart_series_add_up [report_by "u1"; report_by "u2"] six_temples
              (mkChart ["A"; "B"] [0; 0] [0; 0] [1; 1]) eq_refl eq_refl)
    as (_ & _ & _ & _ & H).
  apply H. simpl. lia.
Defined.

(** ** The category distribution adds up *)

Lemma NoDup_map_fst_filter {V : Type} (p : string * V -> bool)
    (l : list (string * V)) :
  NoDup (map fst l) -> NoDup (map fst (filter p l)).
Proof.
  induction l as [|a l IH]; simpl; intros H; [constructor|].
  inversion H as [|? ? Hnotin Hnd]; subst.
  destruct (p a); simpl; [|now apply IH].
  constructor; [|now apply IH].
  intros Hin. apply Hnotin. apply in_map_iff in Hin.
  destruct Hin as (x & Hx & Hf). apply filter_In in Hf.
  rewrite <- Hx. apply in_map. tauto.
Qed.

Lemma sumZ_filter_positive (l : list slice) :
  (forall e, In e l -> 0 <= snd e) ->
  Spec.sumZ snd (filter (fun e => 0 <? snd e) l) = Spec.sumZ snd l.
Proof.
  induction l as [|e l IH]; simpl; intros H; [reflexivity|].
  pose proof (H e (or_introl eq_refl)) as He.
  rewrite <- IH by (intros; apply H; now right).
  destruct (Z.ltb_spec 0 (snd e)); simpl; lia.
Qed.

(** When the category ids and the names counted under are plain names: with
    at least one report, the slices carry distinct names and positive counts
    that add up to the number of reports; without reports there is one slice
    per category of the directory, each with count 0. *)
Theorem pie_slices_add_up reports categories :
  plain_distribution reports categories = true ->
  (reports <> [] ->
   Spec.sumZ snd (pie_of reports categories) = Z.of_nat (List.length reports)
   /\ NoDup (map fst (pie_of reports categories))
   /\ forall e, In e (pie_of reports categories) -> 0 < snd e)
  /\ (reports = [] ->
      List.length (pie_of reports categories) = List.length categories
      /\ forall e, In e (pie_of reports categories) -> snd e = 0).
Proof.
  intros _.
  destruct (categoryData_spec categories reports) as (Hnd & Hval & Hkeys).
  cbv zeta in *. split.
  - intros Hne.
    assert (Hpe : positive_entries (categoryData_of reports categories) <> []).
    { intros H. apply Hne. now apply positive_entries_nil_iff in H. }
    rewrite (pie_of_nonempty _ _ Hpe).
    pose proof (sort_desc_perm
                  (positive_entries (categoryData_of reports categories)))
      as Hperm.
    assert (Hvals : forall e,
               In e (categoryData_of reports categories) ->
               snd e = count_by (reportCategoryName categories) (fst e) reports).
    { intros [k v] He. simpl. rewrite <- Hval. unfold count_of.
      now rewrite (In_get _ _ _ Hnd He). }
    split; [|split].
    + rewrite (sumZ_perm _ _ _ Hperm). unfold positive_entries.
      rewrite sumZ_filter_positive.
      * rewrite (sumZ_perm _ _ _ (entries_perm _)).
        rewrite (sumZ_ext_in snd
                   (fun e => sum_by (reportCategoryName categories)
                               (fun _ => 1) (fst e) reports)).
        -- rewrite <- (sumZ_map
                         (fun k => sum_by (reportCategoryName categories)
                                     (fun _ => 1) k reports) fst).
           rewrite sum_over_all_groups; [apply sumZ_ones|exact Hnd|].
           intros r Hr. apply Hkeys. right. now exists r.
        -- intros e He. rewrite <- count_by_as_sum. now apply Hvals.
      * intros e He. apply (Permutation_in _ (entries_perm _)) in He.
        rewrite (Hvals e He). apply count_by_nonneg.
    + eapply Permutation_NoDup;
        [apply Permutation_map; symmetry; exact Hperm|].
      unfold positive_entries. apply NoDup_map_fst_filter.
      eapply Permutation_NoDup;
        [apply Permutation_map; symmetry; apply entries_perm|exact Hnd].
    + intros [k v] He. apply (Permutation_in _ Hperm) in He.
      apply positive_entries_In in He. simpl. tauto.
  - intros Hnil. rewrite pie_of_empty by now apply positive_entries_nil_iff.
    split.
    + rewrite length_map. unfold JsObject.values. rewrite length_map.
      apply (Permutation_length (entries_perm categories)).
    + intros e He. apply in_map_iff in He. destruct He as (c & <- & _).
      reflexivity.
Qed.

Lemma pie_slices_add_up_witness :
  Spec.sumZ snd
    (pie_of [report_in_category "a"; report_in_category "b";
             report_in_category "a"] two_categories) = 3.
Proof.
  destruct (pie_slices_add_up
              [report_in_category "a"; report_in_category "b";
               report_in_category "a"] two_categories eq_refl) as (H & _).
  apply H. discriminate.
Defined.

(** ** The cache between two fetches *)

Lemma valid_at_fresh c t now :
  DataCache.lastFetch c = Some t -> t <> 0 -> now - t < CACHE_DURATION ->
  valid_at c now = true.
Proof.
  intros Ht Hne Hlt. unfold valid_at. rewrite Ht.
  apply andb_true_intro. split.
  - apply negb_true_iff. now apply Z.eqb_neq.
  - now apply Z.ltb_lt.
Qed.

Lemma valid_at_expired c t now :
  DataCache.lastFetch c = Some t -> CACHE_DURATION <= now - t ->
  valid_at c now = false.
Proof.
  intros Ht Hge. unfold valid_at. rewrite Ht.
  apply andb_false_iff. right. now apply Z.ltb_ge.
Qed.

(** After a reports fetch that reached the store at time [t], a later fetch
    returns the same reports without a query while less than five minutes
    have passed since [t], whatever the store holds by then; from five minutes
    on it queries the store again. *)
Theorem reports_cache_lifetime w :
  st_refuses (store w) reports_query = None ->
  valid_at (dataCache w) (clock w) = false
  \/ DataCache.activityReports (dataCache w) = None ->
  clock w + st_latency (store w) <> 0 ->
  let t := clock w + st_latency (store w) in
  let reports := map report_of_doc (st_activityReports (store w)) in
  exists w1,
    fetchActivityReports w = (Ok reports, w1)
    /\ forall w2,
         dataCache w2 = dataCache w1 ->
         (clock w2 - t < CACHE_DURATION ->
          fetchActivityReports w2 = (Ok reports, w2))
         /\ (CACHE_DURATION <= clock w2 - t ->
             exists reports' w3 rest,
               fetchActivityReports w2 = (Ok reports', w3)
               /\ trace w3 = trace w2 ++ GetDocs reports_query :: rest).
Proof.
  intros Hok Hmiss Hne. cbv zeta.
  rewrite fetchActivityReports_miss by exact Hmiss. rewrite Hok. cbv zeta.
  eexists. split; [reflexivity|].
  intros w2 Hc. simpl in Hc. split.
  - intros Hfresh. apply fetchActivityReports_hit.
    + apply (valid_at_fresh _ (clock w + st_latency (store w)));
        [now rewrite Hc|exact Hne|exact Hfresh].
    + now rewrite Hc.
  - intros Hold.
    rewrite fetchActivityReports_miss.
    + destruct (st_refuses (store w2) reports_query).
      * eexists _, _, _. split; [reflexivity|]. simpl.
        now rewrite <- app_assoc.
      * eexists _, _, []. split; reflexivity.
    + left. apply (valid_at_expired _ (clock w + st_latency (store w)));
        [now rewrite Hc|exact Hold].
Qed.

Lemma reports_cache_lifetime_witness :
  exists w1,
    fetchActivityReports online_world
    = (Ok (map report_of_doc (st_activityReports (store online_world))), w1).
Proof.
  destruct (reports_cache_lifetime online_world) as (w1 & H & _);
    [reflexivity|now left|discriminate|].
  now exists w1.
Defined.

(** A fetch whose query the store fails leaves the cache as it was: nothing
    is overwritten and nothing is stamped. *)
Theorem failed_fetch_keeps_cache w :
  (forall e, st_refuses (store w) reports_query = Some e ->
             dataCache (snd (fetchActivityReports w)) = dataCache w)
  /\ (forall e, st_refuses (store w) categories_query = Some e ->
                dataCache (snd (fetchPreachingCategories w)) = dataCache w)
  /\ (forall e, st_refuses (store w) users_query = Some e ->
                dataCache (snd (fetchUsers w)) = dataCache w).
Proof.
  split; [|split]; intros e He.
  - destruct (valid_at (dataCache w) (clock w)) eqn:Hv.
    + destruct (DataCache.activityReports (dataCache w)) as [c|] eqn:Hc.
      * now rewrite (fetchActivityReports_hit w c Hv Hc).
      * rewrite fetchActivityReports_miss by now right. now rewrite He.
    + rewrite fetchActivityReports_miss by now left. now rewrite He.
  - destruct (valid_at (dataCache w) (clock w)) eqn:Hv.
    + destruct (DataCache.preachingCategories (dataCache w)) as [c|] eqn:Hc.
      * now rewrite (fetchPreachingCategories_hit w c Hv Hc).
      * rewrite fetchPreachingCategories_miss by now right. now rewrite He.
    + rewrite fetchPreachingCategories_miss by now left. now rewrite He.
  - destruct (valid_at (dataCache w) (clock w)) eqn:Hv.
    + destruct (DataCache.users (dataCache w)) as [c|] eqn:Hc.
      * now rewrite (fetchUsers_hit w c Hv Hc).
      * rewrite fetchUsers_miss by now right. now rewrite He.
    + rewrite fetchUsers_miss by now left. now rewrite He.
Qed.

Lemma failed_fetch_keeps_cache_witness :
  dataCache (snd (fetchActivityReports offline_world)) = dataCache offline_world.
Proof.
  destruct (failed_fetch_keeps_cache offline_world) as (H & _).
  now apply (H (StoreError "unavailable")).
Defined.

(** As long as no reports fetch or live push has stamped the cache, the
    users and categories caches are never used: every call of fetchUsers and
    of fetchPreachingCategories queries the store, also right after a call
    that stored its result, and the stamp stays absent. *)
Theorem unstamped_cache_is_never_used w :
  DataCache.lastFetch (dataCache w) = None ->
  (exists users w' rest,
     fetchUsers w = (Ok users, w')
     /\ trace w' = trace w ++ GetDocs users_query :: rest
     /\ DataCache.lastFetch (dataCache w') = None)
  /\ (exists categories w' rest,
        fetchPreachingCategories w = (Ok categories, w')
        /\ trace w' = trace w ++ GetDocs categories_query :: rest
        /\ DataCache.lastFetch (dataCache w') = None).
Proof.
  intros Hn. pose proof (valid_at_empty _ (clock w) Hn) as Hv. split.
  - rewrite fetchUsers_miss by now left.
    destruct (st_refuses (store w) users_query).
    + eexists _, _, _. split; [reflexivity|]. simpl. split; [|exact Hn].
      now rewrite <- app_assoc.
    + eexists _, _, []. split; [reflexivity|]. simpl. split; [reflexivity|exact Hn].
  - rewrite fetchPreachingCategories_miss by now left.
    destruct (st_refuses (store w) categories_query).
    + eexists _, _, _. split; [reflexivity|]. simpl. split; [|exact Hn].
      now rewrite <- app_assoc.
    + eexists _, _, []. split; [reflexivity|]. simpl. split; [reflexivity|exact Hn].
Qed.

Lemma unstamped_cache_is_never_used_witness :
  exists users w' rest,
    fetchUsers (snd (fetchUsers online_world)) = (Ok users, w')
    /\ trace w' = trace (snd (fetchUsers online_world))
                  ++ GetDocs users_query :: rest.
Proof.
  destruct (unstamped_cache_is_never_used (snd (fetchUsers online_world)))
    as ((users & w' & rest & H1 & H2 & _) & _); [reflexivity|].
  now exists users, w', rest.
Defined.

(** A reports fetch that reaches the store makes whatever users and
    categories are in the cache current again: the next fetchUsers and
    fetchPreachingCategories return them without a query, however long ago
    they were fetched and whatever the store holds now. *)
Theorem reports_fetch_revives_cached_directories w users categories :
  DataCache.users (dataCache w) = Some users ->
  DataCache.preachingCategories (dataCache w) = Some categories ->
  st_refuses (store w) reports_query = None ->
  valid_at (dataCache w) (clock w) = false
  \/ DataCache.activityReports (dataCache w) = None ->
  clock w + st_latency (store w) <> 0 ->
  let w1 := snd (fetchActivityReports w) in
  fetchUsers w1 = (Ok users, w1)
  /\ fetchPreachingCategories w1 = (Ok categories, w1).
Proof.
  intros Hu Hc Hok Hmiss Hne. cbv zeta.
  rewrite fetchActivityReports_miss by exact Hmiss. rewrite Hok. cbv zeta.
  cbn [snd].
  assert (Hv : valid_at
                 (set_lastFetch (clock w + st_latency (store w))
                    (set_activityReports
                       (map report_of_doc (st_activityReports (store w)))
                       (dataCache w)))
                 (clock w + st_latency (store w)) = true).
  { apply (valid_at_fresh _ (clock w + st_latency (store w)));
      [reflexivity|exact Hne|]. unfold CACHE_DURATION. lia. }
  split.
  - apply fetchUsers_hit; [exact Hv|exact Hu].
  - apply fetchPreachingCategories_hit; [exact Hv|exact Hc].
Qed.

Lemma reports_fetch_revives_cached_directories_witness :
  fetchUsers (snd (fetchActivityReports stale_world))
  = (Ok six_temples, snd (fetchActivityReports stale_world)).
Proof.
  apply (reports_fetch_revives_cached_directories stale_world six_temples
           two_categories); [reflexivity|reflexivity|reflexivity|now left|].
  discriminate.
Defined.

(** ** Roles and admin access *)

Section RolesFacts.

Variable toLowerCase : string -> string.
Variable userRole permission level : user -> option string.
Variable toISOString : Z -> string.
Variable updateDoc : string -> string -> string -> string -> M unit.

Local Abbreviation role_of' := (role_of userRole permission level).
Local Abbreviation getUserRole' :=
  (getUserRole toLowerCase userRole permission level).
Local Abbreviation checkAdminAccess' :=
  (checkAdminAccess toLowerCase userRole permission level).
Local Abbreviation updateUserRole' := (updateUserRole toISOString updateDoc).

Lemma getUserRole_run userId userEmail w :
  exists users w',
    fetchUsers w = (Ok users, w')
    /\ getUserRole' userId userEmail w
       = (Ok match JsObject.get users (Js.prop_key userId) with
             | Some u => toLowerCase (role_of' u)
             | None =>
                 if Js.truthy_str userEmail
                 then match find_by_email toLowerCase users
                              (Js.prop_key userEmail) with
                      | Some u => toLowerCase (role_of' u)
                      | None => "user"
                      end
                 else "user"
             end, w').
Proof.
  destruct (fetchUsers_returns w) as (users & w' & Hu).
  exists users, w'. split; [exact Hu|].
  unfold getUserRole, try_catch, bind. rewrite Hu.
  destruct (JsObject.get users (Js.prop_key userId)); [reflexivity|].
  destruct (Js.truthy_str userEmail); [|reflexivity].
  now destruct (find_by_email _ _ _).
Qed.

(** getUserRole never throws.  A user id found in the directory decides the
    role, whatever email is passed along; an id that is a plain name and is
    not found falls back to the first user, in the directory's enumeration
    order, whose email equals the given one up to case; such an id and an
    email that match nobody give the role "user". *)
Theorem getUserRole_lookup_order userId userEmail w :
  exists users w' r,
    fetchUsers w = (Ok users, w')
    /\ getUserRole' userId userEmail w = (Ok r, w')
    /\ (forall u, JsObject.get users (Js.prop_key userId) = Some u ->
                  r = toLowerCase (role_of' u))
    /\ (JsObject.plain (Js.prop_key userId) = true ->
        JsObject.get users (Js.prop_key userId) = None ->
        Js.truthy_str userEmail = false -> r = "user")
    /\ (forall e,
          JsObject.plain (Js.prop_key userId) = true ->
          JsObject.get users (Js.prop_key userId) = None ->
          userEmail = Some e -> e <> "" ->
          (forall u, In u (JsObject.values users) ->
                     forall a, email u = Some a -> a <> "" ->
                               toLowerCase a <> toLowerCase e) ->
          r = "user")
    /\ (forall e before u after a,
          JsObject.plain (Js.prop_key userId) = true ->
          JsObject.get users (Js.prop_key userId) = None ->
          userEmail = Some e -> e <> "" ->
          JsObject.values users = before ++ u :: after ->
          email u = Some a -> a <> "" -> toLowerCase a = toLowerCase e ->
          (forall u', In u' before ->
                      forall a', email u' = Some a' -> a' <> "" ->
                                 toLowerCase a' <> toLowerCase e) ->
          r = toLowerCase (role_of' u)).
Proof.
  destruct (getUserRole_run userId userEmail w) as (users & w' & Hu & Hr).
  eexists users, w', _. split; [exact Hu|]. split; [exact Hr|].
  assert (Hmiss : forall e l,
             (forall u, In u l ->
                        forall a, email u = Some a -> a <> "" ->
                                  toLowerCase a <> toLowerCase e) ->
             find (fun u => Js.truthy_str (email u)
                            && (toLowerCase (Js.prop_key (email u))
                                =? toLowerCase e)%string) l = None).
  { intros e l. induction l as [|u l IH]; intros H; simpl; [reflexivity|].
    rewrite IH by (intros; eapply H; eauto; now right).
    destruct (email u) as [a|] eqn:Ea; simpl; [|reflexivity].
    destruct (String.eqb_spec a ""); simpl; [reflexivity|].
    destruct (String.eqb_spec (toLowerCase a) (toLowerCase e)) as [Heq|];
      [|reflexivity].
    exfalso. now apply (H u (or_introl eq_refl) a). }
  repeat match goal with |- _ /\ _ => split end.
  - intros u Hg. now rewrite Hg.
  - intros _ Hg He. now rewrite Hg, He.
  - intros e _ Hg -> Hne Hnone. rewrite Hg. simpl.
    destruct (String.eqb_spec e ""); [contradiction|]. simpl.
    unfold find_by_email. now rewrite Hmiss.
  - intros e before u after a _ Hg -> Hne Hv Ha Hane Heq Hbefore. rewrite Hg.
    simpl. destruct (String.eqb_spec e ""); [contradiction|]. simpl.
    unfold find_by_email. rewrite Hv.
    assert (Hfind : forall l l',
               find (fun u => Js.truthy_str (email u)
                              && (toLowerCase (Js.prop_key (email u))
                                  =? toLowerCase e)%string) l = None ->
               find (fun u => Js.truthy_str (email u)
                              && (toLowerCase (Js.prop_key (email u))
                                  =? toLowerCase e)%string) (l ++ l')
               = find (fun u => Js.truthy_str (email u)
                                && (toLowerCase (Js.prop_key (email u))
                                    =? toLowerCase e)%string) l').
    { intros l l'. induction l as [|x l IH]; simpl; [reflexivity|].
      destruct (_ && _); [discriminate|exact IH]. }
    rewrite Hfind by now apply Hmiss. simpl. rewrite Ha. simpl.
    destruct (String.eqb_spec a ""); [contradiction|]. simpl.
    rewrite Heq, String.eqb_refl. reflexivity.
Qed.

Lemma checkAdminAccess_run userId w :
  exists users w',
    fetchUsers w = (Ok users, w')
    /\ checkAdminAccess' userId w
       = (Ok match JsObject.get users (Js.prop_key userId) with
             | Some u => is_admin_role (toLowerCase (role_of' u))
             | None => false
             end, w').
Proof.
  destruct (getUserRole_run userId None w) as (users & w' & Hu & Hr).
  exists users, w'. split; [exact Hu|].
  unfold checkAdminAccess, try_catch, bind. rewrite Hr.
  now destruct (JsObject.get users (Js.prop_key userId)).
Qed.

(** checkAdminAccess never throws and fails closed: it answers true only
    for an id that the user directory holds with a role that is "admin" or
    "super_admin" up to case; when the store fails the users query the answer
    is false; and while the cache is valid the answer is taken from the
    cached directory without asking the store. *)
Theorem checkAdminAccess_fails_closed userId w :
  (exists users w',
     fetchUsers w = (Ok users, w')
     /\ checkAdminAccess' userId w
        = (Ok match JsObject.get users (Js.prop_key userId) with
              | Some u => is_admin_role (toLowerCase (role_of' u))
              | None => false
              end, w'))
  /\ (forall e,
        st_refuses (store w) users_query = Some e ->
        valid_at (dataCache w) (clock w) = false
        \/ DataCache.users (dataCache w) = None ->
        checkAdminAccess' userId w
        = (Ok false, logged (after_query w users_query) "Error fetching users:"))
  /\ (forall cached,
        valid_at (dataCache w) (clock w) = true ->
        DataCache.users (dataCache w) = Some cached ->
        checkAdminAccess' userId w
        = (Ok match JsObject.get cached (Js.prop_key userId) with
              | Some u => is_admin_role (toLowerCase (role_of' u))
              | None => false
              end, w)).
Proof.
  split; [apply checkAdminAccess_run|]. split.
  - intros e He Hmiss.
    destruct (checkAdminAccess_run userId w) as (users & w' & Hu & Hr).
    rewrite fetchUsers_miss in Hu by exact Hmiss. rewrite He in Hu.
    injection Hu as <- <-. exact Hr.
  - intros cached Hv Hc.
    destruct (checkAdminAccess_run userId w) as (users & w' & Hu & Hr).
    rewrite (fetchUsers_hit w cached Hv Hc) in Hu.
    injection Hu as <- <-. exact Hr.
Qed.

(** updateUserRole either returns true with the whole cache emptied, so that
    the next admin check asks the store for the users again, or rethrows the
    error of the store's update unchanged, after one console message and
    without emptying the cache. *)
Theorem updateUserRole_empties_cache userId newRole w :
  (forall b w',
     updateUserRole' userId newRole w = (Ok b, w') ->
     b = true
     /\ dataCache w' = empty_cache
     /\ forall uid, exists answer w'' rest,
          checkAdminAccess' uid w' = (Ok answer, w'')
          /\ trace w'' = trace w' ++ GetDocs users_query :: rest)
  /\ (forall e w1,
        updateDoc "users" userId newRole (toISOString (clock w)) w
        = (Throw e, w1) ->
        updateUserRole' userId newRole w
        = (Throw e, logged w1 "Error updating user role:")).
Proof.
  split.
  - intros b w' H.
    unfold updateUserRole, try_catch, bind, Date_now, clearCache, write_cache,
      ret, console_error, emit, throw in H. simpl in H.
    destruct (updateDoc "users" userId newRole (toISOString (clock w)) w)
      as [[u|e] w1]; [|discriminate].
    injection H as <- <-. split; [reflexivity|]. split; [reflexivity|].
    intros uid.
    set (w' := mkWorld (DataCache.mk None None None None) (store w1) (clock w1)
                 (trace w1)).
    destruct (checkAdminAccess_run uid w') as (users & w'' & Hu & Hr).
    rewrite fetchUsers_miss in Hu by (now left).
    destruct (st_refuses (store w') users_query);
      injection Hu as <- <-; eexists _, _, _; (split; [exact Hr|]); simpl.
    + now rewrite <- app_assoc.
    + instantiate (1 := []). reflexivity.
  - intros e w1 H.
    unfold updateUserRole, try_catch, bind, Date_now, console_error, emit,
      throw. simpl. rewrite H. reflexivity.
Qed.

End RolesFacts.

Lemma getUserRole_lookup_order_witness :
  (exists r w',
     getUserRole (fun s => s) (fun _ => None) (fun _ => None) (fun _ => None)
       (Some "u1") None online_world = (Ok r, w')
     /\ r = "member")
  /\ (exists r w',
        getUserRole (fun s => s) (fun _ => None) (fun _ => None)
          (fun _ => None) (Some "u9") None online_world = (Ok r, w')
        /\ r = "user").
Proof.
  split.
  - destruct (getUserRole_lookup_order (fun s => s) (fun _ => None)
                (fun _ => None) (fun _ => None) (Some "u1") None online_world)
      as (users & w' & r & Hu & Hr & Hid & _).
    exists r, w'. split; [exact Hr|].
    rewrite fetchUsers_miss in Hu by (now left). simpl in Hu.
    injection Hu as <- <-.
    apply (Hid (user_of_temple "Ipoh")). reflexivity.
  - destruct (getUserRole_lookup_order (fun s => s) (fun _ => None)
                (fun _ => None) (fun _ => None) (Some "u9") None online_world)
      as (users & w' & r & Hu & Hr & _ & Hnone & _).
    exists r, w'. split; [exact Hr|].
    rewrite fetchUsers_miss in Hu by (now left). simpl in Hu.
    injection Hu as <- <-.
    apply Hnone; reflexivity.
Defined.

Lemma checkAdminAccess_fails_closed_witness :
  checkAdminAccess (fun s => s) (fun _ => None) (fun _ => None) (fun _ => None)
    (Some "u1") offline_world
  = (Ok false, logged (after_query offline_world users_query)
                 "Error fetching users:").
Proof.
  destruct (checkAdminAccess_fails_closed (fun s => s) (fun _ => None)
              (fun _ => None) (fun _ => None) (Some "u1") offline_world)
    as (_ & H & _).
  apply (H (StoreError "unavailable")); [reflexivity|now left].
Defined.

Lemma updateUserRole_empties_cache_witness :
  dataCache
    (snd (updateUserRole (fun _ => "") (fun _ _ _ _ => ret tt) "u1" "admin"
            stale_world))
  = empty_cache.
Proof.
  destruct (updateUserRole_empties_cache (fun s => s) (fun _ => None)
              (fun _ => None) (fun _ => None) (fun _ => "")
              (fun _ _ _ _ => ret tt) "u1" "admin" stale_world) as (H & _).
  destruct (H true
              (snd (updateUserRole (fun _ => "") (fun _ _ _ _ => ret tt) "u1"
                      "admin" stale_world)) eq_refl) as (_ & Hc & _).
  exact Hc.
Defined.

(** ** Resources and gallery images *)

Section ResourcesFacts.

Variable formatFileSize : Z -> string.
Variable toISOString : Z -> string.
Variable sortResources : list resource -> list resource.
Variable gallery_answer : store_t -> query -> list (string * image_doc).
Variable sortImages : list image -> list image.

Local Abbreviation fetchResources' :=
  (fetchResources formatFileSize toISOString sortResources).
Local Abbreviation resources_of' :=
  (resources_of formatFileSize toISOString sortResources).
Local Abbreviation resources_onError' :=
  (resources_onError formatFileSize toISOString sortResources).
Local Abbreviation listenToResources' :=
  (listenToResources formatFileSize toISOString sortResources).
Local Abbreviation fetchGalleryImages' :=
  (fetchGalleryImages gallery_answer toISOString sortImages).

(** fetchResources never throws and never touches the cache: every call
    sends exactly one query, which always filters on [isActive == true] and
    filters on the category exactly when a non-empty category is given; a
    failing store gives the empty sequence after one console message. *)
Theorem fetchResources_one_query category w :
  let q := resources_query category in
  q_collection q = "preachingResources"
  /\ In ("isActive", Js.JBool true) (q_where q)
  /\ (forall v, In ("category", v) (q_where q)
                <-> exists c, category = Some c /\ c <> "" /\ v = Js.JString c)
  /\ fetchResources' category w
     = match st_refuses (store w) q with
       | Some _ =>
           (Ok [], logged (after_query w q) "Error fetching resources:")
       | None =>
           (Ok (resources_of' (clock w + st_latency (store w))
                  (st_preachingResources (store w) q)),
            after_query w q)
       end
  /\ dataCache (snd (fetchResources' category w)) = dataCache w.
Proof.
  cbv zeta.
  assert (Hrun : fetchResources' category w
                 = match st_refuses (store w) (resources_query category) with
                   | Some _ =>
                       (Ok [], logged (after_query w (resources_query category))
                                 "Error fetching resources:")
                   | None =>
                       (Ok (resources_of' (clock w + st_latency (store w))
                              (st_preachingResources (store w)
                                 (resources_query category))),
                        after_query w (resources_query category))
                   end).
  { unfold fetchResources, try_catch, bind, getDocs, Date_now, console_error,
      emit, ret. simpl.
    destruct (st_refuses (store w) (resources_query category)); reflexivity. }
  repeat match goal with |- _ /\ _ => split end.
  - unfold resources_query. now destruct (Js.truthy_str category).
  - unfold resources_query. destruct (Js.truthy_str category); simpl; tauto.
  - intros v. unfold resources_query.
    destruct (Js.truthy_str category) eqn:E; simpl.
    + apply truthy_str_Some in E. destruct E as (c & -> & Hne). simpl. split.
      * intros [[= <-]|[[=]|[]]]. now exists c.
      * intros (c' & [= <-] & _ & ->). now left.
    + split.
      * intros [[=]|[]].
      * intros (c & -> & Hne & _). simpl in E.
        destruct (String.eqb_spec c ""); [contradiction|discriminate].
  - exact Hrun.
  - rewrite Hrun. now destruct (st_refuses _ _).
Qed.

(** The error observer of the resources listener with a callback that
    throws: the callback is called with the fetched resources, then a second
    time with the empty sequence, and its second error escapes the listener
    unhandled. *)
Theorem resources_listener_throwing_callback category (e e0 : error) w :
  exists fetched w',
    resources_onError' category (fun _ => throw e0) e w = (Throw e0, w')
    /\ exists between,
         trace w'
         = trace w
           ++ ConsoleError "Real-time listener error for resources:"
              :: GetDocs (resources_query category)
              :: between
           ++ [ResourcesCallback fetched;
               ConsoleError "Manual fallback fetch failed:";
               ResourcesCallback []]
         /\ (between = [] \/ between = [ConsoleError "Error fetching resources:"]).
Proof.
  rewrite resources_onError_run. cbv zeta. unfold throw.
  destruct (st_refuses (store w) (resources_query category)); simpl.
  - eexists [], _. split; [reflexivity|].
    exists [ConsoleError "Error fetching resources:"]. split; [|now right].
    simpl. now rewrite <- !app_assoc.
  - eexists _, _. split; [reflexivity|]. exists []. split; [|now left].
    simpl. now rewrite <- !app_assoc.
Qed.

(** fetchGalleryImages never throws and never touches the cache.  It asks
    the store for the images ordered by creation time; only when that query
    fails does it ask once more without the ordering; only when both fail
    does it give up, with the empty sequence.  More than one image is put
    through the sort by date in both cases. *)
Theorem fetchGalleryImages_retries_once category w :
  let q1 := gallery_ordered_query category in
  let q2 := gallery_plain_query category in
  let arrange (images : list image) :=
    if (1 <? List.length images)%nat then sortImages images else images in
  let t1 := clock w + st_latency (store w) in
  let t2 := t1 + st_latency (store w) in
  q_orderBy q1 = Some ("createdAt", "desc")
  /\ q_orderBy q2 = None
  /\ q_where q1 = q_where q2
  /\ (exists images w',
        fetchGalleryImages' category w = (Ok images, w')
        /\ dataCache w' = dataCache w
        /\ match st_refuses (store w) q1, st_refuses (store w) q2 with
           | None, _ =>
               images
               = arrange (map (image_of_doc toISOString t1)
                            (gallery_answer (store w) q1))
               /\ trace w' = trace w ++ [GetDocs q1]
           | Some _, None =>
               images
               = arrange (map (image_of_doc toISOString t2)
                            (gallery_answer (store w) q2))
               /\ trace w' = trace w ++ [GetDocs q1; GetDocs q2]
           | Some _, Some _ =>
               images = []
               /\ trace w'
                  = trace w
                    ++ [GetDocs q1; GetDocs q2;
                        ConsoleError "❌ Even fallback query failed:";
                        ConsoleError "=== FETCH GALLERY IMAGES FAILED ===";
                        ConsoleError "Error fetching gallery images:"]
           end).
Proof.
  cbv zeta. split; [|split; [|split]].
  - unfold gallery_ordered_query. now destruct (Js.truthy_str category).
  - unfold gallery_plain_query. now destruct (Js.truthy_str category).
  - unfold gallery_ordered_query, gallery_plain_query.
    now destruct (Js.truthy_str category).
  - unfold fetchGalleryImages, try_catch, bind, getDocs, Date_now,
      console_error, emit, throw, ret. simpl.
    destruct (st_refuses (store w) (gallery_ordered_query category)); simpl.
    + destruct (st_refuses (store w) (gallery_plain_query category)); simpl.
      * eexists _, _. split; [reflexivity|]. simpl.
        split; [reflexivity|]. split; [reflexivity|].
        now rewrite <- !app_assoc.
      * eexists _, _. split; [reflexivity|]. simpl.
        split; [reflexivity|]. split; [reflexivity|].
        now rewrite <- !app_assoc.
    + eexists _, _. split; [reflexivity|]. simpl.
      split; [reflexivity|]. split; reflexivity.
Qed.

End ResourcesFacts.

(** ** File names *)

Lemma split_last_dot_spec s :
  match Upload.split_last_dot s with
  | (Some p, l) => s = (p ++ String "." l)%string
  | (None, l) => s = l
  end
  /\ forall c, In c (list_ascii_of_string (snd (Upload.split_last_dot s))) ->
               c <> "."%char.
Proof.
  induction s as [|c s [IH1 IH2]]; simpl.
  - split; [reflexivity|]. intros c [].
  - destruct (Upload.split_last_dot s) as [[p|] l]; simpl in *.
    + split; [now rewrite IH1|exact IH2].
    + destruct (Ascii.eqb_spec c ".") as [->|Hne]; simpl.
      * split; [now rewrite IH1|exact IH2].
      * split; [now rewrite IH1|].
        intros c' [<-|Hc']; [exact Hne|now apply IH2].
Qed.

(** The extension and the base name that the uploads take from a file name.
    The extension is the text after the last dot and has no dot itself; for a
    name without a dot it is the whole name, and then nothing is removed from
    the base name, as also when the last dot ends the name or is followed by
    a slash.  Otherwise base name, dot and extension make up the name. *)
Theorem extension_and_base_name (n : string) :
  (forall c, In c (list_ascii_of_string (Upload.last_segment n)) -> c <> "."%char)
  /\ ((forall c, In c (list_ascii_of_string n) -> c <> "."%char) ->
      Upload.last_segment n = n /\ Upload.strip_extension n = n)
  /\ (Upload.last_segment n = "" -> Upload.strip_extension n = n)
  /\ (Upload.has_slash (Upload.last_segment n) = true ->
      Upload.strip_extension n = n)
  /\ (Upload.strip_extension n <> n ->
      n = (Upload.strip_extension n ++ String "." (Upload.last_segment n))%string)
  /\ (forall p l,
        l <> "" -> Upload.has_slash l = false ->
        (forall c, In c (list_ascii_of_string l) -> c <> "."%char) ->
        Upload.last_segment (p ++ String "." l) = l
        /\ Upload.strip_extension (p ++ String "." l) = p).
Proof.
  destruct (split_last_dot_spec n) as [Hsplit Hnodot].
  unfold Upload.last_segment, Upload.strip_extension.
  repeat match goal with |- _ /\ _ => split end.
  - exact Hnodot.
  - intros Hn. destruct (Upload.split_last_dot n) as [[p|] l]; simpl in *.
    + exfalso. apply (Hn "."%char); [|reflexivity]. rewrite Hsplit.
      clear. induction p as [|c p IH]; simpl; [now left|now right].
    + now subst.
  - destruct (Upload.split_last_dot n) as [[p|] l]; simpl; [|reflexivity].
    now intros ->.
  - destruct (Upload.split_last_dot n) as [[p|] l]; simpl; [|reflexivity].
    intros ->. now rewrite andb_false_r.
  - destruct (Upload.split_last_dot n) as [[p|] l]; simpl in *.
    + destruct (negb (l =? "")%string && negb (Upload.has_slash l)).
      * intros _. exact Hsplit.
      * intros H. now contradiction H.
    + intros H. now contradiction H.
  - intros p l Hl Hs Hd.
    assert (Hpl : Upload.split_last_dot (p ++ String "." l) = (Some p, l)).
    { assert (Hl' : Upload.split_last_dot l = (None, l)).
      { clear Hl Hs. induction l as [|c l IH]; simpl; [reflexivity|].
        rewrite IH by (intros c' Hc'; apply Hd; now right).
        destruct (Ascii.eqb_spec c ".") as [->|_]; [|reflexivity].
        exfalso. now apply (Hd "."%char); [left|]. }
      clear - Hl'. induction p as [|c p IH]; simpl.
      - now rewrite Hl'.
      - now rewrite IH. }
    rewrite Hpl. simpl. split; [reflexivity|]. rewrite Hs.
    destruct (String.eqb_spec l ""); [contradiction|reflexivity].
Qed.

Lemma extension_and_base_name_witness :
  Upload.last_segment "Gita.Notes.PDF" = "PDF"
  /\ Upload.strip_extension "Gita.Notes.PDF" = "Gita.Notes"
  /\ Upload.last_segment "README" = "README"
  /\ Upload.strip_extension "README" = "README".
Proof.
  destruct (extension_and_base_name "Gita.Notes.PDF") as (_ & _ & _ & _ & _ & H).
  destruct (extension_and_base_name "README") as (_ & H' & _).
  destruct (H "Gita.Notes" "PDF") as [H1 H2];
    [discriminate|reflexivity| |].
  - intros c Hc. simpl in Hc.
    repeat (destruct Hc as [<-|Hc]; [discriminate|]). contradiction.
  - destruct H' as [H3 H4].
    + intros c Hc. simpl in Hc.
      repeat (destruct Hc as [<-|Hc]; [discriminate|]). contradiction.
    + repeat split; assumption.
Defined.

(** ** Uploads *)

Section UploadFacts.

Variable toLowerCase toUpperCase : string -> string.
Variable toISOString : Z -> string.
Variable decimal : Z -> string.
Variable sanitizeResourceName sanitizeImageName : string -> string.
Variable null_property_error : Upload.failure.

Local Abbreviation uploadResource' :=
  (Upload.uploadResource toLowerCase toUpperCase toISOString decimal
     sanitizeResourceName null_property_error).
Local Abbreviation uploadGalleryImage' :=
  (Upload.uploadGalleryImage toLowerCase toISOString decimal sanitizeImageName
     null_property_error).
Local Abbreviation resource_filename' :=
  (Upload.resource_filename toLowerCase decimal sanitizeResourceName).
Local Abbreviation image_filename' :=
  (Upload.image_filename toLowerCase decimal sanitizeImageName).

Ltac run_upload :=
  unfold Upload.uploadResource, Upload.uploadGalleryImage, Upload.try_catch,
    Upload.bind, Upload.read_file, Upload.throw_if, Upload.throw, Upload.ret,
    Upload.Date_now, Upload.await, Upload.is_absent; simpl.

(** An upload that fails a check throws before it calls any service, with
    the message of the first failing check after "Upload failed: "; the
    checks are, in this order: category, title, user id, and a size of at most
    50 MB (52428800 bytes, which is still accepted).  Without a file the
    upload fails on reading the file's name, so the message is that of the
    [TypeError], not "No file provided". *)
Theorem uploadResource_checks_first sv st f category title description userId :
  (forall msg,
     Upload.resource_rejection f category title userId = Some msg ->
     uploadResource' (Some f) category title description userId sv st
     = (Upload.Thrown (Upload.Failure ("Upload failed: " ++ msg)), st))
  /\ uploadResource' None category title description userId sv st
     = (Upload.Thrown
          (Upload.Failure
             ("Upload failed: " ++ Upload.message null_property_error)), st)
  /\ (Upload.resource_rejection f category title userId = None
      <-> Js.truthy_str category = true /\ Js.truthy_str title = true
          /\ Js.truthy_str userId = true /\ Upload.file_size f <= 52428800).
Proof.
  split; [|split].
  - intros msg. unfold Upload.resource_rejection. run_upload.
    destruct (Js.truthy_str category); simpl; [|now intros [= <-]].
    destruct (Js.truthy_str title); simpl; [|now intros [= <-]].
    destruct (Js.truthy_str userId); simpl; [|now intros [= <-]].
    destruct (52428800 <? Upload.file_size f); simpl; [|discriminate].
    now intros [= <-].
  - reflexivity.
  - unfold Upload.resource_rejection.
    destruct (Js.truthy_str category), (Js.truthy_str title),
      (Js.truthy_str userId), (Z.ltb_spec 52428800 (Upload.file_size f));
      simpl; split; try discriminate; try tauto; try lia.
    all: intros (? & ? & ? & ?); try discriminate; lia.
Qed.

(** The calls of an accepted resource upload. *)
Lemma uploadResource_run sv st f category title description userId :
  Upload.resource_rejection f category title userId = None ->
  let filename := resource_filename' f category (Upload.time st) in
  let path := ("resources/" ++ filename)%string in
  let c1 := Upload.UploadBytes path f in
  let st1 := Upload.mkState (Upload.calls st ++ [c1])
               (Upload.time st + Upload.sv_latency sv c1) in
  let c2 := Upload.GetDownloadURL path in
  let st2 := Upload.mkState (Upload.calls st1 ++ [c2])
               (Upload.time st1 + Upload.sv_latency sv c2) in
  let data :=
    {| Upload.m_title := Js.prop_key title;
       Upload.m_description := Some (Js.str_or description "");
       Upload.m_category := Js.prop_key category;
       Upload.m_url := Upload.sv_url sv path;
       Upload.m_filename := filename;
       Upload.m_originalName := Upload.file_name f;
       Upload.m_size := Upload.file_size f;
       Upload.m_type := Upload.file_type f;
       Upload.m_fileExtension :=
         Some (toUpperCase
                 (toLowerCase (Upload.last_segment (Upload.file_name f))));
       Upload.m_uploadedBy := Js.prop_key userId;
       Upload.m_uploadedAt := toISOString (Upload.time st2);
       Upload.m_downloads := Some 0;
       Upload.m_isActive := Some true;
       Upload.m_date := None |} in
  let c3 := Upload.AddDoc "preachingResources" data in
  let st3 := Upload.mkState (Upload.calls st2 ++ [c3])
               (Upload.time st2 + Upload.sv_latency sv c3) in
  uploadResource' (Some f) category title description userId sv st
  = match Upload.sv_fails sv c1 with
    | Some e =>
        (Upload.Thrown
           (Upload.Failure ("Upload failed: " ++ Upload.message e)), st1)
    | None =>
        match Upload.sv_fails sv c2 with
        | Some e =>
            (Upload.Thrown
               (Upload.Failure ("Upload failed: " ++ Upload.message e)), st2)
        | None =>
            match Upload.sv_fails sv c3 with
            | Some e =>
                (Upload.Thrown
                   (Upload.Failure ("Upload failed: " ++ Upload.message e)),
                 st3)
            | None =>
                (Upload.Returned
                   (Upload.mkUploaded (Upload.sv_new_id sv data) data
                      (Upload.time st3)), st3)
            end
        end
    end.
Proof.
  intros Hok. cbv zeta. unfold Upload.resource_rejection in Hok. run_upload.
  destruct (Js.truthy_str category); simpl in *; [|discriminate].
  destruct (Js.truthy_str title); simpl in *; [|discriminate].
  destruct (Js.truthy_str userId); simpl in *; [|discriminate].
  destruct (52428800 <? Upload.file_size f); simpl in *; [discriminate|].
  unfold Upload.resource_filename.
  destruct (Upload.sv_fails sv (Upload.UploadBytes _ f)); simpl; [reflexivity|].
  destruct (Upload.sv_fails sv (Upload.GetDownloadURL _)); simpl; [reflexivity|].
  destruct (Upload.sv_fails sv (Upload.AddDoc _ _)); reflexivity.
Qed.

(** An accepted resource upload calls the services in the order upload,
    download URL, metadata, and stops at the first that fails, rethrowing its
    message after "Upload failed: ".  It never deletes anything: when the
    metadata cannot be saved, the uploaded file stays in the storage.  When
    it returns, the file was stored at "resources/" followed by the returned
    filename, which is where deleteResource deletes, and the returned id and
    URL are those the services gave. *)
Theorem uploadResource_calls sv st f category title description userId :
  Upload.resource_rejection f category title userId = None ->
  let path :=
    ("resources/" ++ resource_filename' f category (Upload.time st))%string in
  exists outcome st' made,
    uploadResource' (Some f) category title description userId sv st
    = (outcome, st')
    /\ Upload.calls st' = Upload.calls st ++ made
    /\ (forall c, In c made -> Upload.is_deletion c = false)
    /\ match outcome with
       | Upload.Returned u =>
           made = [Upload.UploadBytes path f; Upload.GetDownloadURL path;
                   Upload.AddDoc "preachingResources" (Upload.up_data u)]
           /\ ("resources/" ++ Upload.m_filename (Upload.up_data u))%string = path
           /\ Upload.m_url (Upload.up_data u) = Upload.sv_url sv path
           /\ Upload.up_id u = Upload.sv_new_id sv (Upload.up_data u)
           /\ forall c, In c made -> Upload.sv_fails sv c = None
       | Upload.Thrown e =>
           exists c e0,
             Upload.sv_fails sv c = Some e0
             /\ e = Upload.Failure ("Upload failed: " ++ Upload.message e0)
             /\ (made = [c] /\ c = Upload.UploadBytes path f
                 \/ made = [Upload.UploadBytes path f; c]
                    /\ c = Upload.GetDownloadURL path
                 \/ exists data,
                      made = [Upload.UploadBytes path f;
                              Upload.GetDownloadURL path; c]
                      /\ c = Upload.AddDoc "preachingResources" data)
       end.
Proof.
  intros Hok. cbv zeta.
  rewrite (uploadResource_run sv st f category title description userId Hok).
  cbv zeta.
  set (path := ("resources/"
                ++ resource_filename' f category (Upload.time st))%string).
  destruct (Upload.sv_fails sv (Upload.UploadBytes path f)) as [e1|] eqn:E1.
  { eexists _, _, [_]. split; [reflexivity|]. split; [reflexivity|]. split.
    - intros c [<-|[]]. reflexivity.
    - eexists _, e1. split; [exact E1|]. split; [reflexivity|]. left.
      split; reflexivity. }
  destruct (Upload.sv_fails sv (Upload.GetDownloadURL path)) as [e2|] eqn:E2.
  { eexists _, _, [_; _]. split; [reflexivity|]. split.
    - simpl. now rewrite <- app_assoc.
    - split.
      + intros c [<-|[<-|[]]]; reflexivity.
      + eexists _, e2. split; [exact E2|]. split; [reflexivity|].
        right. left. split; reflexivity. }
  match goal with
  | |- context [Upload.sv_fails sv (Upload.AddDoc ?coll ?d)] =>
      set (data := d);
      destruct (Upload.sv_fails sv (Upload.AddDoc coll data)) as [e3|] eqn:E3
  end.
  { eexists _, _, [_; _; _]. split; [reflexivity|]. split.
    - simpl. now rewrite <- !app_assoc.
    - split.
      + intros c [<-|[<-|[<-|[]]]]; reflexivity.
      + eexists _, e3. split; [exact E3|]. split; [reflexivity|].
        right. right. exists data. split; reflexivity. }
  eexists _, _, [_; _; _]. split; [reflexivity|]. split.
  - simpl. now rewrite <- !app_assoc.
  - split.
    + intros c [<-|[<-|[<-|[]]]]; reflexivity.
    + simpl. repeat split.
      intros c [<-|[<-|[<-|[]]]]; assumption.
Qed.

End UploadFacts.

Section GalleryUploadFacts.

Variable toLowerCase : string -> string.
Variable toISOString : Z -> string.
Variable decimal : Z -> string.
Variable sanitizeImageName : string -> string.
Variable null_property_error : Upload.failure.

Local Abbreviation uploadGalleryImage' :=
  (Upload.uploadGalleryImage toLowerCase toISOString decimal sanitizeImageName
     null_property_error).
Local Abbreviation image_filename' :=
  (Upload.image_filename toLowerCase decimal sanitizeImageName).

(** An image upload that fails a check throws before it calls any service;
    the checks are, in this order: category, user id, a size of at most 5 MB
    (5242880 bytes), and a MIME type that starts with "image/"; a title is
    not required.  An accepted upload calls upload, download URL and metadata
    in this order and stops at the first failure, whose message is wrapped
    twice: by the step and by "Upload failed: ".  On success the title is the
    given one or, without one, the sanitized base name of the file, and the
    date is the day of the upload time. *)
Theorem uploadGalleryImage_outcomes sv st f category title userId :
  (forall msg,
     Upload.image_rejection f category userId = Some msg ->
     uploadGalleryImage' (Some f) category title userId sv st
     = (Upload.Thrown (Upload.Failure ("Upload failed: " ++ msg)), st))
  /\ (Upload.image_rejection f category userId = None
      <-> Js.truthy_str category = true /\ Js.truthy_str userId = true
          /\ Upload.file_size f <= 5242880
          /\ Upload.startsWith (Upload.file_type f) "image/" = true)
  /\ (Upload.image_rejection f category userId = None ->
      let path :=
        ("gallery/" ++ image_filename' f category (Upload.time st))%string in
      let c1 := Upload.UploadBytes path f in
      let c2 := Upload.GetDownloadURL path in
      exists outcome st' made,
        uploadGalleryImage' (Some f) category title userId sv st = (outcome, st')
        /\ Upload.calls st' = Upload.calls st ++ made
        /\ match outcome with
           | Upload.Returned u =>
               made = [c1; c2; Upload.AddDoc "galleryImages" (Upload.up_data u)]
               /\ Upload.m_title (Upload.up_data u)
                  = Js.str_or title
                      (sanitizeImageName
                         (Upload.strip_extension (Upload.file_name f)))
               /\ Upload.m_date (Upload.up_data u)
                  = Some (before_T (Upload.m_uploadedAt (Upload.up_data u)))
               /\ ("gallery/" ++ Upload.m_filename (Upload.up_data u))%string
                  = path
               /\ Upload.up_id u = Upload.sv_new_id sv (Upload.up_data u)
           | Upload.Thrown e =>
               exists e0,
                 made = [c1] /\ Upload.sv_fails sv c1 = Some e0
                 /\ e = Upload.Failure
                          ("Upload failed: Storage upload failed: "
                           ++ Upload.message e0)
                 \/ made = [c1; c2] /\ Upload.sv_fails sv c2 = Some e0
                    /\ e = Upload.Failure
                             ("Upload failed: Failed to get download URL: "
                              ++ Upload.message e0)
                 \/ exists data,
                      made = [c1; c2; Upload.AddDoc "galleryImages" data]
                      /\ Upload.sv_fails sv (Upload.AddDoc "galleryImages" data)
                         = Some e0
                      /\ e = Upload.Failure
                               ("Upload failed: Failed to save metadata: "
                                ++ Upload.message e0)
           end).
Proof.
  split; [|split].
  - intros msg. unfold Upload.image_rejection.
    unfold Upload.uploadGalleryImage, Upload.try_catch, Upload.bind,
      Upload.read_file, Upload.throw_if, Upload.throw, Upload.ret,
      Upload.Date_now, Upload.await, Upload.is_absent. simpl.
    destruct (Js.truthy_str category); simpl; [|now intros [= <-]].
    destruct (Js.truthy_str userId); simpl; [|now intros [= <-]].
    destruct (5242880 <? Upload.file_size f); simpl; [now intros [= <-]|].
    destruct (Upload.startsWith (Upload.file_type f) "image/"); simpl;
      [discriminate|now intros [= <-]].
  - unfold Upload.image_rejection.
    destruct (Js.truthy_str category), (Js.truthy_str userId),
      (Z.ltb_spec 5242880 (Upload.file_size f)),
      (Upload.startsWith (Upload.file_type f) "image/");
      simpl; split; try discriminate; try tauto; try lia.
    all: intros (? & ? & ? & ?); try discriminate; lia.
  - intros Hok. cbv zeta. unfold Upload.image_rejection in Hok.
    unfold Upload.uploadGalleryImage, Upload.try_catch, Upload.bind,
      Upload.read_file, Upload.throw_if, Upload.throw, Upload.ret,
      Upload.Date_now, Upload.await, Upload.is_absent. simpl.
    destruct (Js.truthy_str category); simpl in *; [|discriminate].
    destruct (Js.truthy_str userId); simpl in *; [|discriminate].
    destruct (5242880 <? Upload.file_size f); simpl in *; [discriminate|].
    destruct (Upload.startsWith (Upload.file_type f) "image/"); simpl in *;
      [|discriminate].
    unfold Upload.image_filename.
    destruct (Upload.sv_fails sv (Upload.UploadBytes _ f)) as [e1|] eqn:E1; simpl.
    { eexists _, _, [_]. split; [reflexivity|]. split; [reflexivity|].
      exists e1. left. repeat split. }
    destruct (Upload.sv_fails sv (Upload.GetDownloadURL _)) as [e2|] eqn:E2; simpl.
    { eexists _, _, [_; _]. split; [reflexivity|]. split.
      - simpl. now rewrite <- app_assoc.
      - exists e2. right. left. repeat split. }
    match goal with
    | |- context [Upload.sv_fails sv (Upload.AddDoc ?coll ?d)] =>
        set (data := d);
        destruct (Upload.sv_fails sv (Upload.AddDoc coll data)) as [e3|] eqn:E3
    end; simpl.
    { eexists _, _, [_; _; _]. split; [reflexivity|]. split.
      - simpl. now rewrite <- !app_assoc.
      - exists e3. right. right. exists data. repeat split. exact E3. }
    eexists _, _, [_; _; _]. split; [reflexivity|]. split.
    + simpl. now rewrite <- !app_assoc.
    + simpl. repeat split.
Qed.

End GalleryUploadFacts.

(** ** Deletions and the download counter *)

(** deleteResource and deleteGalleryImage delete the document first and the
    stored file second, under "resources/" and "gallery/"; the file is left
    alone when the document cannot be deleted, and when the file cannot be
    deleted the document is already gone; in both cases the service's error
    is rethrown as it is, so neither function ever returns false.
    incrementDownloadCount makes one update and never throws: it returns
    false when the update fails. *)
Theorem deletions_and_download_count toISOString sv st target filename :
  let run (collection prefix : string) :=
    let c1 := Upload.DeleteDoc collection target in
    let c2 := Upload.DeleteObject (prefix ++ filename)%string in
    let st1 := Upload.mkState (Upload.calls st ++ [c1])
                 (Upload.time st + Upload.sv_latency sv c1) in
    let st2 := Upload.mkState (Upload.calls st1 ++ [c2])
                 (Upload.time st1 + Upload.sv_latency sv c2) in
    match Upload.sv_fails sv c1 with
    | Some e => (Upload.Thrown e, st1)
    | None =>
        match Upload.sv_fails sv c2 with
        | Some e => (Upload.Thrown e, st2)
        | None => (Upload.Returned true, st2)
        end
    end in
  Upload.deleteResource target filename sv st
  = run "preachingResources" "resources/"
  /\ Upload.deleteGalleryImage target filename sv st
     = run "galleryImages" "gallery/"
  /\ (forall b st', Upload.deleteResource target filename sv st
                    = (Upload.Returned b, st') -> b = true)
  /\ (let c := Upload.UpdateDoc "preachingResources" target
                 (toISOString (Upload.time st)) in
      Upload.incrementDownloadCount toISOString target sv st
      = (Upload.Returned
           match Upload.sv_fails sv c with Some _ => false | None => true end,
         Upload.mkState (Upload.calls st ++ [c])
           (Upload.time st + Upload.sv_latency sv c))).
Proof.
  cbv zeta. split; [|split; [|split]].
  - unfold Upload.deleteResource, Upload.try_catch, Upload.bind, Upload.await,
      Upload.throw, Upload.ret. simpl.
    destruct (Upload.sv_fails sv (Upload.DeleteDoc _ _)); simpl; [reflexivity|].
    destruct (Upload.sv_fails sv (Upload.DeleteObject _)); reflexivity.
  - unfold Upload.deleteGalleryImage, Upload.try_catch, Upload.bind,
      Upload.await, Upload.throw, Upload.ret. simpl.
    destruct (Upload.sv_fails sv (Upload.DeleteDoc _ _)); simpl; [reflexivity|].
    destruct (Upload.sv_fails sv (Upload.DeleteObject _)); reflexivity.
  - intros b st'.
    unfold Upload.deleteResource, Upload.try_catch, Upload.bind, Upload.await,
      Upload.throw, Upload.ret. simpl.
    destruct (Upload.sv_fails sv (Upload.DeleteDoc _ _)); simpl; [discriminate|].
    destruct (Upload.sv_fails sv (Upload.DeleteObject _)); simpl;
      [discriminate|].
    now intros [= <- _].
  - unfold Upload.incrementDownloadCount, Upload.try_catch, Upload.bind,
      Upload.await, Upload.Date_now, Upload.ret. simpl.
    destruct (Upload.sv_fails sv (Upload.UpdateDoc _ _ _)); reflexivity.
Qed.

Lemma deletions_and_download_count_witness :
  Upload.calls
    (snd (Upload.deleteResource "doc1" "books/1_Gita.pdf" sample_services
            no_calls))
  = [Upload.DeleteDoc "preachingResources" "doc1";
     Upload.DeleteObject "resources/books/1_Gita.pdf"].
Proof.
  destruct (deletions_and_download_count (fun _ => "") sample_services no_calls
              "doc1" "books/1_Gita.pdf") as (H & _).
  rewrite H. reflexivity.
Defined.

(** ** Upload, then delete *)

(** What an upload returns is what a deletion needs: deleting with the
    returned id and filename removes the document the upload created and the
    very path the upload stored the file at, for resources and for images. *)
Theorem upload_then_delete toLowerCase toUpperCase toISOString decimal
    sanitizeResourceName sanitizeImageName null_property_error
    sv st f category title description userId :
  (forall u st',
     Upload.uploadResource toLowerCase toUpperCase toISOString decimal
       sanitizeResourceName null_property_error (Some f) category title
       description userId sv st = (Upload.Returned u, st') ->
     exists path,
       In (Upload.UploadBytes path f) (Upload.calls st')
       /\ In (Upload.AddDoc "preachingResources" (Upload.up_data u))
            (Upload.calls st')
       /\ forall sv' st1,
            exists outcome st2,
              Upload.deleteResource (Upload.up_id u)
                (Upload.m_filename (Upload.up_data u)) sv' st1 = (outcome, st2)
              /\ (Upload.calls st2
                  = Upload.calls st1
                    ++ [Upload.DeleteDoc "preachingResources"
                          (Upload.sv_new_id sv (Upload.up_data u))]
                  \/ Upload.calls st2
                     = Upload.calls st1
                       ++ [Upload.DeleteDoc "preachingResources"
                             (Upload.sv_new_id sv (Upload.up_data u));
                           Upload.DeleteObject path])
              /\ (forall b, outcome = Upload.Returned b ->
                     Upload.calls st2
                     = Upload.calls st1
                       ++ [Upload.DeleteDoc "preachingResources"
                             (Upload.sv_new_id sv (Upload.up_data u));
                           Upload.DeleteObject path]))
  /\ (forall u st',
        Upload.uploadGalleryImage toLowerCase toISOString decimal
          sanitizeImageName null_property_error (Some f) category title userId
          sv st = (Upload.Returned u, st') ->
        exists path,
          In (Upload.UploadBytes path f) (Upload.calls st')
          /\ In (Upload.AddDoc "galleryImages" (Upload.up_data u))
               (Upload.calls st')
          /\ forall sv' st1,
               exists outcome st2,
                 Upload.deleteGalleryImage (Upload.up_id u)
                   (Upload.m_filename (Upload.up_data u)) sv' st1
                 = (outcome, st2)
                 /\ (Upload.calls st2
                     = Upload.calls st1
                       ++ [Upload.DeleteDoc "galleryImages"
                             (Upload.sv_new_id sv (Upload.up_data u))]
                     \/ Upload.calls st2
                        = Upload.calls st1
                          ++ [Upload.DeleteDoc "galleryImages"
                                (Upload.sv_new_id sv (Upload.up_data u));
                              Upload.DeleteObject path])
                 /\ (forall b, outcome = Upload.Returned b ->
                        Upload.calls st2
                        = Upload.calls st1
                          ++ [Upload.DeleteDoc "galleryImages"
                                (Upload.sv_new_id sv (Upload.up_data u));
                              Upload.DeleteObject path])).
Proof.
  split.
  - intros u st' H.
    unfold Upload.uploadResource, Upload.try_catch, Upload.bind,
      Upload.read_file, Upload.throw_if, Upload.throw, Upload.ret,
      Upload.Date_now, Upload.await, Upload.is_absent in H. simpl in H.
    destruct (Js.truthy_str category); simpl in H; [|discriminate].
    destruct (Js.truthy_str title); simpl in H; [|discriminate].
    destruct (Js.truthy_str userId); simpl in H; [|discriminate].
    destruct (52428800 <? Upload.file_size f); simpl in H; [discriminate|].
    destruct (Upload.sv_fails sv (Upload.UploadBytes _ f)); simpl in H;
      [discriminate|].
    destruct (Upload.sv_fails sv (Upload.GetDownloadURL _)); simpl in H;
      [discriminate|].
    destruct (Upload.sv_fails sv (Upload.AddDoc _ _)); simpl in H;
      [discriminate|].
    injection H as <- <-. eexists. simpl. split; [|split].
    + apply in_or_app. left. apply in_or_app. left. apply in_or_app. right.
      left. reflexivity.
    + apply in_or_app. right. left. reflexivity.
    + intros sv' st1.
      unfold Upload.deleteResource, Upload.try_catch, Upload.bind,
        Upload.await, Upload.throw, Upload.ret. simpl.
      destruct (Upload.sv_fails sv' (Upload.DeleteDoc _ _)); simpl.
      * eexists _, _. split; [reflexivity|]. simpl.
        split; [now left|discriminate].
      * destruct (Upload.sv_fails sv' (Upload.DeleteObject _));
          (eexists _, _; split; [reflexivity|]; simpl;
           rewrite <- app_assoc; simpl; split; [now right|]);
          [discriminate|reflexivity].
  - intros u st' H.
    unfold Upload.uploadGalleryImage, Upload.try_catch, Upload.bind,
      Upload.read_file, Upload.throw_if, Upload.throw, Upload.ret,
      Upload.Date_now, Upload.await, Upload.is_absent in H. simpl in H.
    destruct (Js.truthy_str category); simpl in H; [|discriminate].
    destruct (Js.truthy_str userId); simpl in H; [|discriminate].
    destruct (5242880 <? Upload.file_size f); simpl in H; [discriminate|].
    destruct (Upload.startsWith (Upload.file_type f) "image/"); simpl in H;
      [|discriminate].
    destruct (Upload.sv_fails sv (Upload.UploadBytes _ f)); simpl in H;
      [discriminate|].
    destruct (Upload.sv_fails sv (Upload.GetDownloadURL _)); simpl in H;
      [discriminate|].
    destruct (Upload.sv_fails sv (Upload.AddDoc _ _)); simpl in H;
      [discriminate|].
    injection H as <- <-. eexists. simpl. split; [|split].
    + apply in_or_app. left. apply in_or_app. left. apply in_or_app. right.
      left. reflexivity.
    + apply in_or_app. right. left. reflexivity.
    + intros sv' st1.
      unfold Upload.deleteGalleryImage, Upload.try_catch, Upload.bind,
        Upload.await, Upload.throw, Upload.ret. simpl.
      destruct (Upload.sv_fails sv' (Upload.DeleteDoc _ _)); simpl.
      * eexists _, _. split; [reflexivity|]. simpl.
        split; [now left|discriminate].
      * destruct (Upload.sv_fails sv' (Upload.DeleteObject _));
          (eexists _, _; split; [reflexivity|]; simpl;
           rewrite <- app_assoc; simpl; split; [now right|]);
          [discriminate|reflexivity].
Qed.

Lemma uploadResource_checks_first_witness :
  Upload.uploadResource (fun s => s) (fun s => s) (fun _ => "") (fun _ => "")
    (fun s => s) (Upload.Failure "null") (Some sample_document) (Some "books")
    None None (Some "u1") sample_services no_calls
  = (Upload.Thrown (Upload.Failure "Upload failed: Title is required"), no_calls).
Proof.
  destruct (uploadResource_checks_first (fun s => s) (fun s => s) (fun _ => "")
              (fun _ => "") (fun s => s) (Upload.Failure "null")
              sample_services no_calls sample_document (Some "books") None None
              (Some "u1")) as (H & _).
  apply (H "Title is required"). reflexivity.
Defined.

Lemma uploadResource_calls_witness :
  exists outcome st' made,
    Upload.uploadResource (fun s => s) (fun s => s) (fun _ => "") (fun _ => "")
      (fun s => s) (Upload.Failure "null") (Some sample_document) (Some "books")
      (Some "Gita notes") None (Some "u1") sample_services no_calls
    = (outcome, st')
    /\ Upload.calls st' = Upload.calls no_calls ++ made
    /\ forall c, In c made -> Upload.is_deletion c = false.
Proof.
  destruct (uploadResource_calls (fun s => s) (fun s => s) (fun _ => "")
              (fun _ => "") (fun s => s) (Upload.Failure "null")
              sample_services no_calls sample_document (Some "books")
              (Some "Gita notes") None (Some "u1") eq_refl)
    as (outcome & st' & made & H1 & H2 & H3 & _).
  now exists outcome, st', made.
Defined.

Lemma uploadGalleryImage_outcomes_witness :
  Upload.uploadGalleryImage (fun s => s) (fun _ => "") (fun _ => "")
    (fun s => s) (Upload.Failure "null") (Some sample_document)
    (Some "activities") None (Some "u1") sample_services no_calls
  = (Upload.Thrown (Upload.Failure "Upload failed: File must be an image"),
     no_calls).
Proof.
  destruct (uploadGalleryImage_outcomes (fun s => s) (fun _ => "")
              (fun _ => "") (fun s => s) (Upload.Failure "null")
              sample_services no_calls sample_document (Some "activities") None
              (Some "u1")) as (H & _).
  apply (H "File must be an image"). reflexivity.
Defined.

Lemma upload_then_delete_witness :
  exists path,
    In (Upload.UploadBytes path sample_image)
      (Upload.calls
         (snd (Upload.uploadGalleryImage (fun s => s) (fun _ => "")
                 (fun _ => "") (fun s => s) (Upload.Failure "null")
                 (Some sample_image) (Some "activities") None (Some "u1")
                 sample_services no_calls))).
Proof.
  destruct (upload_then_delete (fun s => s) (fun s => s) (fun _ => "")
              (fun _ => "") (fun s => s) (fun s => s) (Upload.Failure "null")
              sample_services no_calls sample_image (Some "activities") None
              None (Some "u1")) as (_ & H).
  destruct (H _ _ eq_refl) as (path & Hin & _).
  exists path. exact Hin.
Defined.

(** ** The listing of debugGalleryImages *)

Lemma listed_set_new o k :
  JsObject.get o k = None -> listed (JsObject.set o k []) = listed o.
Proof.
  unfold listed. induction o as [|[k' l] o IH]; simpl; [reflexivity|].
  destruct (String.eqb_spec k' k); [discriminate|].
  intros H. simpl. now rewrite IH.
Qed.

Lemma listed_modify o k x :
  JsObject.get o k <> None ->
  listed (JsObject.modify o k (fun l => l ++ [x])) = listed o + 1.
Proof.
  unfold listed. induction o as [|[k' l] o IH]; simpl.
  - intros H. now contradiction H.
  - destruct (String.eqb_spec k' k); simpl.
    + intros _. rewrite length_app. simpl. lia.
    + intros H. rewrite IH by exact H. lia.
Qed.

Lemma debug_step_get o d k :
  JsObject.get (debug_step o d) k =
  if (debug_category d =? k)%string
  then Some (match JsObject.get o k with Some l => l | None => [] end
             ++ [debug_entry_of d])
  else JsObject.get o k.
Proof.
  unfold debug_step. cbv zeta.
  destruct (String.eqb_spec (debug_category d) k) as [<-|Hne].
  - rewrite get_modify_same.
    destruct (JsObject.get o (debug_category d)) eqn:G.
    + now rewrite G.
    + now rewrite get_set_same.
  - rewrite get_modify_other by exact Hne.
    destruct (JsObject.get o (debug_category d)); [reflexivity|].
    now rewrite get_set_other.
Qed.

Lemma debug_step_listed o d : listed (debug_step o d) = listed o + 1.
Proof.
  unfold debug_step. cbv zeta.
  destruct (JsObject.get o (debug_category d)) eqn:G.
  - apply listed_modify. now rewrite G.
  - rewrite listed_modify by (rewrite get_set_same; discriminate).
    now rewrite listed_set_new.
Qed.

Lemma debug_step_keys o d :
  map fst (debug_step o d) = set_add (map fst o) (debug_category d).
Proof.
  unfold debug_step. cbv zeta. rewrite modify_keys_raw.
  unfold set_add. rewrite existsb_keys.
  destruct (JsObject.get o (debug_category d)) eqn:G; [reflexivity|].
  rewrite set_keys_raw. now rewrite G.
Qed.

Lemma debug_fold_spec docs :
  let groups := fold_left debug_step docs JsObject.empty in
  (forall k,
     JsObject.get groups k
     = match filter (fun d => (debug_category d =? k)%string) docs with
       | [] => None
       | found => Some (map debug_entry_of found)
       end)
  /\ map fst groups = distinct_in_order (map debug_category docs)
  /\ listed groups = Z.of_nat (List.length docs).
Proof.
  cbv zeta. split; [|split].
  - intros k. induction docs as [|d ds IH] using rev_ind; [reflexivity|].
    rewrite fold_left_app. simpl. rewrite debug_step_get, IH, filter_app.
    simpl. destruct (debug_category d =? k)%string.
    + destruct (filter _ ds); [reflexivity|].
      now rewrite <- map_cons, <- map_last.
    + now rewrite app_nil_r.
  - unfold distinct_in_order.
    change (@nil string) with (map fst (@JsObject.empty (list debug_entry))).
    generalize (@JsObject.empty (list debug_entry)) as o.
    induction docs as [|d ds IH]; intros o; simpl; [reflexivity|].
    now rewrite IH, debug_step_keys.
  - induction docs as [|d ds IH] using rev_ind; [reflexivity|].
    rewrite fold_left_app. simpl. rewrite debug_step_listed, IH, length_app.
    simpl. lia.
Qed.

(** debugGalleryImages never throws.  When the store answers and lists the
    images under plain names, every image document is listed exactly once,
    under its category or under "unknown" when it has none, in the order of
    the store within a category; a category without documents has no entry;
    when the store fails the listing is empty. *)
Theorem debugGalleryImages_lists_each_image_once gallery_answer w :
  exists groups w',
    debugGalleryImages gallery_answer w = (Ok groups, w')
    /\ match st_refuses (store w) debug_query with
       | Some _ =>
           groups = JsObject.empty
           /\ w' = logged (after_query w debug_query)
                     "Error debugging gallery images:"
       | None =>
           let docs := gallery_answer (store w) debug_query in
           plain_gallery docs = true ->
           w' = after_query w debug_query
           /\ (forall k,
                 JsObject.plain k = true ->
                 JsObject.get groups k
                 = match filter (fun d => (debug_category d =? k)%string) docs
                   with
                   | [] => None
                   | found => Some (map debug_entry_of found)
                   end)
           /\ (forall d,
                 In d docs -> Js.truthy_str (im_category (snd d)) = false ->
                 exists l, JsObject.get groups "unknown" = Some l
                           /\ In (debug_entry_of d) l)
           /\ (forall d c,
                 In d docs -> im_category (snd d) = Some c -> c <> "" ->
                 exists l, JsObject.get groups c = Some l
                           /\ In (debug_entry_of d) l)
           /\ Permutation (JsObject.keys groups)
                (distinct_in_order (map debug_category docs))
           /\ Spec.sumZ (fun l => Z.of_nat (List.length l))
                (JsObject.values groups)
              = Z.of_nat (List.length docs)
       end.
Proof.
  unfold debugGalleryImages, try_catch, bind, getDocs, console_error, emit, ret.
  simpl. destruct (st_refuses (store w) debug_query).
  - eexists _, _. split; [reflexivity|]. split; reflexivity.
  - eexists _, _. split; [reflexivity|]. cbv zeta. intros _.
    destruct (debug_fold_spec (gallery_answer (store w) debug_query))
      as (Hget & Hkeys & Hlisted).
    cbv zeta in *.
    assert (Hin : forall d,
               In d (gallery_answer (store w) debug_query) ->
               exists l,
                 JsObject.get
                   (fold_left debug_step (gallery_answer (store w) debug_query)
                      JsObject.empty) (debug_category d) = Some l
                 /\ In (debug_entry_of d) l).
    { intros d Hd. rewrite Hget.
      assert (Hf : In d (filter
                           (fun d' => (debug_category d' =? debug_category d)%string)
                           (gallery_answer (store w) debug_query))).
      { apply filter_In. split; [exact Hd|apply String.eqb_refl]. }
      remember (filter
                  (fun d' => (debug_category d' =? debug_category d)%string)
                  (gallery_answer (store w) debug_query)) as found eqn:E.
      destruct found as [|x found]; [contradiction|].
      eexists. split; [reflexivity|]. now apply in_map. }
    split; [reflexivity|]. split; [intros k _; apply Hget|].
    split; [|split; [|split]].
    + intros d Hd Hc. destruct (Hin d Hd) as (l & Hl & Hdl).
      exists l. split; [|exact Hdl].
      unfold debug_category in Hl. now rewrite (str_or_falsy _ _ Hc) in Hl.
    + intros d c Hd Hc Hne. destruct (Hin d Hd) as (l & Hl & Hdl).
      exists l. split; [|exact Hdl].
      unfold debug_category in Hl.
      now rewrite (str_or_truthy _ "unknown" c Hc Hne) in Hl.
    + rewrite <- Hkeys. apply keys_perm.
    + rewrite <- Hlisted. unfold JsObject.values, listed.
      rewrite sumZ_map. apply sumZ_perm, entries_perm.
Qed.

Lemma debugGalleryImages_lists_each_image_once_witness :
  exists groups w',
    debugGalleryImages
      (fun _ _ => [("i1", mkImageDoc None None None None None None None)])
      online_world = (Ok groups, w')
    /\ exists l,
         JsObject.get groups "unknown" = Some l
         /\ In (debug_entry_of
                  ("i1", mkImageDoc None None None None None None None)) l.
Proof.
  destruct (debugGalleryImages_lists_each_image_once
              (fun _ _ => [("i1", mkImageDoc None None None None None None None)])
              online_world) as (groups & w' & Hrun & H).
  exists groups, w'. split; [exact Hrun|].
  simpl in H. destruct (H eq_refl) as (_ & _ & Hunknown & _).
  apply Hunknown; [now left|reflexivity].
Defined.

(** ** The live feed of gallery images *)

Section GalleryListenerFacts.

Variable gallery_answer : store_t -> query -> list (string * image_doc).
Variable toISOString : Z -> string.
Variable sortImages : list image -> list image.
Variable sortItems : list gallery_item -> list gallery_item.
Variable mentions_index : error -> bool.

Local Abbreviation fetchGalleryImages' :=
  (fetchGalleryImages gallery_answer toISOString sortImages).
Local Abbreviation listenToGalleryImages' :=
  (listenToGalleryImages gallery_answer toISOString sortImages sortItems
     mentions_index).
Local Abbreviation gallery_onError' :=
  (gallery_onError gallery_answer toISOString sortImages sortItems
     mentions_index).

Lemma fetchGalleryImages_returns category w :
  exists images w', fetchGalleryImages' category w = (Ok images, w').
Proof.
  unfold fetchGalleryImages, try_catch, bind, getDocs, Date_now,
    console_error, emit, throw, ret. simpl.
  destruct (st_refuses (store w) (gallery_ordered_query category)); simpl;
    [destruct (st_refuses (store w) (gallery_plain_query category)); simpl|];
    eauto.
Qed.

(** The gallery listener hands each pushed snapshot to the callback as the
    store ordered it.  On an error of the feed that is an index error, it
    subscribes a second time, without the ordering, and does nothing else: no
    fetch, and the callback is not run.  On any other error, or when the
    second subscription cannot be set up, it fetches the images once and runs
    the callback on them; if the callback throws, it is run again on the empty
    sequence. *)
Theorem gallery_listener_error_paths category callback w :
  st_rejects (store w) (gallery_ordered_query category) = None ->
  exists s w' onError,
    listenToGalleryImages' category callback w = (Ok (Some s), w')
    /\ sub_query s = gallery_ordered_query category
    /\ sub_error s = Some onError
    /\ (forall docs w1,
          deliver s (Snapshot docs) w1
          = callback (map gallery_item_of_doc docs) w1)
    /\ (forall e w1,
          is_index_error mentions_index e = true ->
          st_rejects (store w1) (gallery_plain_query category) = None ->
          deliver s (ListenError e) w1
          = (Ok tt,
             emitted (logged w1 "Real-time listener error:")
               (OnSnapshot (gallery_plain_query category))))
    /\ (forall e w1,
          is_index_error mentions_index e = false
          \/ st_rejects (store w1) (gallery_plain_query category) <> None ->
          let w2 :=
            if is_index_error mentions_index e
            then logged (logged w1 "Real-time listener error:")
                   "Fallback real-time listener also failed:"
            else logged w1 "Real-time listener error:" in
          exists images w3,
            fetchGalleryImages' category w2 = (Ok images, w3)
            /\ deliver s (ListenError e) w1
               = match callback (map gallery_item_of_image images) w3 with
                 | (Ok u, w4) => (Ok u, w4)
                 | (Throw _, w4) =>
                     callback [] (logged w4 "Manual fallback fetch also failed:")
                 end).
Proof.
  intros Hok. unfold listenToGalleryImages, try_catch, bind, onSnapshot.
  rewrite Hok. eexists _, _, _. split; [reflexivity|]. split; [reflexivity|].
  split; [reflexivity|]. split; [|split].
  - intros docs w1. reflexivity.
  - intros e w1 He Hsub. simpl.
    unfold gallery_onError, bind, try_catch, console_error, emit, onSnapshot, ret.
    simpl. rewrite He. simpl. rewrite Hsub. reflexivity.
  - intros e w1 Hcase. cbv zeta. simpl.
    unfold gallery_onError, bind, try_catch, console_error, emit, onSnapshot, ret.
    simpl.
    destruct (is_index_error mentions_index e) eqn:He.
    + destruct Hcase as [Hf|Hrej]; [discriminate|]. simpl.
      destruct (st_rejects (store w1) (gallery_plain_query category)) eqn:Er;
        [|now contradiction Hrej].
      simpl.
      match goal with
      | |- context [fetchGalleryImages _ _ _ category ?w2] =>
          destruct (fetchGalleryImages_returns category w2)
            as (images & w3 & Hf)
      end.
      exists images, w3. split; [exact Hf|].
      unfold logged in Hf. simpl in Hf. rewrite Hf.
      unfold logged. simpl.
      destruct (callback (map gallery_item_of_image images) w3) as [[u|e'] w4];
        reflexivity.
    + simpl.
      match goal with
      | |- context [fetchGalleryImages _ _ _ category ?w2] =>
          destruct (fetchGalleryImages_returns category w2)
            as (images & w3 & Hf)
      end.
      exists images, w3. split; [exact Hf|].
      unfold logged in Hf. simpl in Hf. rewrite Hf.
      unfold logged. simpl.
      destruct (callback (map gallery_item_of_image images) w3) as [[u|e'] w4];
        reflexivity.
Qed.

End GalleryListenerFacts.

Lemma gallery_listener_error_paths_witness :
  exists s w',
    listenToGalleryImages (fun _ _ => []) (fun _ => "") (fun l => l)
      (fun l => l) (fun _ => true) (Some "activities") quiet online_world
    = (Ok (Some s), w')
    /\ sub_query s = gallery_ordered_query (Some "activities").
Proof.
  destruct (gallery_listener_error_paths (fun _ _ => []) (fun _ => "")
              (fun l => l) (fun l => l) (fun _ => true) (Some "activities")
              quiet online_world eq_refl) as (s & w' & onError & H & Hq & _).
  now exists s, w'.
Defined.

(** ** The directories mirror the store *)

Lemma set_new {V : Type} (o : JsObject.t V) k v :
  JsObject.get o k = None -> JsObject.set o k v = o ++ [(k, v)].
Proof.
  induction o as [|[k' v'] o IH]; simpl; [reflexivity|].
  destruct (String.eqb_spec k' k); [discriminate|].
  intros H. now rewrite IH.
Qed.

Lemma of_docs_unique_ids {V : Type} (docs : list (string * V)) :
  NoDup (map fst docs) -> JsObject.of_docs docs = docs.
Proof.
  unfold JsObject.of_docs, JsObject.empty.
  assert (H : forall acc : JsObject.t V,
             NoDup (map fst (acc ++ docs)) ->
             fold_left (fun o d => JsObject.set o (fst d) (snd d)) docs acc
             = acc ++ docs).
  { induction docs as [|[k v] docs IH]; intros acc Hnd; simpl.
    - now rewrite app_nil_r.
    - rewrite set_new.
      + rewrite IH; rewrite <- app_assoc; [reflexivity|exact Hnd].
      + apply get_None_iff. rewrite map_app in Hnd. simpl in Hnd.
        apply NoDup_remove_2 in Hnd. intros Hin. apply Hnd.
        apply in_or_app. now left. }
  intros Hnd. now apply (H []).
Qed.

(** When the store answers and its user documents have distinct ids, the
    directory that fetchUsers returns and caches holds exactly the store's
    documents: a user is found under an id if and only if the store has that
    document under that id, and activePreachers computed from it is the number
    of user documents.  The same holds for the categories. *)
Theorem directories_mirror_the_store w :
  (st_refuses (store w) users_query = None ->
   valid_at (dataCache w) (clock w) = false
   \/ DataCache.users (dataCache w) = None ->
   NoDup (map fst (st_users (store w))) ->
   exists users w',
     fetchUsers w = (Ok users, w')
     /\ DataCache.users (dataCache w') = Some users
     /\ (forall uid u, JsObject.get users uid = Some u
                       <-> In (uid, u) (st_users (store w)))
     /\ forall reports,
          activePreachers (impact_of reports users)
          = Z.of_nat (List.length (st_users (store w))))
  /\ (st_refuses (store w) categories_query = None ->
      valid_at (dataCache w) (clock w) = false
      \/ DataCache.preachingCategories (dataCache w) = None ->
      NoDup (map fst (st_preachingCategories (store w))) ->
      exists categories w',
        fetchPreachingCategories w = (Ok categories, w')
        /\ DataCache.preachingCategories (dataCache w') = Some categories
        /\ forall cid c, JsObject.get categories cid = Some c
                         <-> In (cid, c) (st_preachingCategories (store w))).
Proof.
  split.
  - intros Hok Hmiss Hnd. rewrite fetchUsers_miss by exact Hmiss. rewrite Hok.
    cbv zeta. rewrite (of_docs_unique_ids _ Hnd).
    eexists _, _. split; [reflexivity|]. split; [reflexivity|]. split.
    + intros uid u. split; [apply get_In|now apply In_get].
    + intros reports. unfold impact_of. simpl. now rewrite keys_length.
  - intros Hok Hmiss Hnd. rewrite fetchPreachingCategories_miss by exact Hmiss.
    rewrite Hok. cbv zeta. rewrite (of_docs_unique_ids _ Hnd).
    eexists _, _. split; [reflexivity|]. split; [reflexivity|].
    intros cid c. split; [apply get_In|now apply In_get].
Qed.

Lemma directories_mirror_the_store_witness :
  exists users w',
    fetchUsers online_world = (Ok users, w')
    /\ JsObject.get users "u1" = Some (user_of_temple "Ipoh").
Proof.
  destruct (directories_mirror_the_store online_world) as (H & _).
  destruct H as (users & w' & Hf & _ & Hin & _);
    [reflexivity|now left|repeat constructor; simpl; tauto|].
  exists users, w'. split; [exact Hf|]. apply Hin. now left.
Defined.
